(** * MiniWorld terrain renderer: a shallow embedding of the block generator

    The development follows [_init_.py]: the coordinate and mapping-table
    parsers, [ModelConfig], the directional face finder, the four material
    systems, the template cache of [BlockModelManager] and the placement of
    blocks.  Python text is modelled as [string] (one [ascii] per character,
    so the text is assumed to be ASCII), Python [int] as [Z], a Python
    [float] as a binary64 number, a [dict] as a [gmap]. *)

From Stdlib Require Import ZArith List Bool Ascii String Lia.
From Stdlib Require Import Floats.
From Stdlib Require Sorted.
From stdpp Require Import base option gmap strings pretty.
Import ListNotations.

Local Open Scope string_scope.
Local Open Scope Z_scope.

(** ** Python string primitives *)

Module PyStr.

(** [str.isspace] on the ASCII range: TAB..CR, FS..US and the blank. *)
Definition is_space (c : ascii) : bool :=
  let n := nat_of_ascii c in
  ((9 <=? n)%nat && (n <=? 13)%nat) || ((28 <=? n)%nat && (n <=? 32)%nat).

Fixpoint lstrip (s : string) : string :=
  match s with
  | EmptyString => EmptyString
  | String c s' => if is_space c then lstrip s' else s
  end.

Definition rstrip (s : string) : string :=
  String.rev (lstrip (String.rev s)).

(** [s.strip()] *)
Definition strip (s : string) : string := rstrip (lstrip s).

(** [s.startswith(c)] for a one-character prefix. *)
Definition startswith (c : ascii) (s : string) : bool :=
  match s with
  | String c' _ => Ascii.eqb c' c
  | EmptyString => false
  end.

(** [c in s] for a one-character needle. *)
Fixpoint contains (c : ascii) (s : string) : bool :=
  match s with
  | EmptyString => false
  | String c' s' => Ascii.eqb c' c || contains c s'
  end.

(** [s.split(d)] for a one-character separator: never the empty list. *)
Fixpoint split (d : ascii) (s : string) : list string :=
  match s with
  | EmptyString => [EmptyString]
  | String c s' =>
      if Ascii.eqb c d then EmptyString :: split d s'
      else match split d s' with
           | [] => [String c EmptyString]
           | p :: ps => String c p :: ps
           end
  end.

(** [re.split(r'\s+', s)]: the pieces between the maximal runs of white
    space, an empty piece before a leading and after a trailing run. *)
Fixpoint re_split_ws_go (in_ws : bool) (s : string) : list string :=
  match s with
  | EmptyString => [EmptyString]
  | String c s' =>
      if is_space c then
        if in_ws then re_split_ws_go true s'
        else EmptyString :: re_split_ws_go true s'
      else match re_split_ws_go false s' with
           | [] => [String c EmptyString]
           | p :: ps => String c p :: ps
           end
  end.

Definition re_split_ws (s : string) : list string :=
  re_split_ws_go false s.

(** The lines of a text file opened in text mode: a line ends at LF, CR
    or CR LF.  (The terminators are dropped: every reader below strips
    the line first.) *)
Fixpoint readlines (s : string) : list string :=
  match s with
  | EmptyString => []
  | String c s' =>
      let rest := readlines s' in
      if Ascii.eqb c "010" then EmptyString :: rest
      else if Ascii.eqb c "013" then
        match s' with
        | String c2 _ => if Ascii.eqb c2 "010" then rest else EmptyString :: rest
        | EmptyString => [EmptyString]
        end
      else match rest with
           | [] => [String c EmptyString]
           | p :: ps => String c p :: ps
           end
  end.

Definition is_digit (c : ascii) : bool :=
  let n := nat_of_ascii c in (48 <=? n)%nat && (n <=? 57)%nat.

Definition digit_val (c : ascii) : Z := Z.of_nat (nat_of_ascii c) - 48.

(** A [digitpart]: decimal digits, single underscores allowed between
    two digits.  [digits_go acc after_digit s] reads it from the left;
    the result is the value and the number of digits read. *)
Fixpoint digits_go (acc : Z) (n : nat) (prev_digit : bool) (s : string)
  : option (Z * nat) :=
  match s with
  | EmptyString => if prev_digit then Some (acc, n) else None
  | String c s' =>
      if is_digit c then digits_go (10 * acc + digit_val c) (S n) true s'
      else if Ascii.eqb c "_" then
        if prev_digit then digits_go acc n false s' else None
      else None
  end.

Definition digitpart (s : string) : option (Z * nat) :=
  digits_go 0 0%nat false s.

(** The white space that [int] and [float] skip around a number; on an
    ASCII text it is the one of C's [isspace], TAB..CR and the blank (the
    separators FS..US, which [str.strip] removes, make them raise). *)
Definition is_number_space (c : ascii) : bool :=
  let n := nat_of_ascii c in
  ((9 <=? n)%nat && (n <=? 13)%nat) || (n =? 32)%nat.

Fixpoint lstrip_number (s : string) : string :=
  match s with
  | EmptyString => EmptyString
  | String c s' => if is_number_space c then lstrip_number s' else s
  end.

Definition strip_number (s : string) : string :=
  String.rev (lstrip_number (String.rev (lstrip_number s))).

(** [sys.get_int_max_str_digits()], at its default. *)
Definition int_max_str_digits : nat := 4300.

(** The digits of an [int] literal: their value, [None] when they are no
    [digitpart] or are more than the limit. *)
Definition int_digits (s : string) : option Z :=
  match digitpart s with
  | Some (v, n) => if (n <=? int_max_str_digits)%nat then Some v else None
  | None => None
  end.

(** [int(s)] in base ten; [None] stands for [ValueError]. *)
Definition py_int (s : string) : option Z :=
  match strip_number s with
  | String "+" r => int_digits r
  | String "-" r => Z.opp <$> int_digits r
  | r => int_digits r
  end.

(** [str(n)] *)
Definition str_of_int (n : Z) : string := pretty n.

(** [s.endswith(c)] for a one-character suffix. *)
Fixpoint endswith (c : ascii) (s : string) : bool :=
  match s with
  | EmptyString => false
  | String c' EmptyString => Ascii.eqb c' c
  | String _ s' => endswith c s'
  end.

(** [posixpath.join(a, b)] *)
Definition join2 (a b : string) : string :=
  if startswith "/" b then b
  else if String.eqb a "" || endswith "/" a then a ++ b
  else a ++ "/" ++ b.

(** [os.path.join(a, *ps)] *)
Definition path_join (a : string) (ps : list string) : string :=
  fold_left join2 ps a.

End PyStr.

(** ** The mapping table ([parse_mapping_table]) *)

Module Mapping.
Import PyStr.

(** One entry of the dictionary built by [parse_mapping_table]. *)
Record MappingRecord := mkMappingRecord {
  position_id : Z;
  blocktype : string;
  main_texture_prefix : string;
  submodel_name : string;
  z_texture_prefix : string;
  has_main_texture : bool;
  has_submodel : bool;
  has_z_texture : bool;
  all_parts : list string
}.

(** Truth value of a Python string: [s != ''] *)
Definition truthy (s : string) : bool := negb (String.eqb s "").

(** [parts[i] if len(parts) > i else ''] *)
Definition field (i : nat) (parts : list string) : string :=
  if (i <? length parts)%nat then nth i parts "" else "".

(** The body of the inner [try]: [None] is the [ValueError] of [int]. *)
Definition parse_fields (parts : list string) : option MappingRecord :=
  match py_int (nth 0 parts "") with
  | None => None
  | Some pid =>
      let blocktype := field 6 parts in
      let main0 := field 43 parts in
      let submodel_name := field 44 parts in
      let z0 := field 44 parts in
      let '(main, z) :=
        if contains "," main0 then
          let split_parts := split "," main0 in
          (if (0 <? length split_parts)%nat then nth 0 split_parts "" else "",
           if (1 <? length split_parts)%nat then nth 1 split_parts "" else z0)
        else (main0, z0) in
      Some {| position_id := pid;
              blocktype := blocktype;
              main_texture_prefix := main;
              submodel_name := submodel_name;
              z_texture_prefix := z;
              has_main_texture := truthy main;
              has_submodel := truthy submodel_name;
              has_z_texture := truthy z;
              all_parts := parts |}
  end.

(** What one line of the file contributes: nothing for a blank line, a
    line starting with [=], a line of fewer than 46 fields or a line
    whose first field is no integer. *)
Definition parse_line (line : string) : option MappingRecord :=
  let line := strip line in
  if negb (truthy line) || startswith "=" line then None
  else
    let parts := split "," line in
    if (length parts <? 46)%nat then None
    else parse_fields parts.

Definition add_line (mapping : gmap Z MappingRecord) (line : string)
  : gmap Z MappingRecord :=
  match parse_line line with
  | Some r => <[position_id r := r]> mapping
  | None => mapping
  end.

(** [parse_mapping_table]; the file is [None] when the path does not
    exist or cannot be read, otherwise its text. *)
Definition parse_mapping_table (file : option string) : gmap Z MappingRecord :=
  match file with
  | None => ∅
  | Some text => fold_left add_line (readlines text) ∅
  end.

End Mapping.

(** ** The model configuration ([ModelConfig]) *)

Module Config.
Import PyStr Mapping.

Inductive MaterialSystem :=
| teamspawn_system
| soil_system
| minestone_system
| submodel_only
| default_system.

Record ModelConfig := mkModelConfig {
  cfg_position_id : Z;
  cfg_mapping_data : option MappingRecord;
  texture_base_path : string;
  models_base_path : string;
  cfg_blocktype : string;
  cfg_main_texture_prefix : string;
  cfg_submodel_name : string;
  cfg_z_texture_prefix : string;
  material_system : MaterialSystem;
  main_model_path : string;
  submodel_path : option string;
  need_main_model : bool
}.

(** [b in [...]] on strings *)
Definition str_in (b : string) (l : list string) : bool :=
  existsb (String.eqb b) l.

(** The [if/elif] chain that picks the material system. *)
Definition choose_material_system (blocktype main_texture_prefix : string)
  : MaterialSystem :=
  if String.eqb blocktype "teamspawn" then teamspawn_system
  else if str_in blocktype ["soil"; "plantash"] then soil_system
  else if str_in blocktype
            ["minestone"; "stone"; "buildblueprint"; "regionreplicator";
             "replicator"; "airwall"; "copier"] then minestone_system
  else if str_in blocktype ["replicator"; "regionreplicator"; "airwall"; "copier"] then
    if truthy main_texture_prefix then minestone_system else submodel_only
  else default_system.

Definition material_system_eqb (a b : MaterialSystem) : bool :=
  match a, b with
  | teamspawn_system, teamspawn_system
  | soil_system, soil_system
  | minestone_system, minestone_system
  | submodel_only, submodel_only
  | default_system, default_system => true
  | _, _ => false
  end.

Section WithFiles.
(** [os.path.exists] *)
Variable path_exists : string -> bool.

(** The first existing candidate of a [for ... break] probe. *)
Definition first_existing (paths : list string) : option string :=
  List.find path_exists paths.

(** [ModelConfig.__init__] *)
Definition new_ModelConfig (position_id : Z) (mapping_data : option MappingRecord)
           (texture_base_path models_base_path : string) : ModelConfig :=
  let blocktype := from_option blocktype "" mapping_data in
  let main_prefix := from_option main_texture_prefix "" mapping_data in
  let submodel_name0 := from_option submodel_name "" mapping_data in
  let z_prefix := from_option z_texture_prefix "" mapping_data in
  let system := choose_material_system blocktype main_prefix in
  let is_teamspawn := String.eqb blocktype "teamspawn" in
  (* main model path; teamspawn also clears the submodel name *)
  let main_path :=
    if is_teamspawn
    then path_join models_base_path [str_of_int position_id; "teamspawn.obj"]
    else path_join models_base_path ["models"; "block.obj"] in
  let submodel_name1 := if is_teamspawn then "" else submodel_name0 in
  (* whether a main model is needed *)
  let need0 :=
    if truthy submodel_name1
    then (if negb (truthy main_prefix) then false else true)
    else (if truthy main_prefix then true else false) in
  let need1 := if material_system_eqb system submodel_only then false else need0 in
  let need2 := if is_teamspawn then true else need1 in
  let submodel_name2 := if is_teamspawn then "" else submodel_name1 in
  (* submodel lookup *)
  let sub_path :=
    if truthy submodel_name2 && negb is_teamspawn then
      let id_folder := path_join models_base_path [str_of_int position_id] in
      let possible_names :=
        [submodel_name2 ++ ".obj"; submodel_name2 ++ "_lod1.obj";
         submodel_name2 ++ "_lod0.obj"] in
      match first_existing (map (fun n => path_join id_folder [n]) possible_names) with
      | Some p => Some p
      | None =>
          first_existing
            (map (fun n => path_join models_base_path ["models"; n]) possible_names)
      end
    else None in
  {| cfg_position_id := position_id;
     cfg_mapping_data := mapping_data;
     texture_base_path := texture_base_path;
     models_base_path := models_base_path;
     cfg_blocktype := blocktype;
     cfg_main_texture_prefix := main_prefix;
     cfg_submodel_name := submodel_name2;
     cfg_z_texture_prefix := z_prefix;
     material_system := system;
     main_model_path := main_path;
     submodel_path := sub_path;
     need_main_model := need2 |}.

(** [has_main_model] *)
Definition has_main_model (c : ModelConfig) : bool :=
  need_main_model c && path_exists (main_model_path c).

(** [has_submodel] *)
Definition has_submodel (c : ModelConfig) : bool :=
  if String.eqb (cfg_blocktype c) "teamspawn" then false
  else match submodel_path c with
       | Some p => truthy p && path_exists p
       | None => false
       end.

(** [face_type.lower()] on ASCII letters *)
Definition lower_char (c : ascii) : ascii :=
  let n := nat_of_ascii c in
  if (65 <=? n)%nat && (n <=? 90)%nat then ascii_of_nat (n + 32) else c.

Fixpoint lower (s : string) : string :=
  match s with
  | EmptyString => EmptyString
  | String c s' => String (lower_char c) (lower s')
  end.

Definition id_folder (c : ModelConfig) : string :=
  path_join (texture_base_path c) [str_of_int (cfg_position_id c)].

Definition probe (path : string) : option string :=
  if path_exists path then Some path else None.

(** [_get_default_texture_path] *)
Definition get_default_texture_path (c : ModelConfig) (face_type : string)
  : option string :=
  let pre := cfg_main_texture_prefix c in
  let expected_filename :=
    if String.eqb (lower face_type) "x" then pre ++ "_z.png"
    else if String.eqb (lower face_type) "y" then pre ++ "_x.png"
    else if String.eqb (lower face_type) "z" then pre ++ "_y.png"
    else pre ++ "_" ++ face_type ++ ".png" in
  probe (path_join (id_folder c) [expected_filename]).

(** [_get_minestone_texture_path] *)
Definition get_minestone_texture_path (c : ModelConfig) (face_type : string)
  : option string :=
  let pre := cfg_main_texture_prefix c in
  let expected_filename :=
    if String.eqb (lower face_type) "x" then pre ++ "_z.png"
    else if String.eqb (lower face_type) "y" then pre ++ "_x.png"
    else if String.eqb (lower face_type) "z" then pre ++ "_y.png"
    else pre ++ ".png" in
  match probe (path_join (id_folder c) [expected_filename]) with
  | Some p => Some p
  | None => probe (path_join (id_folder c) [pre ++ ".png"])
  end.

(** [_get_soil_texture_path] *)
Definition get_soil_texture_path (c : ModelConfig) (face_type : string)
  : option string :=
  let pre := cfg_main_texture_prefix c in
  let in_folder := map (fun n => path_join (id_folder c) [n]) in
  if String.eqb (lower face_type) "z" then
    let special :=
      if truthy (cfg_z_texture_prefix c)
      then probe (path_join (id_folder c) [cfg_z_texture_prefix c ++ ".png"])
      else None in
    match special with
    | Some p => Some p
    | None =>
        first_existing
          (in_folder [pre ++ "_y.png"; pre ++ ".png"; pre ++ "_z.png";
                      "blocks.grass.png"; "blockd.grass.png"])
    end
  else
    match probe (path_join (id_folder c) [pre ++ ".png"]) with
    | Some p => Some p
    | None =>
        first_existing
          (in_folder [pre ++ "_x.png"; pre ++ "_y.png";
                      "blocks.grass.png"; "blockd.grass.png"])
    end.

(** [_get_teamspawn_texture_path] *)
Definition get_teamspawn_texture_path (c : ModelConfig) : option string :=
  let pre := cfg_main_texture_prefix c in
  match probe (path_join (id_folder c) [pre ++ ".png"]) with
  | Some p => Some p
  | None =>
      first_existing
        (map (fun n => path_join (id_folder c) [n])
             [pre ++ "_x.png"; pre ++ "_y.png"; pre ++ "_z.png";
              "teamspawn.png"; "teamspawn0.png"])
  end.

(** [get_texture_path] *)
Definition get_texture_path (c : ModelConfig) (face_type : string)
  : option string :=
  if negb (truthy (cfg_main_texture_prefix c)) then None
  else match material_system c with
       | teamspawn_system => get_teamspawn_texture_path c
       | soil_system => get_soil_texture_path c face_type
       | minestone_system => get_minestone_texture_path c face_type
       | submodel_only => None
       | default_system => get_default_texture_path c face_type
       end.

End WithFiles.
End Config.

(** ** Directional faces ([find_all_directional_faces]) *)

Module Faces.

(** A [mathutils.Vector]; its components read as Python floats. *)
Record Vector := mkVector { vx : float; vy : float; vz : float }.

(** The literals [0.7] and [0.3], as the binary64 numbers they denote. *)
Definition c07 : float := 0x1.6666666666666p-1%float.
Definition c03 : float := 0x1.3333333333333p-2%float.

Definition gt (a b : float) : bool := PrimFloat.ltb b a.
Definition lt (a b : float) : bool := PrimFloat.ltb a b.

(** The six tests of the [if/elif] chain, each on its own. *)
Definition is_pos_x (n : Vector) : bool :=
  gt (vx n) c07 && lt (abs (vy n)) c03 && lt (abs (vz n)) c03.
Definition is_neg_x (n : Vector) : bool :=
  lt (vx n) (- c07) && lt (abs (vy n)) c03 && lt (abs (vz n)) c03.
Definition is_pos_y (n : Vector) : bool :=
  gt (vy n) c07 && lt (abs (vx n)) c03 && lt (abs (vz n)) c03.
Definition is_neg_y (n : Vector) : bool :=
  lt (vy n) (- c07) && lt (abs (vx n)) c03 && lt (abs (vz n)) c03.
Definition is_pos_z (n : Vector) : bool :=
  gt (vz n) c07 && lt (abs (vx n)) c03 && lt (abs (vy n)) c03.
Definition is_neg_z (n : Vector) : bool :=
  lt (vz n) (- c07) && lt (abs (vx n)) c03 && lt (abs (vy n)) c03.

(** The six lists that the function returns, in its order. *)
Record FaceSets := mkFaceSets {
  x_faces : list nat;
  neg_x_faces : list nat;
  y_faces : list nat;
  neg_y_faces : list nat;
  z_faces : list nat;
  neg_z_faces : list nat
}.

Definition no_faces : FaceSets := mkFaceSets [] [] [] [] [] [].

Section WithMathutils.
(** [Vector.length] and [Vector.normalized] of mathutils. *)
Variable length : Vector -> float.
Variable normalized : Vector -> Vector.

Definition normal_normalized (normal : Vector) : Vector :=
  if gt (length normal) 0%float then normalized normal else normal.

(** One turn of the loop over [mesh.polygons]: the polygon of index
    [index] and normal [normal]. *)
Definition visit (fs : FaceSets) (poly : nat * Vector) : FaceSets :=
  let '(index, normal) := poly in
  let n := normal_normalized normal in
  if is_pos_x n then
    mkFaceSets (x_faces fs ++ [index]) (neg_x_faces fs) (y_faces fs)
               (neg_y_faces fs) (z_faces fs) (neg_z_faces fs)
  else if is_neg_x n then
    mkFaceSets (x_faces fs) (neg_x_faces fs ++ [index]) (y_faces fs)
               (neg_y_faces fs) (z_faces fs) (neg_z_faces fs)
  else if is_pos_y n then
    mkFaceSets (x_faces fs) (neg_x_faces fs) (y_faces fs ++ [index])
               (neg_y_faces fs) (z_faces fs) (neg_z_faces fs)
  else if is_neg_y n then
    mkFaceSets (x_faces fs) (neg_x_faces fs) (y_faces fs)
               (neg_y_faces fs ++ [index]) (z_faces fs) (neg_z_faces fs)
  else if is_pos_z n then
    mkFaceSets (x_faces fs) (neg_x_faces fs) (y_faces fs)
               (neg_y_faces fs) (z_faces fs ++ [index]) (neg_z_faces fs)
  else if is_neg_z n then
    mkFaceSets (x_faces fs) (neg_x_faces fs) (y_faces fs)
               (neg_y_faces fs) (z_faces fs) (neg_z_faces fs ++ [index])
  else fs.

(** [mesh.polygons]: the polygon at position [i] carries [poly.index = i]. *)
Fixpoint enumerate_from (k : nat) (normals : list Vector) : list (nat * Vector) :=
  match normals with
  | [] => []
  | n :: rest => (k, n) :: enumerate_from (S k) rest
  end.

Definition polygons (normals : list Vector) : list (nat * Vector) :=
  enumerate_from 0 normals.

(** [find_all_directional_faces] on a mesh object given by the normals
    of its polygons, [None] for an object that is no mesh. *)
Definition find_all_directional_faces (mesh : option (list Vector)) : FaceSets :=
  match mesh with
  | None => no_faces
  | Some normals => fold_left visit (polygons normals) no_faces
  end.

End WithMathutils.
End Faces.

(** ** Exceptions *)

Module Py.
Inductive exn := ValueError | IndexError | KeyError | OverflowError.

(** The outcome of a computation that may raise. *)
Inductive result (A : Type) :=
| Ok (a : A)
| Raise (e : exn).
Arguments Ok {A} a.
Arguments Raise {A} e.

Definition bind {A B} (r : result A) (k : A -> result B) : result B :=
  match r with
  | Ok a => k a
  | Raise e => Raise e
  end.

Definition of_option {A} (e : exn) (o : option A) : result A :=
  match o with
  | Some a => Ok a
  | None => Raise e
  end.
End Py.

Notation "'let!' x ':=' r 'in' k" := (Py.bind r (fun x => k))
  (at level 10, x name, r at level 100, k at level 200).

(** ** The material systems of the main model *)

Module Materials.
Import PyStr Mapping Config Faces Py.

(** A material datablock; the manager and [bpy.data.materials] key it by
    its name. *)
Record Material := mkMaterial { mat_name : string }.

Definition upper_char (c : ascii) : ascii :=
  let n := nat_of_ascii c in
  if (97 <=? n)%nat && (n <=? 122)%nat then ascii_of_nat (n - 32) else c.

Fixpoint upper (s : string) : string :=
  match s with
  | EmptyString => EmptyString
  | String c s' => String (upper_char c) (upper s')
  end.

(** [create_or_get_face_material]: the material named
    [BlockMat_{FACE}_{id}] (taken from the cache or created). *)
Definition create_or_get_face_material (position_id : Z) (texture_path : option string)
           (face_type : string) : Material :=
  mkMaterial ("BlockMat_" ++ upper face_type ++ "_" ++ str_of_int position_id).

(** [create_or_get_teamspawn_material] *)
Definition create_or_get_teamspawn_material (position_id : Z) (texture_path : string)
  : Material :=
  mkMaterial ("BlockMat_Teamspawn_" ++ str_of_int position_id).

(** [create_or_get_default_material] *)
Definition create_or_get_default_material (position_id : Z) : Material :=
  mkMaterial ("BlockMat_Default_" ++ str_of_int position_id).

(** A polygon of [obj.data.polygons]; its [index] is its position. *)
Record Polygon := mkPolygon { normal : Vector; material_index : nat }.

(** A mesh object: its polygons and its material slots. *)
Record MeshObject := mkMeshObject {
  polygons : list Polygon;
  materials : list Material
}.

(** [i in faces] *)
Definition mem (i : nat) (faces : list nat) : bool := existsb (Nat.eqb i) faces.

(** [for poly in obj.data.polygons: poly.material_index = ...]: [choose]
    gives the new index of polygon [i] from its old one, or raises. *)
Fixpoint assign_from (choose : nat -> nat -> result nat) (i : nat) (ps : list Polygon)
  : result (list Polygon) :=
  match ps with
  | [] => Ok []
  | p :: rest =>
      let! m := choose i (material_index p) in
      let! rest' := assign_from choose (S i) rest in
      Ok (mkPolygon (normal p) m :: rest')
  end.

Definition assign (choose : nat -> nat -> result nat) (ps : list Polygon)
  : result (list Polygon) :=
  assign_from choose 0 ps.

(** [obj.data.materials.clear()]: the slots go, and with them the material
    indices, every polygon pointing at slot 0 again. *)
Definition clear_materials (obj : MeshObject) : MeshObject :=
  mkMeshObject (map (fun p => mkPolygon (normal p) 0) (polygons obj)) [].

Section WithEnvironment.
Variable path_exists : string -> bool.
Variable length : Vector -> float.
Variable normalized : Vector -> Vector.

Definition faces_of (obj : MeshObject) : FaceSets :=
  find_all_directional_faces length normalized (Some (map normal (polygons obj))).

(** [apply_teamspawn_material_system] *)
Definition apply_teamspawn_material_system (obj : MeshObject) (position_id : Z)
           (c : ModelConfig) : result (MeshObject * bool) :=
  let texture_path := get_teamspawn_texture_path path_exists c in
  let teamspawn_mat :=
    option_map (create_or_get_teamspawn_material position_id) texture_path in
  let default_mat := create_or_get_default_material position_id in
  let mats :=
    match teamspawn_mat with
    | Some m => (materials obj ++ [m])%list
    | None => (materials obj ++ [default_mat])%list
    end in
  let! ps := assign (fun _ _ => Ok 0%nat) (polygons obj) in
  Ok (mkMeshObject ps mats, true).

(** [apply_soil_material_system] *)
Definition apply_soil_material_system (obj : MeshObject) (position_id : Z)
           (c : ModelConfig) : result (MeshObject * bool) :=
  let main_texture_path := get_texture_path path_exists c "x" in
  let z_texture_path0 := get_texture_path path_exists c "z" in
  let z_texture_path :=
    match z_texture_path0, main_texture_path with
    | None, Some p => Some p
    | _, _ => z_texture_path0
    end in
  let main_mat :=
    option_map (fun p => create_or_get_face_material position_id (Some p) "x")
               main_texture_path in
  let z_mat :=
    option_map (fun p => create_or_get_face_material position_id (Some p) "z")
               z_texture_path in
  let default_mat := create_or_get_default_material position_id in
  let mats0 := materials obj in
  let '(mats1, ind1) :=
    match main_mat with
    | Some m => ((mats0 ++ [m])%list, <["main" := 0%nat]> (∅ : gmap string nat))
    | None => (mats0, ∅)
    end in
  let '(mats2, ind2) :=
    match z_mat with
    | Some m => ((mats1 ++ [m])%list, <["z" := (List.length (mats1 ++ [m])%list - 1)%nat]> ind1)
    | None => (mats1, ind1)
    end in
  let '(mats3, material_indices) :=
    match main_mat, z_mat with
    | None, None => ((mats2 ++ [default_mat])%list, <["default" := 0%nat]> ind2)
    | _, _ => (mats2, ind2)
    end in
  let fs := faces_of obj in
  if (List.length (polygons obj) =? 0)%nat then Ok (mkMeshObject (polygons obj) mats3, false)
  else
    let main_or_default :=
      match material_indices !! "main" with
      | Some k => Ok k
      | None => of_option KeyError (material_indices !! "default")
      end in
    let choose (i old : nat) : result nat :=
      if mem i (z_faces fs) then
        match material_indices !! "z" with
        | Some k => Ok k
        | None => main_or_default
        end
      else if mem i (neg_z_faces fs) then main_or_default
      else main_or_default in
    let! ps := assign choose (polygons obj) in
    Ok (mkMeshObject ps mats3, true).

(** [apply_minestone_material_system] *)
Definition apply_minestone_material_system (obj : MeshObject) (position_id : Z)
           (c : ModelConfig) : result (MeshObject * bool) :=
  let x_texture_path := get_texture_path path_exists c "x" in
  let y_texture_path := get_texture_path path_exists c "y" in
  let z_texture_path := get_texture_path path_exists c "z" in
  match x_texture_path, y_texture_path, z_texture_path with
  | None, None, None =>
      let default_mat := create_or_get_default_material position_id in
      let! ps := assign (fun _ _ => Ok 0%nat) (polygons obj) in
      Ok (mkMeshObject ps (materials obj ++ [default_mat])%list, true)
  | _, _, _ =>
      let x_mat :=
        option_map (fun p => create_or_get_face_material position_id (Some p) "x")
                   x_texture_path in
      let y_mat :=
        option_map (fun p => create_or_get_face_material position_id (Some p) "y")
                   y_texture_path in
      let z_mat :=
        option_map (fun p => create_or_get_face_material position_id (Some p) "z")
                   z_texture_path in
      let default_mat := create_or_get_default_material position_id in
      let add (key : string) (mat : option Material)
              (st : list Material * gmap string nat) :=
        match mat with
        | Some m => ((st.1 ++ [m])%list, <[key := (List.length (st.1 ++ [m])%list - 1)%nat]> st.2)
        | None => st
        end in
      let st3 := add "z" z_mat (add "y" y_mat (add "x" x_mat (materials obj, ∅))) in
      let '(mats, material_indices) :=
        match x_mat, y_mat, z_mat with
        | None, None, None => ((st3.1 ++ [default_mat])%list, <["default" := 0%nat]> st3.2)
        | _, _, _ => st3
        end in
      let fs := faces_of obj in
      if (List.length (polygons obj) =? 0)%nat then Ok (mkMeshObject (polygons obj) mats, false)
      else
        let default_or_keep (old : nat) : nat :=
          match material_indices !! "default" with
          | Some k => k
          | None => old
          end in
        let slot (key : string) (old : nat) : nat :=
          match material_indices !! key with
          | Some k => k
          | None => default_or_keep old
          end in
        let choose (i old : nat) : result nat :=
          if mem i (x_faces fs) || mem i (neg_x_faces fs) then Ok (slot "x" old)
          else if mem i (y_faces fs) || mem i (neg_y_faces fs) then Ok (slot "y" old)
          else if mem i (z_faces fs) || mem i (neg_z_faces fs) then Ok (slot "z" old)
          else Ok (default_or_keep old) in
        let! ps := assign choose (polygons obj) in
        Ok (mkMeshObject ps mats, true)
  end.

(** [apply_default_material_system] *)
Definition apply_default_material_system (obj : MeshObject) (position_id : Z)
           (c : ModelConfig) : result (MeshObject * bool) :=
  let x_texture_path := get_texture_path path_exists c "x" in
  let y_texture_path := get_texture_path path_exists c "y" in
  let z_texture_path := get_texture_path path_exists c "z" in
  match x_texture_path, y_texture_path, z_texture_path with
  | None, None, None =>
      let default_mat := create_or_get_default_material position_id in
      let! ps := assign (fun _ _ => Ok 0%nat) (polygons obj) in
      Ok (mkMeshObject ps (materials obj ++ [default_mat])%list, true)
  | _, _, _ =>
      let x_mat := create_or_get_face_material position_id x_texture_path "x" in
      let y_mat := create_or_get_face_material position_id y_texture_path "y" in
      let z_mat := create_or_get_face_material position_id z_texture_path "z" in
      let default_mat := create_or_get_default_material position_id in
      let mats := (materials obj ++ [x_mat] ++ [y_mat] ++ [z_mat] ++ [default_mat])%list in
      let fs := faces_of obj in
      if (List.length (polygons obj) =? 0)%nat then Ok (mkMeshObject (polygons obj) mats, false)
      else
        let choose (i old : nat) : result nat :=
          if mem i (x_faces fs) || mem i (neg_x_faces fs) then Ok 0%nat
          else if mem i (y_faces fs) || mem i (neg_y_faces fs) then Ok 1%nat
          else if mem i (z_faces fs) || mem i (neg_z_faces fs) then Ok 2%nat
          else Ok 3%nat in
        let! ps := assign choose (polygons obj) in
        Ok (mkMeshObject ps mats, true)
  end.

(** [apply_main_model_materials]; [model_config] is what
    [BlockModelManager().get_model_config(position_id)] returns. *)
Definition apply_main_model_materials (obj : MeshObject) (position_id : Z)
           (model_config : option ModelConfig) : result (MeshObject * bool) :=
  let obj :=
    if (0 <? List.length (materials obj))%nat then clear_materials obj else obj in
  match model_config with
  | None => Ok (obj, false)
  | Some c =>
      match material_system c with
      | teamspawn_system => apply_teamspawn_material_system obj position_id c
      | soil_system => apply_soil_material_system obj position_id c
      | minestone_system => apply_minestone_material_system obj position_id c
      | submodel_only => Ok (obj, true)
      | default_system => apply_default_material_system obj position_id c
      end
  end.

End WithEnvironment.
End Materials.

(** ** Scaling and placement arithmetic *)

Module Placement.
Import Py.

(** [math.pi] *)
Definition pi : float := 0x1.921fb54442d18p+1%float.

(** The conversion of a Python [int] that meets a [float] in an
    arithmetic operation: the nearest binary64 number, [OverflowError]
    beyond the range. *)
Definition float_of_int (n : Z) : result float :=
  match binary_normalize prec emax n 0 false with
  | S754_infinity _ => Raise OverflowError
  | f => Ok (SF2Prim f)
  end.

(** [calculate_scaling_factor] *)
Definition calculate_scaling_factor (original_size : float) (scale_mode : string)
           (custom_scale_factor base_block_size : float) : float :=
  if String.eqb scale_mode "ONE_METER" then
    if PrimFloat.ltb 0x1.0624dd2f1a9fcp-10%float original_size
    then (base_block_size / original_size)%float
    else 1%float
  else if String.eqb scale_mode "CUSTOM" then custom_scale_factor
  else 1%float.

(** [get_rotation_for_direction] *)
Definition get_rotation_for_direction (direction_mode : string) : float :=
  if String.eqb direction_mode "EAST" then 0%float
  else if String.eqb direction_mode "SOUTH" then (pi / 2)%float
  else if String.eqb direction_mode "WEST" then pi
  else if String.eqb direction_mode "NORTH" then (3 * pi / 2)%float
  else 0%float.

(** [get_direction_vector] *)
Definition get_direction_vector (direction_mode : string) : float * float * float :=
  if String.eqb direction_mode "EAST" then (1, 0, 0)%float
  else if String.eqb direction_mode "SOUTH" then (0, -1, 0)%float
  else if String.eqb direction_mode "WEST" then (-1, 0, 0)%float
  else if String.eqb direction_mode "NORTH" then (0, 1, 0)%float
  else (1, 0, 0)%float.

(** [get_world_coordinate_for_model] *)
Definition get_world_coordinate_for_model (grid_coord : Z * Z * Z)
           (base_block_size model_size_x model_size_y model_size_z : float)
           (direction_mode : string) (use_model_center adjacent_mode : bool)
  : result (float * float * float) :=
  let '(x, y, z) := grid_coord in
  let! fx := float_of_int x in
  let! fy := float_of_int y in
  let! fz := float_of_int z in
  let '(world_x, world_y, world_z) :=
    if adjacent_mode
    then (fx * model_size_x, fy * model_size_y, fz * model_size_z)%float
    else (fx * base_block_size, fy * base_block_size, fz * base_block_size)%float in
  let world_z :=
    if negb use_model_center then world_z
    else (world_z + model_size_z / 2)%float in
  Ok (world_x, world_y, world_z).

(** A [mathutils.Euler]: the angles about the X, the Y and the Z axis. *)
Record Euler := mkEuler { about_x : float; about_y : float; about_z : float }.

(** What [create_block_from_template] stores in
    [new_container.rotation_euler]. *)
Definition block_rotation_euler (direction_mode : string) : Euler :=
  let rotation_y := get_rotation_for_direction direction_mode in
  mkEuler 0%float rotation_y 0%float.

End Placement.

(** ** The manager, the template cache and the placement of blocks *)

Module Manager.
Import PyStr Mapping Config Py Placement.

Section WithBlender.
(** [os.path.exists] *)
Variable path_exists : string -> bool.
(** The host: [Blender] is the state of [bpy.data], of the scene and of
    the material datablocks (with the manager's cache of them); [Obj]
    is a reference to an object of [bpy.data.objects]. *)
Variable Blender : Type.
Variable Obj : Type.

(** The caches of the singleton [BlockModelManager]. *)
Record BlockModelManager := mkManager {
  templates : gmap Z Obj;
  model_configs : gmap Z ModelConfig;
  mapping_table : option (gmap Z MappingRecord);
  mapping_file_path : option string
}.

(** The manager together with the host's data. *)
Record World := mkWorld {
  manager : BlockModelManager;
  blender : Blender
}.

Definition has_template_for_id (m : BlockModelManager) (position_id : Z) : bool :=
  bool_decide (is_Some (templates m !! position_id)).

Definition get_template (m : BlockModelManager) (position_id : Z) : option Obj :=
  templates m !! position_id.

Definition set_template (m : BlockModelManager) (position_id : Z) (t : Obj)
  : BlockModelManager :=
  mkManager (<[position_id := t]> (templates m)) (model_configs m)
            (mapping_table m) (mapping_file_path m).

Definition get_mapping_for_id (m : BlockModelManager) (position_id : Z)
  : option MappingRecord :=
  match mapping_table m with
  | Some table => if bool_decide (table = ∅) then None else table !! position_id
  | None => None
  end.

Definition get_model_config (m : BlockModelManager) (position_id : Z)
  : option ModelConfig :=
  model_configs m !! position_id.

Definition set_model_config (m : BlockModelManager) (position_id : Z)
           (c : ModelConfig) : BlockModelManager :=
  mkManager (templates m) (<[position_id := c]> (model_configs m))
            (mapping_table m) (mapping_file_path m).

Definition clear_templates_and_configs (m : BlockModelManager) : BlockModelManager :=
  mkManager ∅ ∅ (mapping_table m) (mapping_file_path m).

(** [load_and_setup_model(context, model_path, model_name, position_id,
    texture_base_path, mapping_data, is_main_model)]: the import of the
    OBJ file, its scaling and its materials, on the host's data; the
    model configuration it reads from the manager is passed in.  The
    result is [None] when the function returns [None]. *)
Variable load_and_setup_model :
  Blender -> string -> string -> Z -> option ModelConfig -> bool ->
  option Obj * Blender.

(** [obj.hide_set(True); obj.hide_render = True] *)
Variable hide : Blender -> Obj -> Blender.

(** The empty object [BlockTemplate_{id}], linked to the collection,
    made the parent of the models that were built, and hidden. *)
Variable new_template_container :
  Blender -> string -> option Obj -> option Obj -> Obj * Blender.

(** [create_template_for_position_id] *)
Definition create_template_for_position_id (w : World) (position_id : Z)
           (texture_base_path models_base_path : string) : option Obj * World :=
  let m := manager w in
  if has_template_for_id m position_id then (get_template m position_id, w)
  else
    let mapping_data := get_mapping_for_id m position_id in
    let model_config :=
      new_ModelConfig path_exists position_id mapping_data
                      texture_base_path models_base_path in
    let m := set_model_config m position_id model_config in
    let b := blender w in
    let '(main_model, b) :=
      if has_main_model path_exists model_config then
        let '(o, b) :=
          load_and_setup_model b (main_model_path model_config)
            ("BlockMain_" ++ str_of_int position_id) position_id
            (get_model_config m position_id) true in
        (o, from_option (hide b) b o)
      else (None, b) in
    let '(submodel, b) :=
      if has_submodel path_exists model_config then
        let '(o, b) :=
          load_and_setup_model b (default "" (submodel_path model_config))
            ("BlockSub_" ++ str_of_int position_id) position_id
            (get_model_config m position_id) false in
        (o, from_option (hide b) b o)
      else (None, b) in
    match main_model, submodel with
    | None, None => (None, mkWorld m b)
    | _, _ =>
        let '(container, b) :=
          new_template_container b ("BlockTemplate_" ++ str_of_int position_id)
                                 main_model submodel in
        (Some container, mkWorld (set_template m position_id container) b)
    end.

(** [block_name in bpy.data.objects] and [bpy.data.objects[block_name]] *)
Variable find_object : Blender -> string -> option Obj.
(** [template_container.children] *)
Variable children : Blender -> Obj -> list Obj.
(** The custom properties [block_size_x], [block_size_y], [block_size_z]
    of an object, when it has them. *)
Variable block_size : Blender -> Obj -> option (float * float * float).
(** [calculate_model_dimensions] *)
Variable calculate_model_dimensions : Blender -> Obj -> float * float * float * float.
(** [context.scene.block_generator_settings.adjacent_mode] *)
Variable adjacent_mode : Blender -> bool.
(** The body of the [try]: the template and its children are shown,
    selected and duplicated, the copy of the container is named
    [block_name] (or a new empty object of that name adopts the
    copies), it receives the location, the rotation and the grid
    properties, and the template is hidden again.  [None] when an
    exception is caught. *)
Variable duplicate_and_place :
  Blender -> Obj -> string -> float * float * float -> Euler ->
  Z * Z * Z * Z * string -> option Obj * Blender.

Definition block_name (position_id x y z : Z) : string :=
  "Block_" ++ str_of_int position_id ++ "_" ++ str_of_int x ++ "_" ++
  str_of_int y ++ "_" ++ str_of_int z.

(** [create_block_from_template] *)
Definition create_block_from_template (w : World) (position_id x y z : Z)
           (base_block_size : float) (direction_mode : string)
           (use_model_center : bool) : result (option Obj * World) :=
  let name := block_name position_id x y z in
  match find_object (blender w) name with
  | Some existing => Ok (Some existing, w)
  | None =>
      match get_template (manager w) position_id with
      | None => Ok (None, w)
      | Some template_container =>
          match children (blender w) template_container with
          | [] => Ok (None, w)
          | child_obj :: _ =>
              let '(size_x, size_y, size_z) :=
                match block_size (blender w) child_obj with
                | Some s => s
                | None =>
                    let '(sx, sy, sz, _) :=
                      calculate_model_dimensions (blender w) child_obj in
                    (sx, sy, sz)
                end in
              let! world :=
                get_world_coordinate_for_model
                  (x, y, z) base_block_size size_x size_y size_z direction_mode
                  use_model_center (adjacent_mode (blender w)) in
              let '(o, b) :=
                duplicate_and_place (blender w) template_container name world
                  (block_rotation_euler direction_mode)
                  (x, y, z, position_id, direction_mode) in
              Ok (o, mkWorld (manager w) b)
          end
      end
  end.

End WithBlender.
End Manager.

(** ** Coordinates ([parse_coordinate_string]) *)

Module Coord.
Import PyStr Py.

(** One entry of the list returned by [parse_coordinate_string]: the
    dictionary with the keys [id], [x], [y], [z]. *)
Record Coordinate := mkCoordinate { id : Z; x : Z; y : Z; z : Z }.

Definition lower_char (c : ascii) : ascii :=
  let n := nat_of_ascii c in
  if (65 <=? n)%nat && (n <=? 90)%nat then ascii_of_nat (n + 32) else c.

Fixpoint lower (s : string) : string :=
  match s with
  | EmptyString => EmptyString
  | String c s' => String (lower_char c) (lower s')
  end.

(** The text before and, when [p] holds of some character, after the
    first such character. *)
Fixpoint cut (p : ascii -> bool) (s : string) : string * option string :=
  match s with
  | EmptyString => (EmptyString, None)
  | String c s' =>
      if p c then (EmptyString, Some s')
      else let '(a, b) := cut p s' in (String c a, b)
  end.

(** An optional sign: whether it is [-], and the rest. *)
Definition sign (s : string) : bool * string :=
  match s with
  | String "+" r => (false, r)
  | String "-" r => (true, r)
  | _ => (false, s)
  end.

(** The decimal [m * 10^e] as the nearest binary64 number, ties to even
    ([m] positive). *)
Definition decimal_to_float (neg : bool) (m : positive) (e : Z) : spec_float :=
  match e with
  | Zneg k =>
      SFdiv prec emax (S754_finite neg m 0) (S754_finite false (10 ^ k)%positive 0)
  | _ => binary_round prec emax neg (m * Z.to_pos (10 ^ e))%positive 0
  end.

(** [floatnumber]: [[digitpart] "." digitpart | digitpart ["."]] and an
    optional exponent; the result is the mantissa and the power of ten. *)
Definition floatnumber (s : string) : option (Z * Z) :=
  let '(mant, expo) := cut (fun c => Ascii.eqb c "e" || Ascii.eqb c "E") s in
  let '(ip, fp) := cut (fun c => Ascii.eqb c ".") mant in
  let digits_or_empty (t : string) : option (Z * nat) :=
    if String.eqb t "" then Some (0, 0%nat) else digitpart t in
  let number : option (Z * Z) :=
    match fp with
    | None => (fun p => (fst p, 0)) <$> digitpart ip
    | Some f =>
        if String.eqb ip "" && String.eqb f "" then None
        else
          match digits_or_empty ip, digits_or_empty f with
          | Some (a, _), Some (b, k) => Some (a * 10 ^ Z.of_nat k + b, - Z.of_nat k)
          | _, _ => None
          end
    end in
  match number, expo with
  | None, _ => None
  | Some (m, e), None => Some (m, e)
  | Some (m, e), Some x =>
      let '(neg, ds) := sign x in
      match digitpart ds with
      | Some (v, _) => Some (m, e + (if neg then - v else v))
      | None => None
      end
  end.

(** [float(s)]; [None] stands for [ValueError]. *)
Definition py_float (s : string) : option float :=
  let '(neg, r) := sign (strip_number s) in
  let l := lower r in
  if String.eqb l "inf" || String.eqb l "infinity" then Some (SF2Prim (S754_infinity neg))
  else if String.eqb l "nan" then Some (SF2Prim S754_nan)
  else
    match floatnumber r with
    | None => None
    | Some (Zpos m, e) => Some (SF2Prim (decimal_to_float neg m e))
    | Some (_, _) => Some (SF2Prim (S754_zero neg))
    end.

(** [round(x)] of a float, without [ndigits]: the nearest integer, a tie
    going to the even one; [ValueError] for a NaN and [OverflowError] for
    an infinity. *)
Definition py_round (f : float) : result Z :=
  match Prim2SF f with
  | S754_nan => Raise ValueError
  | S754_infinity _ => Raise OverflowError
  | S754_zero _ => Ok 0
  | S754_finite s m e =>
      let v :=
        match e with
        | Zneg k =>
            let d := Zpos (2 ^ k)%positive in
            let q := Zpos m / d in
            let r := Zpos m mod d in
            match 2 * r ?= d with
            | Lt => q
            | Gt => q + 1
            | Eq => if Z.even q then q else q + 1
            end
        | _ => Zpos m * 2 ^ e
        end in
      Ok (if s then - v else v)
  end.

(** The two branches share their body: the fields [parts] of a line. *)
Definition coordinate_of_parts (parts : list string) : result (option Coordinate) :=
  if (length parts =? 4)%nat then
    let! fx := of_option ValueError (py_float (nth 0 parts "")) in
    let! fy := of_option ValueError (py_float (nth 1 parts "")) in
    let! fz := of_option ValueError (py_float (nth 2 parts "")) in
    let! block_id := of_option ValueError (py_int (nth 3 parts "")) in
    let! rx := py_round fx in
    let! ry := py_round fy in
    let! rz := py_round fz in
    Ok (Some (mkCoordinate block_id rx ry rz))
  else if (length parts =? 3)%nat then
    let! fx := of_option ValueError (py_float (nth 0 parts "")) in
    let! fy := of_option ValueError (py_float (nth 1 parts "")) in
    let! fz := of_option ValueError (py_float (nth 2 parts "")) in
    let! rx := py_round fx in
    let! ry := py_round fy in
    let! rz := py_round fz in
    Ok (Some (mkCoordinate 0 rx ry rz))
  else Ok None.

(** The body of the [try] for a stripped line that is neither blank nor
    a comment. *)
Definition try_line (line : string) : result (option Coordinate) :=
  if contains "," line then coordinate_of_parts (map strip (split "," line))
  else if contains " " line then coordinate_of_parts (re_split_ws (strip line))
  else Ok None.

(** [except (ValueError, IndexError): continue]; anything else leaves the
    function. *)
Definition parse_line (line : string) : result (option Coordinate) :=
  let line := strip line in
  if String.eqb line "" || startswith "#" line then Ok None
  else
    match try_line line with
    | Raise ValueError | Raise IndexError => Ok None
    | r => r
    end.

Fixpoint parse_lines (lines : list string) (coordinates : list Coordinate)
  : result (list Coordinate) :=
  match lines with
  | [] => Ok coordinates
  | line :: rest =>
      let! c := parse_line line in
      parse_lines rest
        (match c with Some c => (coordinates ++ [c])%list | None => coordinates end)
  end.

(** [parse_coordinate_string] *)
Definition parse_coordinate_string (coord_str : string) : result (list Coordinate) :=
  parse_lines (split "010" (strip coord_str)) [].

End Coord.

(** ** Textures of the submodel *)

Module SubmodelTextures.
Import PyStr Mapping Config.

Section WithFiles.
Variable path_exists : string -> bool.

(** [get_submodel_texture_path] *)
Definition get_submodel_texture_path (c : ModelConfig) : option string :=
  if negb (truthy (cfg_submodel_name c)) || String.eqb (cfg_blocktype c) "teamspawn"
  then None
  else
    let name := cfg_submodel_name c ++ ".png" in
    let models_folder := path_join (models_base_path c) ["models"] in
    first_existing path_exists
      [path_join (id_folder c) [name];
       path_join (texture_base_path c) [name];
       path_join models_folder [name];
       path_join (id_folder c) ["models"; name]].

(** [get_submodel_emission_texture_path] *)
Definition get_submodel_emission_texture_path (c : ModelConfig) : option string :=
  if negb (truthy (cfg_submodel_name c)) || String.eqb (cfg_blocktype c) "teamspawn"
  then None
  else
    let sub := cfg_submodel_name c in
    let models_folder := path_join (models_base_path c) ["models"] in
    first_existing path_exists
      [path_join (id_folder c) [sub ++ "_emi.png"];
       path_join (id_folder c) [sub ++ "_emission.png"];
       path_join (id_folder c) [sub ++ "_emit.png"];
       path_join (id_folder c) [sub ++ "_light.png"];
       path_join (id_folder c) [sub ++ "_glow.png"];
       path_join (texture_base_path c) [sub ++ "_emi.png"];
       path_join models_folder [sub ++ "_emi.png"];
       path_join (id_folder c) ["models"; sub ++ "_emi.png"]].

End WithFiles.
End SubmodelTextures.

(** ** The two X lists alone ([find_x_faces_simple]) *)

Module SimpleFaces.
Import Faces.

Section WithMathutils.
Variable length : Vector -> float.
Variable normalized : Vector -> Vector.

(** One turn of the loop: the lists [x_faces] and [neg_x_faces]. *)
Definition visit_x (fs : list nat * list nat) (poly : nat * Vector)
  : list nat * list nat :=
  let '(index, normal) := poly in
  let n := normal_normalized length normalized normal in
  if is_pos_x n then ((fst fs ++ [index])%list, snd fs)
  else if is_neg_x n then (fst fs, (snd fs ++ [index])%list)
  else fs.

(** [find_x_faces_simple] *)
Definition find_x_faces_simple (mesh : option (list Vector)) : list nat * list nat :=
  match mesh with
  | None => ([], [])
  | Some normals => fold_left visit_x (polygons normals) ([], [])
  end.

End WithMathutils.
End SimpleFaces.

(** ** Names of materials and the material of the submodel *)

Module SubmodelMaterials.
Import PyStr Mapping Config SubmodelTextures Faces Materials.

(** [get_material_name_for_face] *)
Definition get_material_name_for_face (position_id : Z) (face_type : string) : string :=
  "BlockMat_" ++ upper face_type ++ "_" ++ str_of_int position_id.

(** [get_material_name_for_submodel] *)
Definition get_material_name_for_submodel (position_id : Z) (submodel_name : string)
           (has_emission : bool) : string :=
  if has_emission
  then "BlockMat_Sub_" ++ str_of_int position_id ++ "_" ++ submodel_name ++ "_emi"
  else "BlockMat_Sub_" ++ str_of_int position_id ++ "_" ++ submodel_name.

(** [get_default_material_name] *)
Definition get_default_material_name (position_id : Z) : string :=
  "BlockMat_Default_" ++ str_of_int position_id.

(** [get_unified_material_name] *)
Definition get_unified_material_name (position_id : Z) : string :=
  "BlockMat_Unified_" ++ str_of_int position_id.

(** [get_teamspawn_material_name] *)
Definition get_teamspawn_material_name (position_id : Z) : string :=
  "BlockMat_Teamspawn_" ++ str_of_int position_id.

Section WithFiles.
Variable path_exists : string -> bool.

(** [create_or_get_submodel_material]: the material of that name, taken
    from the cache or created; [manager_mapping] is what
    [manager.get_mapping_for_id(position_id)] returns. *)
Definition create_or_get_submodel_material (manager_mapping : option MappingRecord)
           (position_id : Z) (diffuse_texture_path emission_texture_path : option string)
           (submodel_name : string) : Material :=
  let submodel_name :=
    if negb (truthy submodel_name) then
      match manager_mapping with
      | Some r => Mapping.submodel_name r
      | None => "submodel_" ++ str_of_int position_id
      end
    else submodel_name in
  let has_emission :=
    match emission_texture_path with
    | Some e => if truthy e then path_exists e else false
    | None => false
    end in
  mkMaterial (get_material_name_for_submodel position_id submodel_name has_emission).

(** [apply_submodel_materials]; [model_config] is what
    [BlockModelManager().get_model_config(position_id)] returns. *)
Definition apply_submodel_materials (manager_mapping : option MappingRecord)
           (model_config : option ModelConfig) (obj : MeshObject) (position_id : Z)
           (mapping_data : option MappingRecord) : MeshObject * bool :=
  let submodel_name := from_option Mapping.submodel_name "" mapping_data in
  let all_zero := map (fun p => mkPolygon (normal p) 0) (polygons obj) in
  if truthy submodel_name
     && negb (String.eqb (from_option blocktype "" mapping_data) "teamspawn")
  then
    let diffuse_texture_path :=
      match model_config with
      | Some c => get_submodel_texture_path path_exists c
      | None => None
      end in
    let emission_texture_path :=
      match model_config with
      | Some c => get_submodel_emission_texture_path path_exists c
      | None => None
      end in
    let submodel_mat :=
      create_or_get_submodel_material manager_mapping position_id
        diffuse_texture_path emission_texture_path submodel_name in
    (mkMeshObject all_zero [submodel_mat], true)
  else
    let default_mat := create_or_get_default_material position_id in
    (mkMeshObject all_zero [default_mat], true).

End WithFiles.
End SubmodelMaterials.

(** ** The objects that the clearing operators select *)

Module Operators.

(** The test of [OBJECT_OT_clear_all_blocks.execute] on the name of an
    object; [String.prefix p s] is [s.startswith(p)]. *)
Definition is_block (name : string) : bool :=
  String.prefix "Block_" name && negb (String.prefix "BlockTemplate_" name).

(** The test of [OBJECT_OT_clear_all_templates.execute] and of
    [OBJECT_OT_clear_all_templates_and_mapping.execute]. *)
Definition is_template_object (name : string) : bool :=
  String.prefix "BlockTemplate_" name || String.prefix "BlockMain_" name
  || String.prefix "BlockSub_" name.

(** [blocks_to_remove], from the names of [bpy.data.objects] in their order. *)
Definition blocks_to_remove (objects : list string) : list string :=
  List.filter is_block objects.

(** [templates_to_remove] *)
Definition templates_to_remove (objects : list string) : list string :=
  List.filter is_template_object objects.

End Operators.

(** ** Loading the mapping table into the manager *)

Module MappingCache.
Import PyStr Mapping Manager.

Section WithObjects.
Variable Obj : Type.
(** [os.path.exists], and the text of a file ([None] when the path does
    not exist or the file cannot be read). *)
Variable path_exists : string -> bool.
Variable read_file : string -> option string.

(** [set_mapping_table] *)
Definition set_mapping_table (m : BlockModelManager Obj) (mapping_file_path : string)
  : BlockModelManager Obj :=
  mkManager Obj (templates Obj m) (model_configs Obj m)
            (Some (parse_mapping_table (read_file mapping_file_path)))
            (Some mapping_file_path).

(** [get_mapping_count] *)
Definition get_mapping_count (m : BlockModelManager Obj) : nat :=
  match mapping_table Obj m with
  | Some table => if bool_decide (table = ∅) then 0%nat else size table
  | None => 0%nat
  end.

(** [reload_mapping_table]; [mapping_table_path] is the path kept in the
    scene. *)
Definition reload_mapping_table (m : BlockModelManager Obj) (mapping_table_path : string)
  : BlockModelManager Obj * bool :=
  if truthy mapping_table_path && path_exists mapping_table_path
  then (set_mapping_table m mapping_table_path, true)
  else (m, false).

End WithObjects.
End MappingCache.

(** ** Unused material names ([get_unique_material_name]) *)

Module UniqueNames.
Import PyStr Config.

Fixpoint zeros (n : nat) : string :=
  match n with
  | O => EmptyString
  | S k => String "0" (zeros k)
  end.

(** [s.zfill(width)]: the zeros go after a leading sign. *)
Definition zfill (width : nat) (s : string) : string :=
  if (width <=? String.length s)%nat then s
  else
    let fill := zeros (width - String.length s) in
    match s with
    | String c r =>
        if Ascii.eqb c "+" || Ascii.eqb c "-" then String c (fill ++ r) else fill ++ s
    | EmptyString => fill
    end.

(** [f"{base_name}.{str(counter).zfill(3)}"] *)
Definition numbered (base_name : string) (counter : Z) : string :=
  base_name ++ "." ++ zfill 3 (str_of_int counter).

(** The [while] loop from [counter] on, for at most [fuel] turns;
    [materials] holds the names of [bpy.data.materials]. *)
Fixpoint first_unused (materials : list string) (base_name : string) (fuel : nat)
         (counter : Z) : option string :=
  match fuel with
  | O => None
  | S fuel' =>
      if str_in (numbered base_name counter) materials
      then first_unused materials base_name fuel' (counter + 1)
      else Some (numbered base_name counter)
  end.

(** [get_unique_material_name] *)
Definition get_unique_material_name (fuel : nat) (materials : list string)
           (base_name : string) : option string :=
  if negb (str_in base_name materials) then Some base_name
  else first_unused materials base_name fuel 1.

End UniqueNames.

(** ** The sweep of duplicate materials ([clear_duplicate_materials]) *)

Module Duplicates.
Import PyStr Materials.

(** Whether the text is three digits up to the end of a name, or up to
    the line feed that ends it; the result is what follows the digits. *)
Definition counter_at_end (s : string) : option string :=
  match s with
  | String a (String b (String c tail)) =>
      if is_digit a && is_digit b && is_digit c
         && (String.eqb tail "" || String.eqb tail (String "010" ""))
      then Some tail
      else None
  | _ => None
  end.

(** [re.sub(r'\.\d{3}$', '', name)] *)
Fixpoint strip_counter (name : string) : string :=
  match name with
  | EmptyString => EmptyString
  | String c rest =>
      match (if Ascii.eqb c "." then counter_at_end rest else None) with
      | Some tail => tail
      | None => String c (strip_counter rest)
      end
  end.

(** [block_materials], a dictionary in the order of its insertions:
    the materials of each base name. *)
Fixpoint add_to_group (base_name : string) (mat : Material)
         (groups : list (string * list Material)) : list (string * list Material) :=
  match groups with
  | [] => [(base_name, [mat])]
  | (b, mats) :: rest =>
      if String.eqb b base_name then (b, (mats ++ [mat])%list) :: rest
      else (b, mats) :: add_to_group base_name mat rest
  end.

(** One turn of the first loop. *)
Definition group_step (groups : list (string * list Material)) (mat : Material)
  : list (string * list Material) :=
  if String.prefix "BlockMat_" (mat_name mat)
  then add_to_group (strip_counter (mat_name mat)) mat groups
  else groups.

Definition block_materials (data_materials : list Material)
  : list (string * list Material) :=
  fold_left group_step data_materials [].

(** The second loop: of a base name with several materials, all but the
    first. *)
Definition duplicates_of (groups : list (string * list Material)) : list Material :=
  flat_map (fun group => if (1 <? List.length (snd group))%nat then tl (snd group) else [])
           groups.

#[global] Instance Material_eq_dec : EqDecision Material.
Proof. solve_decision. Defined.

(** The third loop, for one duplicate: the keys of the cache that hold it
    are deleted. *)
Definition forget (cache : gmap string Material) (mat : Material) : gmap string Material :=
  filter (fun entry => snd entry <> mat) cache.

(** [clear_duplicate_materials]: the cache of the manager afterwards, and
    the list that is returned; [data_materials] are the materials of
    [bpy.data.materials] in the order of the iteration. *)
Definition clear_duplicate_materials (data_materials : list Material)
           (cache : gmap string Material) : gmap string Material * list Material :=
  let duplicates := duplicates_of (block_materials data_materials) in
  (fold_left forget duplicates cache, duplicates).

End Duplicates.

(** ** The scale that a loaded model receives *)

Module Scaling.
Import Placement.

(** The test [abs(scale_factor - 1.0) > 0.0001] of [load_and_setup_model]:
    whether the scale is applied to the imported object. *)
Definition applies_scale (scale_factor : float) : bool :=
  PrimFloat.ltb 0x1.a36e2eb1c432dp-14%float (abs (scale_factor - 1))%float.

(** The scale that [load_and_setup_model] gives an imported model of the
    largest dimension [max_size], [None] when it leaves the model as it
    is. *)
Definition scale_to_apply (max_size : float) (scale_mode : string)
           (custom_scale_factor base_block_size : float) : option float :=
  let scale_factor :=
    calculate_scaling_factor max_size scale_mode custom_scale_factor base_block_size in
  if applies_scale scale_factor then Some scale_factor else None.

End Scaling.

(** * Properties *)

(** ** The material-system decision table *)

Section DecisionTable.
Import PyStr Mapping Config.

Lemma str_in_spec (b : string) (l : list string) : str_in b l = true <-> In b l.
Proof.
  unfold str_in. rewrite existsb_exists. split.
  - intros (x & Hx & Heq). apply String.eqb_eq in Heq. now subst.
  - intros H. exists b. split; [assumption | apply String.eqb_refl].
Qed.

Lemma str_in_false (b : string) (l : list string) : str_in b l = false <-> ~ In b l.
Proof.
  rewrite <- str_in_spec. destruct (str_in b l); split; congruence.
Qed.

Lemma material_system_of_config path_exists pid data tex models :
  material_system (new_ModelConfig path_exists pid data tex models)
  = choose_material_system (from_option blocktype "" data)
                           (from_option main_texture_prefix "" data).
Proof. reflexivity. Qed.

(** The second membership test of the chain is subsumed by the first. *)
Lemma replicator_list_included (b : string) :
  str_in b ["replicator"; "regionreplicator"; "airwall"; "copier"] = true ->
  str_in b ["minestone"; "stone"; "buildblueprint"; "regionreplicator";
            "replicator"; "airwall"; "copier"] = true.
Proof.
  rewrite !str_in_spec. simpl. intuition.
Qed.

Lemma choose_never_submodel_only (b p : string) :
  choose_material_system b p <> submodel_only.
Proof.
  unfold choose_material_system.
  destruct (String.eqb b "teamspawn"); [discriminate |].
  destruct (str_in b ["soil"; "plantash"]); [discriminate |].
  destruct (str_in b ["minestone"; "stone"; "buildblueprint"; "regionreplicator";
                      "replicator"; "airwall"; "copier"]) eqn:E1; [discriminate |].
  destruct (str_in b ["replicator"; "regionreplicator"; "airwall"; "copier"]) eqn:E2;
    [| discriminate].
  apply replicator_list_included in E2. congruence.
Qed.

(** C2: the material system of the configuration resolved for a mapping
    record is [teamspawn] for the blocktype teamspawn, [soil] for soil and
    plantash, [minestone] for minestone, stone, buildblueprint,
    regionreplicator, replicator, airwall and copier, and [default] for
    every other blocktype; [submodel_only] is never chosen, its branch
    being shadowed by the one before it. *)
Theorem material_system_decision_table
        (path_exists : string -> bool) (pid : Z) (r : MappingRecord)
        (tex models : string) :
  let c := new_ModelConfig path_exists pid (Some r) tex models in
  let b := blocktype r in
  (b = "teamspawn" -> material_system c = teamspawn_system) /\
  (In b ["soil"; "plantash"] -> material_system c = soil_system) /\
  (In b ["minestone"; "stone"; "buildblueprint"; "regionreplicator";
         "replicator"; "airwall"; "copier"] -> material_system c = minestone_system) /\
  (b <> "teamspawn" ->
   ~ In b ["soil"; "plantash"] ->
   ~ In b ["minestone"; "stone"; "buildblueprint"; "regionreplicator";
           "replicator"; "airwall"; "copier"] ->
   material_system c = default_system) /\
  material_system c <> submodel_only.
Proof.
  intros c b. subst c. rewrite material_system_of_config. simpl from_option.
  fold b. unfold choose_material_system.
  repeat split.
  - intros ->. reflexivity.
  - intros H. simpl in H.
    destruct H as [<- | [<- | []]]; reflexivity.
  - intros H. simpl in H.
    destruct H as [<- | [<- | [<- | [<- | [<- | [<- | [<- | []]]]]]]]; reflexivity.
  - intros H1 H2 H3.
    apply String.eqb_neq in H1. rewrite H1.
    apply str_in_false in H2. rewrite H2.
    assert (H4 : str_in b ["replicator"; "regionreplicator"; "airwall"; "copier"] = false).
    { destruct (str_in b ["replicator"; "regionreplicator"; "airwall"; "copier"]) eqn:E;
        [| reflexivity].
      apply replicator_list_included in E. apply str_in_false in H3. congruence. }
    apply str_in_false in H3. rewrite H3, H4. reflexivity.
  - apply choose_never_submodel_only.
Qed.

End DecisionTable.

(** ** Paths built from a position id *)

Section Paths.
Import PyStr.

Lemma string_app_assoc (a b c : string) : (a ++ b) ++ c = a ++ (b ++ c).
Proof.
  induction a as [| x a IH]; [reflexivity |].
  change (String x ((a ++ b) ++ c) = String x (a ++ (b ++ c))).
  now rewrite IH.
Qed.

Lemma contains_app (c : ascii) (s t : string) :
  contains c (s ++ t) = contains c s || contains c t.
Proof.
  induction s as [| a s IH]; simpl; [reflexivity |].
  rewrite IH. apply orb_assoc.
Qed.

Lemma startswith_contains (c : ascii) (s : string) :
  contains c s = false -> startswith c s = false.
Proof.
  destruct s as [| a s]; simpl; [reflexivity |].
  intros H. apply orb_false_iff in H. tauto.
Qed.

Lemma endswith_contains (c : ascii) (s : string) :
  contains c s = false -> endswith c s = false.
Proof.
  induction s as [| a s IH]; simpl; [reflexivity |].
  intros H. apply orb_false_iff in H. destruct H as [Ha Hs].
  destruct s; [assumption | auto].
Qed.

Lemma endswith_app (c : ascii) (s t : string) :
  t <> "" -> endswith c (s ++ t) = endswith c t.
Proof.
  intros Ht. induction s as [| a s IH]; simpl; [reflexivity |].
  destruct (s ++ t) eqn:E; [| assumption].
  destruct s; [change (t = "") in E; congruence | discriminate E].
Qed.

Lemma pretty_N_char_no_slash (x : N) : Ascii.eqb (pretty_N_char x) "/" = false.
Proof. unfold pretty_N_char. repeat case_match; reflexivity. Qed.

Lemma pretty_N_go_no_slash (x : N) (s : string) :
  contains "/" s = false -> contains "/" (pretty_N_go x s) = false.
Proof.
  revert s. induction (N.lt_wf_0 x) as [x _ IH]. intros s Hs.
  assert (x = 0 \/ 0 < x)%N as [-> | Hx] by lia.
  - now rewrite pretty_N_go_0.
  - rewrite pretty_N_go_step by assumption. apply IH.
    + now apply N.div_lt.
    + simpl. now rewrite pretty_N_char_no_slash, Hs.
Qed.

Lemma pretty_N_go_nonempty (x : N) (s : string) :
  s <> "" -> pretty_N_go x s <> "".
Proof.
  revert s. induction (N.lt_wf_0 x) as [x _ IH]. intros s Hs.
  assert (x = 0 \/ 0 < x)%N as [-> | Hx] by lia.
  - now rewrite pretty_N_go_0.
  - rewrite pretty_N_go_step by assumption. apply IH.
    + now apply N.div_lt.
    + discriminate.
Qed.

Lemma str_of_int_no_slash (n : Z) : contains "/" (str_of_int n) = false.
Proof.
  unfold str_of_int, pretty, pretty_Z.
  destruct n as [| p | p]; [reflexivity | |].
  - unfold pretty, pretty_positive, pretty, pretty_N.
    case_decide; [reflexivity |]. now apply pretty_N_go_no_slash.
  - change (contains "/" (String "-" (pretty p)) = false). simpl.
    unfold pretty, pretty_positive, pretty, pretty_N.
    case_decide; [reflexivity |]. now apply pretty_N_go_no_slash.
Qed.

Lemma str_of_int_nonempty (n : Z) : str_of_int n <> "".
Proof.
  unfold str_of_int, pretty, pretty_Z.
  destruct n as [| p | p]; [discriminate | | discriminate].
  unfold pretty, pretty_positive, pretty, pretty_N.
  case_decide; [lia |].
  rewrite pretty_N_go_step by lia. apply pretty_N_go_nonempty. discriminate.
Qed.

(** Below a root that is not empty and does not end with the separator,
    [os.path.join(root, str(id), name)] is [root/id/name]. *)
Lemma path_join_id_file (root name : string) (n : Z) :
  root <> "" -> endswith "/" root = false ->
  startswith "/" name = false ->
  path_join root [str_of_int n; name] = root ++ "/" ++ str_of_int n ++ "/" ++ name.
Proof.
  intros Hroot Hend Hname. unfold path_join. simpl. unfold join2 at 2.
  rewrite (startswith_contains _ _ (str_of_int_no_slash n)).
  apply String.eqb_neq in Hroot. rewrite Hroot, Hend. simpl orb. cbv iota.
  unfold join2. rewrite Hname.
  assert (E1 : String.eqb (root ++ "/" ++ str_of_int n) "" = false).
  { apply String.eqb_neq. apply String.eqb_neq in Hroot.
    destruct root; [congruence | discriminate]. }
  assert (E2 : endswith "/" (root ++ "/" ++ str_of_int n) = false).
  { rewrite endswith_app.
    - change ("/" ++ str_of_int n) with (String "/" (str_of_int n)).
      pose proof (str_of_int_nonempty n) as Hne.
      pose proof (endswith_contains _ _ (str_of_int_no_slash n)) as Hc.
      simpl. destruct (str_of_int n); [congruence | assumption].
    - discriminate. }
  rewrite E1, E2. simpl orb. cbv iota.
  rewrite !string_app_assoc. reflexivity.
Qed.

End Paths.

(** ** The teamspawn configuration *)

Section Teamspawn.
Import PyStr Mapping Config.

(** C3: for a mapping record of blocktype teamspawn, whatever its
    submodel name, the configuration needs the main model, has an empty
    submodel name and no submodel path (the lookup is skipped, so
    [has_submodel] is false whatever files exist), and its main model is
    [os.path.join(models_root, str(id), "teamspawn.obj")], that is
    [models_root/id/teamspawn.obj] below a root that is not empty and
    does not end with the separator. *)
Theorem teamspawn_config
        (path_exists : string -> bool) (pid : Z) (r : MappingRecord)
        (tex models : string) :
  blocktype r = "teamspawn" ->
  let c := new_ModelConfig path_exists pid (Some r) tex models in
  need_main_model c = true /\
  cfg_submodel_name c = "" /\
  submodel_path c = None /\
  has_submodel path_exists c = false /\
  main_model_path c = path_join models [str_of_int pid; "teamspawn.obj"] /\
  (models <> "" -> endswith "/" models = false ->
   main_model_path c = models ++ "/" ++ str_of_int pid ++ "/teamspawn.obj").
Proof.
  intros Hb c.
  assert (Hpath : main_model_path c = path_join models [str_of_int pid; "teamspawn.obj"]).
  { subst c. unfold new_ModelConfig. simpl. now rewrite Hb. }
  repeat split.
  - subst c. unfold new_ModelConfig. simpl. now rewrite Hb.
  - subst c. unfold new_ModelConfig. simpl. now rewrite Hb.
  - subst c. unfold new_ModelConfig. simpl. now rewrite Hb.
  - subst c. unfold has_submodel, new_ModelConfig. simpl. now rewrite Hb.
  - exact Hpath.
  - intros H1 H2. rewrite Hpath. now apply path_join_id_file.
Qed.

(** The record of position 12: teamspawn, with a submodel name. *)
Definition teamspawn_record : MappingRecord :=
  mkMappingRecord 12 "teamspawn" "spawn" "flag" "flag" true true true [].

Lemma teamspawn_config_witness :
  let c := new_ModelConfig (fun _ => true) 12 (Some teamspawn_record) "/tex" "/models" in
  need_main_model c = true /\
  cfg_submodel_name c = "" /\
  submodel_path c = None /\
  has_submodel (fun _ => true) c = false /\
  main_model_path c = path_join "/models" [str_of_int 12; "teamspawn.obj"] /\
  ("/models" <> "" -> endswith "/" "/models" = false ->
   main_model_path c = "/models" ++ "/" ++ str_of_int 12 ++ "/teamspawn.obj").
Proof.
  apply (teamspawn_config (fun _ => true) 12 teamspawn_record "/tex" "/models").
  reflexivity.
Defined.

End Teamspawn.

(** ** The mapping-table parser *)

Section MappingParser.
Import PyStr Mapping Config.

Lemma split_no_separator (d : ascii) (s p : string) :
  In p (split d s) -> contains d p = false.
Proof.
  revert p. induction s as [| c s IH]; intros p Hp; simpl in Hp.
  - destruct Hp as [<- | []]. reflexivity.
  - destruct (Ascii.eqb c d) eqn:Ecd.
    + destruct Hp as [<- | Hp]; [reflexivity | now apply IH].
    + destruct (split d s) as [| q qs] eqn:Es.
      * destruct Hp as [<- | []]. simpl. now rewrite Ecd.
      * destruct Hp as [<- | Hp].
        -- simpl. rewrite Ecd. apply IH. now left.
        -- apply IH. now right.
Qed.

Lemma field_no_separator (d : ascii) (s : string) (i : nat) :
  contains d (field i (split d s)) = false.
Proof.
  unfold field. destruct (i <? length (split d s))%nat eqn:Ei; [| reflexivity].
  apply split_no_separator with (s := s). apply nth_In. now apply Nat.ltb_lt.
Qed.

(** What [parse_fields] returns on the fields of a split line: the branch
    on an embedded comma is never taken. *)
Lemma parse_fields_of_split (s : string) (r : MappingRecord) :
  parse_fields (split "," s) = Some r ->
  py_int (nth 0 (split "," s) "") = Some (position_id r) /\
  blocktype r = field 6 (split "," s) /\
  main_texture_prefix r = field 43 (split "," s) /\
  submodel_name r = field 44 (split "," s) /\
  z_texture_prefix r = field 44 (split "," s).
Proof.
  unfold parse_fields.
  destruct (py_int (nth 0 (split "," s) "")) as [pid |]; [| discriminate].
  rewrite (field_no_separator "," s 43).
  intros [= <-]. simpl. repeat split; reflexivity.
Qed.

Lemma parse_line_fields (line : string) (r : MappingRecord) :
  parse_line line = Some r ->
  parse_fields (split "," (strip line)) = Some r.
Proof.
  unfold parse_line.
  destruct (negb (truthy (strip line)) || startswith "=" (strip line)); [discriminate |].
  destruct (length (split "," (strip line)) <? 46)%nat; [discriminate |].
  trivial.
Qed.

(** A property of the records that [add_line] preserves holds of every
    entry of the table. *)
Lemma table_invariant (P : MappingRecord -> Prop) :
  (forall line r, parse_line line = Some r -> P r) ->
  forall (lines : list string) (m : gmap Z MappingRecord),
    (forall i r, m !! i = Some r -> P r) ->
    forall i r, fold_left add_line lines m !! i = Some r -> P r.
Proof.
  intros Hline lines. induction lines as [| line lines IH]; intros m Hm i r; simpl.
  - apply Hm.
  - apply IH. intros j q. unfold add_line.
    destruct (parse_line line) as [r' |] eqn:E; [| apply Hm].
    destruct (decide (position_id r' = j)) as [<- | Hne].
    + rewrite lookup_insert_eq. intros [= <-]. eapply Hline, E.
    + rewrite lookup_insert_ne by assumption. apply Hm.
Qed.

(** C10: in every record of the table built by [parse_mapping_table] the
    Z-texture prefix equals the submodel name, both being field 44; the
    field 43 of a line split on commas holds no comma, so the branch that
    would override the Z-texture prefix is never taken. *)
Theorem z_prefix_is_submodel_name :
  (forall line : string,
      contains "," (field 43 (split "," (strip line))) = false) /\
  (forall (file : option string) (i : Z) (r : MappingRecord),
      parse_mapping_table file !! i = Some r ->
      z_texture_prefix r = submodel_name r /\
      z_texture_prefix r = field 44 (all_parts r)).
Proof.
  split.
  - intros line. apply field_no_separator.
  - intros [text |] i r; simpl.
    + apply (table_invariant
               (fun r => z_texture_prefix r = submodel_name r /\
                         z_texture_prefix r = field 44 (all_parts r))).
      * intros line q Hq. apply parse_line_fields in Hq.
        pose proof (parse_fields_of_split _ _ Hq) as (_ & _ & _ & Hs & Hz).
        split; [congruence |].
        unfold parse_fields in Hq.
        destruct (py_int (nth 0 (split "," (strip line)) "")); [| discriminate].
        destruct (contains "," (field 43 (split "," (strip line))));
          injection Hq as <-; simpl; simpl in Hz; exact Hz.
      * intros j q. rewrite lookup_empty. discriminate.
    + rewrite lookup_empty. discriminate.
Qed.

(** The line of the scenario: 46 fields, the id 7, [minestone] at index 6,
    [hupo] at index 43 and [hupo1] at index 44. *)
Definition scenario_line : string :=
  "7,,,,,,minestone,,,,,,,,,,,,,,,,,,,,,,,,,,,,,,,,,,,,,hupo,hupo1,".

(** C8, as the code has it: a line of at least 46 comma-separated fields
    whose first field reads as 7, with [minestone] at index 6, [hupo] at
    index 43 and [hupo1] at index 44, is parsed to a record of position 7
    with the main texture prefix [hupo] and the Z-texture prefix [hupo1],
    the line enters the table under 7, and the configuration resolved from
    the record uses the minestone material system; the Z-texture prefix is
    field 44, like the submodel name, and the branch for a field 43 that
    packs two names is not taken, field 43 holding no comma. *)
Theorem mapping_line_scenario (line : string) :
  let parts := split "," (strip line) in
  strip line <> "" ->
  startswith "=" (strip line) = false ->
  (46 <= length parts)%nat ->
  py_int (nth 0 parts "") = Some 7 ->
  nth 6 parts "" = "minestone" ->
  nth 43 parts "" = "hupo" ->
  nth 44 parts "" = "hupo1" ->
  exists r : MappingRecord,
    parse_line line = Some r /\
    position_id r = 7 /\
    main_texture_prefix r = "hupo" /\
    z_texture_prefix r = "hupo1" /\
    submodel_name r = "hupo1" /\
    (forall m : gmap Z MappingRecord, add_line m line !! 7 = Some r) /\
    (forall (path_exists : string -> bool) (tex models : string),
        material_system (new_ModelConfig path_exists 7 (Some r) tex models)
        = minestone_system) /\
    contains "," (field 43 parts) = false /\
    main_texture_prefix r = field 43 parts /\
    z_texture_prefix r = field 44 parts /\
    submodel_name r = field 44 parts.
Proof.
  intros parts Hne Heq Hlen Hid H6 H43 H44.
  assert (Hparse : exists r, parse_line line = Some r).
  { unfold parse_line, truthy.
    apply String.eqb_neq in Hne. rewrite Hne, Heq. simpl.
    fold parts.
    assert (E : (length parts <? 46)%nat = false) by (apply Nat.ltb_ge; lia).
    rewrite E. unfold parse_fields. rewrite Hid.
    destruct (contains "," (field 43 parts)); eauto. }
  destruct Hparse as [r Hr]. exists r.
  pose proof (parse_fields_of_split _ _ (parse_line_fields _ _ Hr))
    as (Hpid & Hb & Hm & Hs & Hz).
  fold parts in Hpid, Hb, Hm, Hs, Hz.
  assert (F : forall i, (i < 46)%nat -> field i parts = nth i parts "").
  { intros i Hi. unfold field.
    assert (E : (i <? length parts)%nat = true) by (apply Nat.ltb_lt; lia).
    now rewrite E. }
  pose proof (field_no_separator "," (strip line) 43) as Hplain. fold parts in Hplain.
  assert (Hp7 : position_id r = 7) by congruence.
  split; [exact Hr |]. split; [exact Hp7 |].
  split; [rewrite Hm, F by lia; exact H43 |].
  split; [rewrite Hz, F by lia; exact H44 |].
  split; [rewrite Hs, F by lia; exact H44 |].
  split.
  { intros m. unfold add_line. rewrite Hr, Hp7. apply lookup_insert_eq. }
  split.
  { intros path_exists tex models.
    rewrite material_system_of_config. simpl from_option.
    rewrite Hb, F by lia. rewrite H6. reflexivity. }
  auto.
Qed.

Lemma mapping_line_scenario_witness :
  exists r : MappingRecord,
    parse_line scenario_line = Some r /\
    position_id r = 7 /\
    main_texture_prefix r = "hupo" /\
    z_texture_prefix r = "hupo1" /\
    submodel_name r = "hupo1" /\
    (forall m : gmap Z MappingRecord, add_line m scenario_line !! 7 = Some r) /\
    (forall (path_exists : string -> bool) (tex models : string),
        material_system (new_ModelConfig path_exists 7 (Some r) tex models)
        = minestone_system) /\
    contains "," (field 43 (split "," (strip scenario_line))) = false /\
    main_texture_prefix r = field 43 (split "," (strip scenario_line)) /\
    z_texture_prefix r = field 44 (split "," (strip scenario_line)) /\
    submodel_name r = field 44 (split "," (strip scenario_line)).
Proof.
  apply (mapping_line_scenario scenario_line);
    [discriminate | reflexivity | vm_compute; lia | reflexivity
     | reflexivity | reflexivity | reflexivity].
Defined.

(** The last clause of the sentence of the specification: on a line of the
    scenario the parser meets the special case, a field 43 with an embedded
    comma that packs the main texture prefix and the Z-texture prefix. *)
Definition scenario_packs_two_prefixes : Prop :=
  forall line : string,
    let parts := split "," (strip line) in
    (46 <= length parts)%nat ->
    py_int (nth 0 parts "") = Some 7 ->
    nth 6 parts "" = "minestone" ->
    nth 43 parts "" = "hupo" ->
    nth 44 parts "" = "hupo1" ->
    contains "," (field 43 parts) = true.

(** On the line of the scenario field 43 is [hupo], without a comma: the
    test [',' in main_texture_prefix] fails and the Z-texture prefix stays
    the field 44 that it was given before. *)
Lemma scenario_packing_counterexample : ~ scenario_packs_two_prefixes.
Proof.
  intros H. specialize (H scenario_line). cbv zeta in H.
  assert (E : contains "," (field 43 (split "," (strip scenario_line))) = true).
  { apply H; [vm_compute; lia | reflexivity | reflexivity | reflexivity | reflexivity]. }
  vm_compute in E. discriminate E.
Qed.

Lemma z_prefix_is_submodel_name_witness :
  exists r : MappingRecord,
    parse_mapping_table (Some scenario_line) !! 7 = Some r /\
    z_texture_prefix r = submodel_name r /\
    z_texture_prefix r = "hupo1".
Proof.
  destruct (parse_mapping_table (Some scenario_line) !! 7) as [r |] eqn:E.
  - exists r. split; [reflexivity |]. split.
    + apply (proj2 z_prefix_is_submodel_name (Some scenario_line) 7 r E).
    + vm_compute in E. injection E as <-. reflexivity.
  - vm_compute in E. discriminate E.
Defined.

End MappingParser.

(** ** The classification of faces *)

Section FaceClassification.
Import Faces.

(** *** Comparisons of binary64 numbers with the two thresholds *)

Lemma float_gt07_not_small (x : float) :
  gt x c07 = true -> lt (abs x) c03 = false.
Proof.
  unfold gt, lt. rewrite !ltb_spec, abs_spec.
  change (Prim2SF c07) with (S754_finite false 6305039478318694 (-53)).
  change (Prim2SF c03) with (S754_finite false 5404319552844595 (-54)).
  destruct (Prim2SF x) as [s | s | | s m e];
    try destruct s; try discriminate; try reflexivity.
  unfold SFltb, SFcompare, SFabs.
  destruct (Z.compare_spec (-53) e); destruct (Z.compare_spec e (-54));
    try lia; try discriminate; reflexivity.
Qed.

Lemma float_lt_neg07_not_small (x : float) :
  lt x (- c07) = true -> lt (abs x) c03 = false.
Proof.
  unfold gt, lt. rewrite !ltb_spec, abs_spec.
  change (Prim2SF (- c07)) with (S754_finite true 6305039478318694 (-53)).
  change (Prim2SF c03) with (S754_finite false 5404319552844595 (-54)).
  destruct (Prim2SF x) as [s | s | | s m e];
    try destruct s; try discriminate; try reflexivity.
  unfold SFltb, SFcompare, SFabs.
  destruct (Z.compare_spec e (-53)); destruct (Z.compare_spec e (-54));
    try lia; try discriminate; reflexivity.
Qed.

Lemma float_gt07_not_lt_neg07 (x : float) :
  gt x c07 = true -> lt x (- c07) = false.
Proof.
  unfold gt, lt. rewrite !ltb_spec.
  change (Prim2SF (- c07)) with (S754_finite true 6305039478318694 (-53)).
  change (Prim2SF c07) with (S754_finite false 6305039478318694 (-53)).
  destruct (Prim2SF x) as [s | s | | s m e];
    try destruct s; try discriminate; reflexivity.
Qed.

(** *** The chain of tests *)

Inductive Bucket := PosX | NegX | PosY | NegY | PosZ | NegZ.

Definition Bucket_eqb (a b : Bucket) : bool :=
  match a, b with
  | PosX, PosX | NegX, NegX | PosY, PosY | NegY, NegY | PosZ, PosZ | NegZ, NegZ => true
  | _, _ => false
  end.

(** The list of a bucket. *)
Definition faces_in (b : Bucket) (fs : FaceSets) : list nat :=
  match b with
  | PosX => x_faces fs
  | NegX => neg_x_faces fs
  | PosY => y_faces fs
  | NegY => neg_y_faces fs
  | PosZ => z_faces fs
  | NegZ => neg_z_faces fs
  end.

(** The test of a bucket, taken on its own. *)
Definition test_of (b : Bucket) (n : Vector) : bool :=
  match b with
  | PosX => is_pos_x n
  | NegX => is_neg_x n
  | PosY => is_pos_y n
  | NegY => is_neg_y n
  | PosZ => is_pos_z n
  | NegZ => is_neg_z n
  end.

(** The branch of the [if/elif] chain that a normalized normal takes. *)
Definition branch_of (n : Vector) : option Bucket :=
  if is_pos_x n then Some PosX
  else if is_neg_x n then Some NegX
  else if is_pos_y n then Some PosY
  else if is_neg_y n then Some NegY
  else if is_pos_z n then Some PosZ
  else if is_neg_z n then Some NegZ
  else None.

Definition takes (b : Bucket) (n : Vector) : bool :=
  match branch_of n with
  | Some b' => Bucket_eqb b b'
  | None => false
  end.

(** The six tests exclude one another, so a branch is taken exactly when
    its own test holds. *)
Lemma takes_test (b : Bucket) (n : Vector) : takes b n = test_of b n.
Proof.
  pose proof (float_gt07_not_small (vx n)) as X1.
  pose proof (float_lt_neg07_not_small (vx n)) as X2.
  pose proof (float_gt07_not_lt_neg07 (vx n)) as X3.
  pose proof (float_gt07_not_small (vy n)) as Y1.
  pose proof (float_lt_neg07_not_small (vy n)) as Y2.
  pose proof (float_gt07_not_lt_neg07 (vy n)) as Y3.
  pose proof (float_gt07_not_small (vz n)) as Z1.
  pose proof (float_lt_neg07_not_small (vz n)) as Z2.
  pose proof (float_gt07_not_lt_neg07 (vz n)) as Z3.
  unfold takes, branch_of, test_of,
    is_pos_x, is_neg_x, is_pos_y, is_neg_y, is_pos_z, is_neg_z.
  destruct (gt (vx n) c07); destruct (lt (vx n) (- c07));
    destruct (lt (abs (vx n)) c03);
    try (specialize (X1 eq_refl)); try (specialize (X2 eq_refl));
    try (specialize (X3 eq_refl)); try discriminate;
  destruct (gt (vy n) c07); destruct (lt (vy n) (- c07));
    destruct (lt (abs (vy n)) c03);
    try (specialize (Y1 eq_refl)); try (specialize (Y2 eq_refl));
    try (specialize (Y3 eq_refl)); try discriminate;
  destruct (gt (vz n) c07); destruct (lt (vz n) (- c07));
    destruct (lt (abs (vz n)) c03);
    try (specialize (Z1 eq_refl)); try (specialize (Z2 eq_refl));
    try (specialize (Z3 eq_refl)); try discriminate;
  destruct b; reflexivity.
Qed.

(** *** The loop over the polygons *)

Variable length : Vector -> float.
Variable normalized : Vector -> Vector.

Lemma visit_faces_in (b : Bucket) (fs : FaceSets) (i : nat) (normal : Vector) :
  faces_in b (visit length normalized fs (i, normal))
  = (faces_in b fs
     ++ if takes b (normal_normalized length normalized normal) then [i] else [])%list.
Proof.
  unfold visit, takes, branch_of.
  destruct (is_pos_x _); [destruct b; simpl; now rewrite ?app_nil_r |].
  destruct (is_neg_x _); [destruct b; simpl; now rewrite ?app_nil_r |].
  destruct (is_pos_y _); [destruct b; simpl; now rewrite ?app_nil_r |].
  destruct (is_neg_y _); [destruct b; simpl; now rewrite ?app_nil_r |].
  destruct (is_pos_z _); [destruct b; simpl; now rewrite ?app_nil_r |].
  destruct (is_neg_z _); destruct b; simpl; now rewrite ?app_nil_r.
Qed.

(** The indices that the loop appends to a bucket, in order. *)
Definition selected (b : Bucket) (ps : list (nat * Vector)) : list nat :=
  map fst (List.filter (fun p => takes b (normal_normalized length normalized (snd p))) ps).

Lemma fold_visit_faces_in (b : Bucket) (ps : list (nat * Vector)) (fs : FaceSets) :
  faces_in b (fold_left (visit length normalized) ps fs)
  = (faces_in b fs ++ selected b ps)%list.
Proof.
  revert fs. induction ps as [| [i normal] ps IH]; intros fs.
  - simpl. now rewrite app_nil_r.
  - cbn [fold_left]. rewrite IH, visit_faces_in. unfold selected.
    cbn [List.filter snd]. rewrite <- app_assoc. f_equal.
    destruct (takes b _); reflexivity.
Qed.

Lemma in_enumerate_from (k i : nat) (n : Vector) (normals : list Vector) :
  In (i, n) (enumerate_from k normals)
  <-> (k <= i)%nat /\ nth_error normals (i - k) = Some n.
Proof.
  revert k. induction normals as [| m rest IH]; intros k; simpl.
  - split; [intros [] |]. intros [_ H]. destruct (i - k)%nat; discriminate.
  - rewrite IH. split.
    + intros [[= <- <-] | [Hle Hnth]].
      * split; [lia |]. now replace (k - k)%nat with 0%nat by lia.
      * split; [lia |]. replace (i - k)%nat with (S (i - S k)) by lia. exact Hnth.
    + intros [Hle Hnth]. destruct (i - k)%nat as [| j] eqn:E.
      * left. simpl in Hnth. injection Hnth as ->. f_equal. lia.
      * right. split; [lia |]. simpl in Hnth.
        now replace (i - S k)%nat with j by lia.
Qed.

Lemma in_selected (b : Bucket) (i : nat) (normals : list Vector) :
  In i (selected b (polygons normals))
  <-> exists n, nth_error normals i = Some n /\
                test_of b (normal_normalized length normalized n) = true.
Proof.
  unfold selected, polygons. rewrite in_map_iff. split.
  - intros ([j n] & Hj & Hin). simpl in Hj. subst j.
    apply filter_In in Hin. destruct Hin as [Hin Ht].
    apply in_enumerate_from in Hin. destruct Hin as [_ Hnth].
    rewrite Nat.sub_0_r in Hnth. simpl in Ht. rewrite takes_test in Ht. eauto.
  - intros (n & Hnth & Ht). exists (i, n). split; [reflexivity |].
    apply filter_In. split.
    + apply in_enumerate_from. rewrite Nat.sub_0_r. split; [lia | assumption].
    + simpl. now rewrite takes_test.
Qed.

Lemma fst_enumerate_from (k : nat) (normals : list Vector) :
  map fst (enumerate_from k normals) = seq k (List.length normals).
Proof.
  revert k. induction normals as [| n rest IH]; intros k; simpl; [reflexivity |].
  now rewrite IH.
Qed.

Lemma NoDup_map_filter {A B : Type} (f : A -> B) (p : A -> bool) (l : list A) :
  List.NoDup (map f l) -> List.NoDup (map f (List.filter p l)).
Proof.
  induction l as [| a l IH]; simpl; intros H; [constructor |].
  inversion H as [| ? ? Hnot Hrest]; subst.
  destruct (p a); simpl; [| now apply IH].
  constructor; [| now apply IH].
  intros Hin. apply Hnot. apply in_map_iff in Hin. destruct Hin as (x & Hx & Hin).
  apply filter_In in Hin. apply in_map_iff. exists x. tauto.
Qed.

Lemma NoDup_selected (b : Bucket) (normals : list Vector) :
  List.NoDup (selected b (polygons normals)).
Proof.
  unfold selected, polygons. apply NoDup_map_filter.
  rewrite fst_enumerate_from. apply List.seq_NoDup.
Qed.

(** No normal passes two tests. *)
Lemma tests_exclusive (b b' : Bucket) (n : Vector) :
  test_of b n = true -> test_of b' n = true -> b = b'.
Proof.
  rewrite <- !takes_test. unfold takes.
  destruct (branch_of n) as [c |]; [| discriminate].
  destruct b, b', c; simpl; congruence.
Qed.

Lemma faces_in_find (b : Bucket) (normals : list Vector) :
  faces_in b (find_all_directional_faces length normalized (Some normals))
  = selected b (polygons normals).
Proof.
  unfold find_all_directional_faces. rewrite fold_visit_faces_in.
  destruct b; reflexivity.
Qed.

Lemma in_faces_in (b : Bucket) (i : nat) (normals : list Vector) :
  In i (faces_in b (find_all_directional_faces length normalized (Some normals)))
  <-> exists n, nth_error normals i = Some n /\
                test_of b (normal_normalized length normalized n) = true.
Proof. rewrite faces_in_find. apply in_selected. Qed.

(** C4: for the polygons of a mesh given by their normals, polygon [i] is
    in the +X (-X, +Y, -Y, +Z, -Z) list exactly when the matching component
    of its normalized normal is above 0.7 (below -0.7) and the two others
    are below 0.3 in absolute value; no index is twice in a list or in two
    lists; a polygon that passes none of the six tests is in no list. *)
Theorem face_classification (normals : list Vector) :
  let F := find_all_directional_faces length normalized (Some normals) in
  let nn := normal_normalized length normalized in
  (forall i, In i (x_faces F) <->
             exists n, nth_error normals i = Some n /\ is_pos_x (nn n) = true) /\
  (forall i, In i (neg_x_faces F) <->
             exists n, nth_error normals i = Some n /\ is_neg_x (nn n) = true) /\
  (forall i, In i (y_faces F) <->
             exists n, nth_error normals i = Some n /\ is_pos_y (nn n) = true) /\
  (forall i, In i (neg_y_faces F) <->
             exists n, nth_error normals i = Some n /\ is_neg_y (nn n) = true) /\
  (forall i, In i (z_faces F) <->
             exists n, nth_error normals i = Some n /\ is_pos_z (nn n) = true) /\
  (forall i, In i (neg_z_faces F) <->
             exists n, nth_error normals i = Some n /\ is_neg_z (nn n) = true) /\
  (forall b, List.NoDup (faces_in b F)) /\
  (forall b b' i, In i (faces_in b F) -> In i (faces_in b' F) -> b = b') /\
  (forall i n, nth_error normals i = Some n ->
               (forall b, test_of b (nn n) = false) ->
               forall b, ~ In i (faces_in b F)).
Proof.
  intros F nn. subst F nn.
  split; [intros i; apply (in_faces_in PosX) |].
  split; [intros i; apply (in_faces_in NegX) |].
  split; [intros i; apply (in_faces_in PosY) |].
  split; [intros i; apply (in_faces_in NegY) |].
  split; [intros i; apply (in_faces_in PosZ) |].
  split; [intros i; apply (in_faces_in NegZ) |].
  split; [| split].
  - intros b. rewrite faces_in_find. apply NoDup_selected.
  - intros b b' i H H'.
    apply in_faces_in in H. apply in_faces_in in H'.
    destruct H as (n & Hn & Ht). destruct H' as (n' & Hn' & Ht').
    assert (n' = n) by congruence. subst n'.
    eapply tests_exclusive; eassumption.
  - intros i n Hn Hnone b H.
    apply in_faces_in in H. destruct H as (n' & Hn' & Ht).
    assert (n' = n) by congruence. subst n'.
    rewrite Hnone in Ht. discriminate.
Qed.

End FaceClassification.

(** Three polygons: one facing +X, one facing -Z, one slanted; normals of
    length zero are taken as they are. *)
Example face_classification_example :
  Faces.find_all_directional_faces
    (fun _ => 0%float) (fun v => v)
    (Some [Faces.mkVector 1 0 0; Faces.mkVector 0 0 (-1);
           Faces.mkVector 0.5 0.5 0.5])
  = Faces.mkFaceSets [0%nat] [] [] [] [] [1%nat].
Proof. vm_compute. reflexivity. Qed.

(** ** Material slots of the polygons outside every directional list *)

Section FallbackSlot.
Import PyStr Mapping Config Faces Py Materials.

Variable path_exists : string -> bool.
Variable length : Vector -> float.
Variable normalized : Vector -> Vector.

(** The material that polygon [i] of an object shows: the slot named by
    its [material_index]. *)
Definition material_of (obj : MeshObject) (i : nat) : option Material :=
  match nth_error (polygons obj) i with
  | Some p => nth_error (materials obj) (material_index p)
  | None => None
  end.

(** Polygon [i] is in none of the six lists of [find_all_directional_faces]. *)
Definition unclassified (obj : MeshObject) (i : nat) : Prop :=
  forall b : Bucket, ~ In i (faces_in b (faces_of length normalized obj)).

Lemma mem_false (i : nat) (l : list nat) : ~ In i l -> mem i l = false.
Proof.
  intros H. unfold mem. destruct (existsb (Nat.eqb i) l) eqn:E; [| reflexivity].
  apply existsb_exists in E. destruct E as (x & Hx & Heq).
  apply Nat.eqb_eq in Heq. subst x. contradiction.
Qed.

Lemma assign_from_total (choose : nat -> nat -> result nat) (ps : list Polygon) :
  (forall i old, exists m, choose i old = Ok m) ->
  forall k, exists ps', assign_from choose k ps = Ok ps'.
Proof.
  intros Hc. induction ps as [| p ps IH]; intros k; simpl.
  - eauto.
  - destruct (Hc k (material_index p)) as [m ->]. simpl.
    destruct (IH (S k)) as [ps' ->]. simpl. eauto.
Qed.

Lemma assign_from_nth (choose : nat -> nat -> result nat) (ps ps' : list Polygon)
      (k i : nat) (p : Polygon) :
  assign_from choose k ps = Ok ps' ->
  nth_error ps i = Some p ->
  exists m, choose (k + i)%nat (material_index p) = Ok m /\
            nth_error ps' i = Some (mkPolygon (normal p) m).
Proof.
  revert ps' k i. induction ps as [| q ps IH]; intros ps' k i Ha Hn.
  - destruct i; discriminate.
  - simpl in Ha.
    destruct (choose k (material_index q)) as [m |] eqn:Ec; [| discriminate].
    simpl in Ha.
    destruct (assign_from choose (S k) ps) as [rest |] eqn:Er; [| discriminate].
    simpl in Ha. injection Ha as <-.
    destruct i as [| i]; simpl in Hn.
    + injection Hn as ->. exists m. rewrite Nat.add_0_r. auto.
    + destruct (IH rest (S k) i Er Hn) as (m' & Hm' & Hnth).
      exists m'. replace (k + S i)%nat with (S k + i)%nat by lia. auto.
Qed.

(** The slot of polygon [i] after a loop that cannot raise. *)
Lemma assign_slot (choose : nat -> nat -> result nat) (ps : list Polygon)
      (i m : nat) (p : Polygon) :
  (forall j old, exists k, choose j old = Ok k) ->
  nth_error ps i = Some p ->
  choose i (material_index p) = Ok m ->
  exists ps', assign choose ps = Ok ps' /\
              nth_error ps' i = Some (mkPolygon (normal p) m).
Proof.
  intros Htot Hn Hc. unfold assign.
  destruct (assign_from_total choose ps Htot 0) as [ps' Hps].
  exists ps'. split; [assumption |].
  destruct (assign_from_nth _ _ _ _ _ _ Hps Hn) as (m' & Hm' & Hnth).
  simpl in Hm'. congruence.
Qed.

Lemma unclassified_mem (obj : MeshObject) (i : nat) :
  unclassified obj i ->
  let fs := faces_of length normalized obj in
  mem i (x_faces fs) = false /\ mem i (neg_x_faces fs) = false /\
  mem i (y_faces fs) = false /\ mem i (neg_y_faces fs) = false /\
  mem i (z_faces fs) = false /\ mem i (neg_z_faces fs) = false.
Proof.
  intros H fs.
  repeat split; apply mem_false.
  - apply (H PosX).
  - apply (H NegX).
  - apply (H PosY).
  - apply (H NegY).
  - apply (H PosZ).
  - apply (H NegZ).
Qed.

Lemma nonempty_polygons (obj : MeshObject) (i : nat) (p : Polygon) :
  nth_error (polygons obj) i = Some p ->
  (List.length (polygons obj) =? 0)%nat = false.
Proof.
  intros H. destruct (polygons obj); [destruct i; discriminate | reflexivity].
Qed.

(** What [clear()] leaves of a polygon: its index is 0 when the object had
    slots, and the one it had when there was nothing to clear. *)
Definition start_polygon (obj : MeshObject) (p : Polygon) : Polygon :=
  mkPolygon (normal p)
            (if (0 <? List.length (materials obj))%nat then 0%nat else material_index p).

(** The polygons with which the material systems start. *)
Definition start_polygons (obj : MeshObject) : list Polygon :=
  map (start_polygon obj) (polygons obj).

Lemma apply_main_slotless (ps : list Polygon) (pid : Z) (cfg : option ModelConfig) :
  apply_main_model_materials path_exists length normalized (mkMeshObject ps []) pid cfg
  = match cfg with
    | None => Ok (mkMeshObject ps [], false)
    | Some c =>
        match material_system c with
        | teamspawn_system =>
            apply_teamspawn_material_system path_exists (mkMeshObject ps []) pid c
        | soil_system =>
            apply_soil_material_system path_exists length normalized (mkMeshObject ps []) pid c
        | minestone_system =>
            apply_minestone_material_system path_exists length normalized
              (mkMeshObject ps []) pid c
        | submodel_only => Ok (mkMeshObject ps [], true)
        | default_system =>
            apply_default_material_system path_exists length normalized
              (mkMeshObject ps []) pid c
        end
    end.
Proof. reflexivity. Qed.

Lemma map_id_polygons (ps : list Polygon) :
  map (fun p => mkPolygon (normal p) (material_index p)) ps = ps.
Proof.
  induction ps as [| [n m] ps IH]; simpl; [reflexivity | now rewrite IH].
Qed.

(** The systems run on the mesh without slots that [clear()] leaves. *)
Lemma apply_main_start (obj : MeshObject) (pid : Z) (cfg : option ModelConfig) :
  apply_main_model_materials path_exists length normalized obj pid cfg
  = apply_main_model_materials path_exists length normalized
      (mkMeshObject (start_polygons obj) []) pid cfg.
Proof.
  rewrite apply_main_slotless.
  unfold apply_main_model_materials, start_polygons, start_polygon, clear_materials.
  destruct obj as [ps ms]. cbn [polygons materials].
  destruct ms as [| m ms]; cbn [List.length Nat.ltb Nat.leb].
  - rewrite map_id_polygons. reflexivity.
  - reflexivity.
Qed.

Lemma start_normals (obj : MeshObject) :
  map normal (start_polygons obj) = map normal (polygons obj).
Proof.
  unfold start_polygons. rewrite map_map. reflexivity.
Qed.

Lemma start_length (obj : MeshObject) :
  List.length (start_polygons obj) = List.length (polygons obj).
Proof. unfold start_polygons. now rewrite length_map. Qed.

Lemma start_faces (obj : MeshObject) :
  faces_of length normalized (mkMeshObject (start_polygons obj) [])
  = faces_of length normalized obj.
Proof.
  unfold faces_of. cbn [polygons]. now rewrite start_normals.
Qed.

Lemma start_nth (obj : MeshObject) (i : nat) (p : Polygon) :
  nth_error (polygons obj) i = Some p ->
  nth_error (start_polygons obj) i = Some (start_polygon obj p).
Proof.
  intros H. unfold start_polygons. rewrite nth_error_map, H. reflexivity.
Qed.

Lemma start_nth_inv (obj : MeshObject) (i : nat) (q : Polygon) :
  nth_error (start_polygons obj) i = Some q ->
  exists p, nth_error (polygons obj) i = Some p.
Proof.
  unfold start_polygons. rewrite nth_error_map.
  destruct (nth_error (polygons obj) i) as [p |]; [eauto | discriminate].
Qed.

Lemma start_empty (obj : MeshObject) : start_polygons obj = [] -> polygons obj = [].
Proof.
  unfold start_polygons. destruct (polygons obj); [reflexivity | discriminate].
Qed.

Lemma start_unclassified (obj : MeshObject) (i : nat) :
  unclassified obj i -> unclassified (mkMeshObject (start_polygons obj) []) i.
Proof.
  unfold unclassified. now rewrite start_faces.
Qed.

(** The default system: slot 3 holds the default material, and the only
    slot does when no face texture resolves. *)
Lemma default_system_slot_slotless (ps : list Polygon) (pid : Z) (c : ModelConfig)
      (i : nat) (p : Polygon) :
  material_system c = default_system ->
  nth_error ps i = Some p ->
  unclassified (mkMeshObject ps []) i ->
  exists obj',
    apply_main_model_materials path_exists length normalized (mkMeshObject ps []) pid (Some c)
    = Ok (obj', true) /\
    material_of obj' i = Some (create_or_get_default_material pid).
Proof.
  intros Hsys Hn Hu.
  destruct (unclassified_mem (mkMeshObject ps []) i Hu) as (M1 & M2 & M3 & M4 & M5 & M6).
  pose proof (nonempty_polygons (mkMeshObject ps []) i p Hn) as Hlen.
  cbn [polygons] in Hlen.
  rewrite apply_main_slotless. rewrite Hsys.
  unfold apply_default_material_system. cbn [polygons materials].
  destruct (get_texture_path path_exists c "x") as [tx |];
    destruct (get_texture_path path_exists c "y") as [ty |];
    destruct (get_texture_path path_exists c "z") as [tz |].
  8: {
    destruct (assign_slot (fun _ _ => Ok 0%nat) ps i 0 p) as (ps' & Hps & Hnth);
      [eauto | assumption | reflexivity |].
    rewrite Hps. simpl. eexists. split; [reflexivity |].
    unfold material_of. cbn [polygons materials]. rewrite Hnth. reflexivity. }
  all: rewrite Hlen;
    match goal with
    | |- context [assign ?ch ?pl] =>
        destruct (assign_slot ch pl i 3 p) as (ps' & Hps & Hnth);
        [ intros j old; cbv beta;
          destruct (mem j _ || mem j _); [eauto |];
          destruct (mem j _ || mem j _); [eauto |];
          destruct (mem j _ || mem j _); eauto
        | assumption
        | cbv beta; rewrite M1, M2, M3, M4, M5, M6; reflexivity
        | ]
    end;
    rewrite Hps; simpl; eexists; (split; [reflexivity |]);
    unfold material_of; cbn [polygons materials]; rewrite Hnth; reflexivity.
Qed.

Lemma default_system_slot (obj : MeshObject) (pid : Z) (c : ModelConfig)
      (i : nat) (p : Polygon) :
  material_system c = default_system ->
  nth_error (polygons obj) i = Some p ->
  unclassified obj i ->
  exists obj',
    apply_main_model_materials path_exists length normalized obj pid (Some c)
    = Ok (obj', true) /\
    material_of obj' i = Some (create_or_get_default_material pid).
Proof.
  intros Hsys Hn Hu.
  rewrite apply_main_start.
  apply (default_system_slot_slotless (start_polygons obj) pid c i (start_polygon obj p));
    auto using start_nth, start_unclassified.
Qed.

(** The teamspawn system: one slot, which every polygon gets. *)
Lemma teamspawn_system_slot_slotless (ps : list Polygon) (pid : Z) (c : ModelConfig)
      (i : nat) (p : Polygon) :
  material_system c = teamspawn_system ->
  nth_error ps i = Some p ->
  exists obj',
    apply_main_model_materials path_exists length normalized (mkMeshObject ps []) pid (Some c)
    = Ok (obj', true) /\
    List.length (materials obj') = 1%nat /\
    material_of obj' i
    = Some (match get_teamspawn_texture_path path_exists c with
            | Some t => create_or_get_teamspawn_material pid t
            | None => create_or_get_default_material pid
            end).
Proof.
  intros Hsys Hn.
  rewrite apply_main_slotless. rewrite Hsys.
  unfold apply_teamspawn_material_system. cbn [polygons materials].
  destruct (assign_slot (fun _ _ => Ok 0%nat) ps i 0 p) as (ps' & Hps & Hnth);
    [eauto | assumption | reflexivity |].
  rewrite Hps. simpl. eexists. split; [reflexivity |].
  unfold material_of. cbn [polygons materials]. rewrite Hnth.
  destruct (get_teamspawn_texture_path path_exists c); split; reflexivity.
Qed.

Lemma teamspawn_system_slot (obj : MeshObject) (pid : Z) (c : ModelConfig)
      (i : nat) (p : Polygon) :
  material_system c = teamspawn_system ->
  nth_error (polygons obj) i = Some p ->
  exists obj',
    apply_main_model_materials path_exists length normalized obj pid (Some c)
    = Ok (obj', true) /\
    List.length (materials obj') = 1%nat /\
    material_of obj' i
    = Some (match get_teamspawn_texture_path path_exists c with
            | Some t => create_or_get_teamspawn_material pid t
            | None => create_or_get_default_material pid
            end).
Proof.
  intros Hsys Hn.
  rewrite apply_main_start.
  apply (teamspawn_system_slot_slotless (start_polygons obj) pid c i (start_polygon obj p));
    auto using start_nth, start_unclassified.
Qed.

(** The minestone system when no face texture resolves: the only slot
    holds the default material. *)
Lemma minestone_system_no_texture_slot_slotless (ps : list Polygon) (pid : Z) (c : ModelConfig)
      (i : nat) (p : Polygon) :
  material_system c = minestone_system ->
  get_texture_path path_exists c "x" = None ->
  get_texture_path path_exists c "y" = None ->
  get_texture_path path_exists c "z" = None ->
  nth_error ps i = Some p ->
  exists obj',
    apply_main_model_materials path_exists length normalized (mkMeshObject ps []) pid (Some c)
    = Ok (obj', true) /\
    material_of obj' i = Some (create_or_get_default_material pid).
Proof.
  intros Hsys Hx Hy Hz Hn.
  rewrite apply_main_slotless. rewrite Hsys.
  unfold apply_minestone_material_system. cbn [polygons materials].
  rewrite Hx, Hy, Hz.
  destruct (assign_slot (fun _ _ => Ok 0%nat) ps i 0 p) as (ps' & Hps & Hnth);
    [eauto | assumption | reflexivity |].
  rewrite Hps. simpl. eexists. split; [reflexivity |].
  unfold material_of. cbn [polygons materials]. rewrite Hnth. reflexivity.
Qed.

Lemma minestone_system_no_texture_slot (obj : MeshObject) (pid : Z) (c : ModelConfig)
      (i : nat) (p : Polygon) :
  material_system c = minestone_system ->
  get_texture_path path_exists c "x" = None ->
  get_texture_path path_exists c "y" = None ->
  get_texture_path path_exists c "z" = None ->
  nth_error (polygons obj) i = Some p ->
  exists obj',
    apply_main_model_materials path_exists length normalized obj pid (Some c)
    = Ok (obj', true) /\
    material_of obj' i = Some (create_or_get_default_material pid).
Proof.
  intros Hsys Hx Hy Hz Hn.
  rewrite apply_main_start.
  apply (minestone_system_no_texture_slot_slotless (start_polygons obj) pid c i (start_polygon obj p));
    auto using start_nth, start_unclassified.
Qed.

(** The soil system when the main texture resolves: a polygon outside the
    lists gets the slot of the main material. *)
Lemma soil_system_main_slot_slotless (ps : list Polygon) (pid : Z) (c : ModelConfig)
      (i : nat) (p : Polygon) (t : string) :
  material_system c = soil_system ->
  get_texture_path path_exists c "x" = Some t ->
  nth_error ps i = Some p ->
  unclassified (mkMeshObject ps []) i ->
  exists obj',
    apply_main_model_materials path_exists length normalized (mkMeshObject ps []) pid (Some c)
    = Ok (obj', true) /\
    material_of obj' i = Some (create_or_get_face_material pid (Some t) "x").
Proof.
  intros Hsys Hx Hn Hu.
  destruct (unclassified_mem (mkMeshObject ps []) i Hu) as (M1 & M2 & M3 & M4 & M5 & M6).
  pose proof (nonempty_polygons (mkMeshObject ps []) i p Hn) as Hlen.
  cbn [polygons] in Hlen.
  rewrite apply_main_slotless. rewrite Hsys.
  unfold apply_soil_material_system. cbn [polygons materials].
  rewrite Hx.
  destruct (get_texture_path path_exists c "z") as [tz |]; cbn [option_map];
    cbv zeta; rewrite Hlen.
  all: match goal with
    | |- context [assign ?ch ?pl] =>
        destruct (assign_slot ch pl i 0 p) as (ps' & Hps & Hnth);
        [ intros j old; cbv beta;
          rewrite ?lookup_insert_eq, ?lookup_insert_ne, ?lookup_insert_eq by discriminate;
          destruct (mem j _); [eauto |]; destruct (mem j _); eauto
        | assumption
        | cbv beta; rewrite M5, M6;
          rewrite ?lookup_insert_ne by discriminate; rewrite lookup_insert_eq; reflexivity
        | ]
    end;
    rewrite Hps; simpl; eexists; (split; [reflexivity |]);
    unfold material_of; cbn [polygons materials]; rewrite Hnth; reflexivity.
Qed.

Lemma soil_system_main_slot (obj : MeshObject) (pid : Z) (c : ModelConfig)
      (i : nat) (p : Polygon) (t : string) :
  material_system c = soil_system ->
  get_texture_path path_exists c "x" = Some t ->
  nth_error (polygons obj) i = Some p ->
  unclassified obj i ->
  exists obj',
    apply_main_model_materials path_exists length normalized obj pid (Some c)
    = Ok (obj', true) /\
    material_of obj' i = Some (create_or_get_face_material pid (Some t) "x").
Proof.
  intros Hsys Hx Hn Hu.
  rewrite apply_main_start.
  apply (soil_system_main_slot_slotless (start_polygons obj) pid c i (start_polygon obj p) t);
    auto using start_nth, start_unclassified.
Qed.

(** The soil system when neither texture resolves: the only slot holds the
    default material. *)
Lemma soil_system_no_texture_slot_slotless (ps : list Polygon) (pid : Z) (c : ModelConfig)
      (i : nat) (p : Polygon) :
  material_system c = soil_system ->
  get_texture_path path_exists c "x" = None ->
  get_texture_path path_exists c "z" = None ->
  nth_error ps i = Some p ->
  exists obj',
    apply_main_model_materials path_exists length normalized (mkMeshObject ps []) pid (Some c)
    = Ok (obj', true) /\
    material_of obj' i = Some (create_or_get_default_material pid).
Proof.
  intros Hsys Hx Hz Hn.
  pose proof (nonempty_polygons (mkMeshObject ps []) i p Hn) as Hlen.
  cbn [polygons] in Hlen.
  rewrite apply_main_slotless. rewrite Hsys.
  unfold apply_soil_material_system. cbn [polygons materials].
  rewrite Hx, Hz. cbn [option_map]. cbv zeta. rewrite Hlen.
  match goal with
  | |- context [assign ?ch ?pl] =>
      destruct (assign_slot ch pl i 0 p) as (ps' & Hps & Hnth);
      [ intros j old; cbv beta;
        rewrite ?lookup_insert_ne by discriminate;
        rewrite ?lookup_empty, ?lookup_insert_eq; simpl;
        destruct (mem j _); [eauto |]; destruct (mem j _); eauto
      | assumption
      | cbv beta;
        rewrite ?lookup_insert_ne by discriminate;
        rewrite ?lookup_empty, ?lookup_insert_eq; simpl;
        destruct (mem i _); [reflexivity |]; destruct (mem i _); reflexivity
      | ]
  end.
  rewrite Hps. simpl. eexists. split; [reflexivity |].
  unfold material_of. cbn [polygons materials]. rewrite Hnth. reflexivity.
Qed.

Lemma soil_system_no_texture_slot (obj : MeshObject) (pid : Z) (c : ModelConfig)
      (i : nat) (p : Polygon) :
  material_system c = soil_system ->
  get_texture_path path_exists c "x" = None ->
  get_texture_path path_exists c "z" = None ->
  nth_error (polygons obj) i = Some p ->
  exists obj',
    apply_main_model_materials path_exists length normalized obj pid (Some c)
    = Ok (obj', true) /\
    material_of obj' i = Some (create_or_get_default_material pid).
Proof.
  intros Hsys Hx Hz Hn.
  rewrite apply_main_start.
  apply (soil_system_no_texture_slot_slotless (start_polygons obj) pid c i (start_polygon obj p));
    auto using start_nth, start_unclassified.
Qed.

(** C5, as the code has it: after [apply_main_model_materials], a polygon
    that is in none of the six directional lists shows the default material
    in the default system (slot 3, or the only slot when no face texture
    resolves) and in the minestone system when no face texture resolves; in
    the teamspawn system it shows, like every polygon, the single material
    of the object (the teamspawn material, or the default one when no
    texture resolves); in the soil system it shows the main material when
    the main texture resolves, and the default material when neither the
    main nor the Z texture resolves. *)
Theorem unclassified_polygon_slot (obj : MeshObject) (pid : Z) (c : ModelConfig)
        (i : nat) (p : Polygon) :
  nth_error (polygons obj) i = Some p ->
  unclassified obj i ->
  let run := apply_main_model_materials path_exists length normalized obj pid (Some c) in
  let default_mat := create_or_get_default_material pid in
  (material_system c = default_system ->
   exists obj', run = Ok (obj', true) /\ material_of obj' i = Some default_mat) /\
  (material_system c = minestone_system ->
   get_texture_path path_exists c "x" = None ->
   get_texture_path path_exists c "y" = None ->
   get_texture_path path_exists c "z" = None ->
   exists obj', run = Ok (obj', true) /\ material_of obj' i = Some default_mat) /\
  (material_system c = teamspawn_system ->
   exists obj', run = Ok (obj', true) /\
     List.length (materials obj') = 1%nat /\
     material_of obj' i
     = Some (match get_teamspawn_texture_path path_exists c with
             | Some t => create_or_get_teamspawn_material pid t
             | None => default_mat
             end)) /\
  (material_system c = soil_system ->
   forall t, get_texture_path path_exists c "x" = Some t ->
   exists obj', run = Ok (obj', true) /\
     material_of obj' i = Some (create_or_get_face_material pid (Some t) "x")) /\
  (material_system c = soil_system ->
   get_texture_path path_exists c "x" = None ->
   get_texture_path path_exists c "z" = None ->
   exists obj', run = Ok (obj', true) /\ material_of obj' i = Some default_mat).
Proof.
  intros Hn Hu run default_mat. subst run default_mat.
  split; [| split; [| split; [| split]]].
  - intros Hsys. now apply default_system_slot with (p := p).
  - intros Hsys Hx Hy Hz. now apply minestone_system_no_texture_slot with (p := p).
  - intros Hsys. now apply teamspawn_system_slot with (p := p).
  - intros Hsys t Hx. now apply soil_system_main_slot with (p := p).
  - intros Hsys Hx Hz. now apply soil_system_no_texture_slot with (p := p).
Qed.

End FallbackSlot.

(** A soil block of position 7 whose only texture is [dirt.png], and a
    mesh of one slanted polygon (normals of length zero are taken as they
    are). *)
Definition soil_files (path : string) : bool := String.eqb path "/tex/7/dirt.png".

Definition soil_config : Config.ModelConfig :=
  Config.new_ModelConfig soil_files 7
    (Some (Mapping.mkMappingRecord 7 "soil" "dirt" "" "" true false false []))
    "/tex" "/models".

Definition slanted_mesh : Materials.MeshObject :=
  Materials.mkMeshObject
    [Materials.mkPolygon (Faces.mkVector 0.5 0.5 0.5) 5] [].

Lemma slanted_mesh_unclassified :
  unclassified (fun _ => 0%float) (fun v => v) slanted_mesh 0.
Proof. intros b. destruct b; vm_compute; tauto. Qed.

(** The sentence of the specification: in every material system a polygon
    outside the six lists ends in the slot of the default material. *)
Definition fallback_slot_claim : Prop :=
  forall (path_exists : string -> bool)
         (length : Faces.Vector -> float) (normalized : Faces.Vector -> Faces.Vector)
         (obj obj' : Materials.MeshObject) (pid : Z) (c : Config.ModelConfig)
         (i : nat) (p : Materials.Polygon),
    Materials.apply_main_model_materials path_exists length normalized obj pid (Some c)
    = Py.Ok (obj', true) ->
    nth_error (Materials.polygons obj) i = Some p ->
    unclassified length normalized obj i ->
    material_of obj' i = Some (Materials.create_or_get_default_material pid).

(** In the soil system the slanted polygon gets slot 0, the main material
    [BlockMat_X_7]; the object has no slot for the default material. *)
Lemma fallback_slot_counterexample : ~ fallback_slot_claim.
Proof.
  intros H.
  specialize (H soil_files (fun _ => 0%float) (fun v => v) slanted_mesh
                (Materials.mkMeshObject
                   [Materials.mkPolygon (Faces.mkVector 0.5 0.5 0.5) 0]
                   [Materials.mkMaterial "BlockMat_X_7"; Materials.mkMaterial "BlockMat_Z_7"])
                7 soil_config 0%nat
                (Materials.mkPolygon (Faces.mkVector 0.5 0.5 0.5) 5)).
  assert (E : material_of
                (Materials.mkMeshObject
                   [Materials.mkPolygon (Faces.mkVector 0.5 0.5 0.5) 0]
                   [Materials.mkMaterial "BlockMat_X_7"; Materials.mkMaterial "BlockMat_Z_7"])
                0
              = Some (Materials.create_or_get_default_material 7)).
  { apply H.
    - vm_compute. reflexivity.
    - reflexivity.
    - exact slanted_mesh_unclassified. }
  vm_compute in E. discriminate E.
Qed.

Lemma unclassified_polygon_slot_witness :
  exists obj',
    Materials.apply_main_model_materials soil_files (fun _ => 0%float) (fun v => v)
      slanted_mesh 7 (Some soil_config) = Py.Ok (obj', true) /\
    material_of obj' 0
    = Some (Materials.create_or_get_face_material 7 (Some "/tex/7/dirt.png") "x").
Proof.
  destruct (unclassified_polygon_slot soil_files (fun _ => 0%float) (fun v => v)
              slanted_mesh 7 soil_config 0
              (Materials.mkPolygon (Faces.mkVector 0.5 0.5 0.5) 5)
              eq_refl slanted_mesh_unclassified) as (_ & _ & _ & Hsoil & _).
  apply (Hsoil eq_refl "/tex/7/dirt.png"). vm_compute. reflexivity.
Defined.

(** The minestone system with one texture present, on a mesh that comes
    without material slots: the slanted polygon keeps the index it had (5
    here), the object has the X material only. *)
Example minestone_keeps_index_of_unclassified :
  Materials.apply_main_model_materials
    (fun path => String.eqb path "/tex/7/rock_z.png") (fun _ => 0%float) (fun v => v)
    slanted_mesh 7
    (Some (Config.new_ModelConfig (fun path => String.eqb path "/tex/7/rock_z.png") 7
             (Some (Mapping.mkMappingRecord 7 "minestone" "rock" "" "" true false false []))
             "/tex" "/models"))
  = Py.Ok (Materials.mkMeshObject
             [Materials.mkPolygon (Faces.mkVector 0.5 0.5 0.5) 5]
             [Materials.mkMaterial "BlockMat_X_7"], true).
Proof. vm_compute. reflexivity. Qed.

(** ** The template cache and the placed blocks *)

Section TemplateCache.
Import PyStr Mapping Config Py Placement Manager.

Variable path_exists : string -> bool.
Variable Blender : Type.
Variable Obj : Type.
Variable load_and_setup_model :
  Blender -> string -> string -> Z -> option ModelConfig -> bool -> option Obj * Blender.
Variable hide : Blender -> Obj -> Blender.
Variable new_template_container :
  Blender -> string -> option Obj -> option Obj -> Obj * Blender.
Variable find_object : Blender -> string -> option Obj.
Variable children : Blender -> Obj -> list Obj.
Variable block_size : Blender -> Obj -> option (float * float * float).
Variable calculate_model_dimensions : Blender -> Obj -> float * float * float * float.
Variable adjacent_mode : Blender -> bool.
Variable duplicate_and_place :
  Blender -> Obj -> string -> float * float * float -> Euler ->
  Z * Z * Z * Z * string -> option Obj * Blender.

Local Abbreviation create_template :=
  (create_template_for_position_id path_exists Blender Obj
     load_and_setup_model hide new_template_container).
Local Abbreviation create_block :=
  (create_block_from_template Blender Obj find_object children block_size
     calculate_model_dimensions adjacent_mode duplicate_and_place).

Lemma has_template_true (m : BlockModelManager Obj) (pid : Z) (t : Obj) :
  templates Obj m !! pid = Some t -> has_template_for_id Obj m pid = true.
Proof.
  intros H. unfold has_template_for_id. apply bool_decide_eq_true. rewrite H. eauto.
Qed.

Lemma has_template_false (m : BlockModelManager Obj) (pid : Z) :
  templates Obj m !! pid = None -> has_template_for_id Obj m pid = false.
Proof.
  intros H. unfold has_template_for_id. apply bool_decide_eq_false. rewrite H.
  intros [x Hx]. discriminate.
Qed.

Lemma template_cache_hit (w : World Blender Obj) (pid : Z) (tex models : string) (t : Obj) :
  templates Obj (manager Blender Obj w) !! pid = Some t ->
  create_template w pid tex models = (Some t, w).
Proof.
  intros H. unfold create_template_for_position_id.
  rewrite (has_template_true _ _ _ H). unfold get_template. now rewrite H.
Qed.

(** A template that a call returns is in the cache of the world that the
    call leaves. *)
Lemma template_returned_is_cached (w w' : World Blender Obj) (pid : Z)
      (tex models : string) (t : Obj) :
  create_template w pid tex models = (Some t, w') ->
  templates Obj (manager Blender Obj w') !! pid = Some t.
Proof.
  unfold create_template_for_position_id.
  destruct (has_template_for_id Obj (manager Blender Obj w) pid) eqn:Eh.
  - intros [= Ht <-]. exact Ht.
  - repeat match goal with
           | |- context [let '(_, _) := ?e in _] => destruct e
           | |- context [if ?b then _ else _] => destruct b
           end;
      repeat match goal with
             | |- context [match ?o with Some _ => _ | None => _ end] => destruct o
             end;
      intros [= <- <-]; simpl; apply lookup_insert_eq.
Qed.

(** C1: a position id that has a template in the cache gets that very
    template back and the world (the caches and the host's data) is left as
    it was, so nothing is built or loaded; a template returned by one call
    is returned by the next one, whatever its paths; and when an object
    named [Block_{id}_{x}_{y}_{z}] exists, [create_block_from_template]
    returns it and leaves the world as it was. *)
Theorem cached_objects_are_returned :
  (forall (w : World Blender Obj) (pid : Z) (tex models : string) (t : Obj),
      templates Obj (manager Blender Obj w) !! pid = Some t ->
      create_template w pid tex models = (Some t, w)) /\
  (forall (w w' : World Blender Obj) (pid : Z) (tex models tex' models' : string) (t : Obj),
      create_template w pid tex models = (Some t, w') ->
      create_template w' pid tex' models' = (Some t, w')) /\
  (forall (w : World Blender Obj) (pid x y z : Z) (base_block_size : float)
          (direction_mode : string) (use_model_center : bool) (existing : Obj),
      find_object (blender Blender Obj w) (block_name pid x y z) = Some existing ->
      create_block w pid x y z base_block_size direction_mode use_model_center
      = Ok (Some existing, w)).
Proof.
  split; [| split].
  - intros w pid tex models t H. now apply template_cache_hit.
  - intros w w' pid tex models tex' models' t H.
    apply template_cache_hit. eapply template_returned_is_cached, H.
  - intros w pid x y z base dir center existing H.
    unfold create_block_from_template. now rewrite H.
Qed.

(** The configuration that a build of [pid] resolves in the world [w]. *)
Definition resolved_config (w : World Blender Obj) (pid : Z) (tex models : string)
  : ModelConfig :=
  new_ModelConfig path_exists pid
    (get_mapping_for_id Obj (manager Blender Obj w) pid) tex models.

(** C6, as the code has it: when the position id has no template yet and
    neither model can be built (each is either not wanted by the resolved
    configuration or fails to load in every state of the host), the call
    returns no template, the template cache and the mapping table are
    unchanged, and the configuration cache holds the resolved configuration
    under the id and is unchanged elsewhere. *)
Theorem failed_build_caches_config_only (w : World Blender Obj) (pid : Z)
        (tex models : string) :
  let c := resolved_config w pid tex models in
  templates Obj (manager Blender Obj w) !! pid = None ->
  (has_main_model path_exists c = false \/
   forall b name cfg, fst (load_and_setup_model b (main_model_path c) name pid cfg true) = None) ->
  (has_submodel path_exists c = false \/
   forall b path name cfg, fst (load_and_setup_model b path name pid cfg false) = None) ->
  exists w',
    create_template w pid tex models = (None, w') /\
    templates Obj (manager Blender Obj w') = templates Obj (manager Blender Obj w) /\
    mapping_table Obj (manager Blender Obj w') = mapping_table Obj (manager Blender Obj w) /\
    mapping_file_path Obj (manager Blender Obj w')
    = mapping_file_path Obj (manager Blender Obj w) /\
    model_configs Obj (manager Blender Obj w')
    = <[pid := c]> (model_configs Obj (manager Blender Obj w)).
Proof.
  intros c Hnone Hmain Hsub. subst c. unfold resolved_config in *.
  unfold create_template_for_position_id.
  rewrite (has_template_false _ _ Hnone).
  set (c := new_ModelConfig path_exists pid _ tex models) in *.
  destruct (has_main_model path_exists c) eqn:Em.
  - destruct Hmain as [Hmain | Hmain]; [discriminate |].
    match goal with
    | |- context [load_and_setup_model ?b ?pa ?n ?i ?cf true] =>
        pose proof (Hmain b n cf) as Hl;
        destruct (load_and_setup_model b pa n i cf true) as [o b1]
    end.
    simpl in Hl. subst o. cbn [from_option].
    destruct (has_submodel path_exists c) eqn:Es.
    + destruct Hsub as [Hsub | Hsub]; [discriminate |].
      match goal with
      | |- context [load_and_setup_model ?b ?pa ?n ?i ?cf false] =>
          pose proof (Hsub b pa n cf) as Hl2;
          destruct (load_and_setup_model b pa n i cf false) as [o2 b2]
      end.
      simpl in Hl2. subst o2. cbn [from_option].
      eexists. split; [reflexivity |]. simpl. auto.
    + eexists. split; [reflexivity |]. simpl. auto.
  - destruct (has_submodel path_exists c) eqn:Es.
    + destruct Hsub as [Hsub | Hsub]; [discriminate |].
      match goal with
      | |- context [load_and_setup_model ?b ?pa ?n ?i ?cf false] =>
          pose proof (Hsub b pa n cf) as Hl2;
          destruct (load_and_setup_model b pa n i cf false) as [o2 b2]
      end.
      simpl in Hl2. subst o2. cbn [from_option].
      eexists. split; [reflexivity |]. simpl. auto.
    + eexists. split; [reflexivity |]. simpl. auto.
Qed.

End TemplateCache.

(** *** A small host to run the cache on

    Its state is the list of the object names and the list of the model
    files imported so far; an object is referred to by its name; every
    import succeeds. *)

Definition ToyBlender : Type := list string * list string.

Definition toy_load (b : ToyBlender) (model_path model_name : string) (pid : Z)
           (cfg : option Config.ModelConfig) (is_main_model : bool)
  : option string * ToyBlender :=
  (Some model_name, (model_name :: fst b, model_path :: snd b)).

Definition toy_hide (b : ToyBlender) (o : string) : ToyBlender := b.

Definition toy_container (b : ToyBlender) (name : string)
           (main_model submodel : option string) : string * ToyBlender :=
  (name, (name :: fst b, snd b)).

Definition toy_create_template (path_exists : string -> bool) :=
  Manager.create_template_for_position_id path_exists ToyBlender string
    toy_load toy_hide toy_container.

Definition toy_world (table : option (gmap Z Mapping.MappingRecord))
  : Manager.World ToyBlender string :=
  Manager.mkWorld ToyBlender string
    (Manager.mkManager string ∅ ∅ table None) ([], []).

Definition grass_table : gmap Z Mapping.MappingRecord :=
  {[ 5 := Mapping.mkMappingRecord 5 "grass" "grass" "" "" true false false [] ]}.

(** The first request for position 5 imports the shared block model and
    caches the template; the second one returns the same template and
    leaves the world, the list of imports included, as it is. *)
Lemma cached_objects_are_returned_witness :
  exists w1 : Manager.World ToyBlender string,
    toy_create_template (fun _ => true) (toy_world (Some grass_table)) 5 "/tex" "/models"
    = (Some "BlockTemplate_5", w1) /\
    snd (Manager.blender ToyBlender string w1) = ["/models/models/block.obj"] /\
    toy_create_template (fun _ => true) w1 5 "/tex" "/models"
    = (Some "BlockTemplate_5", w1).
Proof.
  destruct (toy_create_template (fun _ => true) (toy_world (Some grass_table))
              5 "/tex" "/models") as [o w1] eqn:E.
  assert (Ho : o = Some "BlockTemplate_5").
  { apply (f_equal fst) in E. vm_compute in E. congruence. }
  assert (Hl : snd (Manager.blender ToyBlender string w1) = ["/models/models/block.obj"]).
  { apply (f_equal (fun r => snd (Manager.blender ToyBlender string (snd r)))) in E.
    simpl in E. rewrite <- E. vm_compute. reflexivity. }
  subst o. exists w1. split; [reflexivity |]. split; [exact Hl |].
  exact (proj1 (proj2 (cached_objects_are_returned
                         (fun _ => true) ToyBlender string toy_load toy_hide toy_container
                         (fun _ _ => None) (fun _ _ => []) (fun _ _ => None)
                         (fun _ _ => (0, 0, 0, 0)%float) (fun _ => true)
                         (fun b _ _ _ _ _ => (None, b))))
           (toy_world (Some grass_table)) w1 5 "/tex" "/models" "/tex" "/models"
           "BlockTemplate_5" E).
Defined.

(** The sentence of the specification: a build that yields no template
    leaves the template cache, the configuration cache and the mapping
    table as they were. *)
Definition failed_build_caches_nothing : Prop :=
  forall (path_exists : string -> bool) (Blender Obj : Type)
         (load : Blender -> string -> string -> Z -> option Config.ModelConfig -> bool ->
                 option Obj * Blender)
         (hide : Blender -> Obj -> Blender)
         (container : Blender -> string -> option Obj -> option Obj -> Obj * Blender)
         (w w' : Manager.World Blender Obj) (pid : Z) (tex models : string),
    Manager.create_template_for_position_id path_exists Blender Obj load hide container
      w pid tex models = (None, w') ->
    Manager.templates Obj (Manager.manager Blender Obj w')
    = Manager.templates Obj (Manager.manager Blender Obj w) /\
    Manager.model_configs Obj (Manager.manager Blender Obj w')
    = Manager.model_configs Obj (Manager.manager Blender Obj w) /\
    Manager.mapping_table Obj (Manager.manager Blender Obj w')
    = Manager.mapping_table Obj (Manager.manager Blender Obj w).

(** With no file on disk and no mapping table, the build of position 3
    yields no template, and the configuration cache, empty before, holds an
    entry for 3 afterwards. *)
Lemma failed_build_counterexample : ~ failed_build_caches_nothing.
Proof.
  intros H.
  destruct (toy_create_template (fun _ => false) (toy_world None) 3 "/tex" "/models")
    as [o w'] eqn:E.
  assert (Ho : o = None).
  { apply (f_equal fst) in E. vm_compute in E. congruence. }
  subst o.
  destruct (H _ _ _ _ _ _ _ _ _ _ _ E) as (_ & Hc & _).
  assert (Hl : Manager.model_configs string (Manager.manager ToyBlender string w') !! 3
               <> None).
  { apply (f_equal (fun r => Manager.model_configs string
                               (Manager.manager ToyBlender string (snd r)) !! 3)) in E.
    simpl in E. rewrite <- E. vm_compute. discriminate. }
  apply Hl. rewrite Hc. reflexivity.
Qed.

Lemma failed_build_caches_config_only_witness :
  exists w' : Manager.World ToyBlender string,
    toy_create_template (fun _ => false) (toy_world None) 3 "/tex" "/models" = (None, w') /\
    Manager.templates string (Manager.manager ToyBlender string w') = ∅ /\
    Manager.mapping_table string (Manager.manager ToyBlender string w') = None /\
    Manager.mapping_file_path string (Manager.manager ToyBlender string w') = None /\
    Manager.model_configs string (Manager.manager ToyBlender string w')
    = <[3 := Config.new_ModelConfig (fun _ => false) 3 None "/tex" "/models"]> ∅.
Proof.
  apply (failed_build_caches_config_only (fun _ => false) ToyBlender string
           toy_load toy_hide toy_container (toy_world None) 3 "/tex" "/models").
  - reflexivity.
  - left. reflexivity.
  - left. reflexivity.
Defined.

(** ** The rotation of a placed block *)

Section Rotation.
Import Py Placement.

(** The placement arithmetic takes Z for the vertical axis: aligning a
    model by its centre lifts the Z coordinate by half the height and
    leaves X and Y alone. *)
Lemma centre_alignment_lifts_z (x y z : Z) (base sx sy sz : float) (dir : string)
      (adjacent : bool) (wx wy wz : float) :
  get_world_coordinate_for_model (x, y, z) base sx sy sz dir false adjacent
  = Ok (wx, wy, wz) ->
  get_world_coordinate_for_model (x, y, z) base sx sy sz dir true adjacent
  = Ok (wx, wy, (wz + sz / 2)%float).
Proof.
  unfold get_world_coordinate_for_model.
  destruct (float_of_int x); [| discriminate].
  destruct (float_of_int y); [| discriminate].
  destruct (float_of_int z); [| discriminate].
  simpl. destruct adjacent; intros [= <- <- <-]; reflexivity.
Qed.

(** The compass directions lie in the XY plane. *)
Lemma direction_vectors_are_horizontal (dir : string) :
  snd (get_direction_vector dir) = 0%float.
Proof.
  unfold get_direction_vector.
  repeat (match goal with |- context [String.eqb ?a ?b] => destruct (String.eqb a b) end;
          try reflexivity).
Qed.

End Rotation.

Section PlacedRotation.
Import PyStr Py Placement Manager.

Variable Blender : Type.
Variable Obj : Type.
Variable find_object : Blender -> string -> option Obj.
Variable children : Blender -> Obj -> list Obj.
Variable block_size : Blender -> Obj -> option (float * float * float).
Variable calculate_model_dimensions : Blender -> Obj -> float * float * float * float.
Variable adjacent_mode : Blender -> bool.
Variable duplicate_and_place :
  Blender -> Obj -> string -> float * float * float -> Euler ->
  Z * Z * Z * Z * string -> option Obj * Blender.

Local Abbreviation create_block :=
  (create_block_from_template Blender Obj find_object children block_size
     calculate_model_dimensions adjacent_mode duplicate_and_place).

(** The size that a placement reads from the first child of the template:
    its [block_size_*] properties, or its dimensions computed again. *)
Definition template_size (b : Blender) (child_obj : Obj) : float * float * float :=
  match block_size b child_obj with
  | Some s => s
  | None => let '(sx, sy, sz, _) := calculate_model_dimensions b child_obj in (sx, sy, sz)
  end.

(** C7, as the code has it: when no object of the block's name exists and
    the template of the id has a child, [create_block_from_template]
    computes the location and hands the copy of the template the Euler
    angles [(0, angle, 0)]: nothing about X, nothing about Z, and about the
    Y axis the angle of the direction, which is 0 for EAST, pi/2 for SOUTH,
    pi for WEST, 3*pi/2 for NORTH (with [math.pi] and binary64 arithmetic)
    and 0 for any other direction; the manager is left as it was, and the
    call raises only when the location does. *)
Theorem block_rotation_is_about_y (w : World Blender Obj) (pid x y z : Z)
        (base_block_size : float) (direction_mode : string) (use_model_center : bool)
        (template_container child_obj : Obj) (rest : list Obj) :
  find_object (blender Blender Obj w) (block_name pid x y z) = None ->
  get_template Obj (manager Blender Obj w) pid = Some template_container ->
  children (blender Blender Obj w) template_container = child_obj :: rest ->
  exists angle : float,
    (let '(size_x, size_y, size_z) := template_size (blender Blender Obj w) child_obj in
     create_block w pid x y z base_block_size direction_mode use_model_center
     = (let! world :=
          get_world_coordinate_for_model (x, y, z) base_block_size size_x size_y size_z
            direction_mode use_model_center (adjacent_mode (blender Blender Obj w)) in
        let '(o, b) :=
          duplicate_and_place (blender Blender Obj w) template_container
            (block_name pid x y z) world (mkEuler 0 angle 0)
            (x, y, z, pid, direction_mode) in
        Ok (o, mkWorld Blender Obj (manager Blender Obj w) b))) /\
    angle = get_rotation_for_direction direction_mode /\
    (direction_mode = "EAST" -> angle = 0%float) /\
    (direction_mode = "SOUTH" -> angle = (pi / 2)%float) /\
    (direction_mode = "WEST" -> angle = pi) /\
    (direction_mode = "NORTH" -> angle = (3 * pi / 2)%float) /\
    (~ In direction_mode ["EAST"; "SOUTH"; "WEST"; "NORTH"] -> angle = 0%float).
Proof.
  intros Hfree Htemplate Hchildren.
  exists (get_rotation_for_direction direction_mode). split.
  - unfold create_block_from_template, template_size.
    rewrite Hfree, Htemplate, Hchildren.
    destruct (block_size (blender Blender Obj w) child_obj) as [[[sx sy] sz] |];
      [reflexivity |].
    destruct (calculate_model_dimensions (blender Blender Obj w) child_obj)
      as [[[sx sy] sz] r].
    reflexivity.
  - split; [reflexivity |].
    repeat split; try (intros ->; reflexivity).
    intros Hother. unfold get_rotation_for_direction.
    destruct (String.eqb direction_mode "EAST") eqn:E1; [reflexivity |].
    destruct (String.eqb direction_mode "SOUTH") eqn:E2;
      [apply String.eqb_eq in E2; subst; exfalso; apply Hother; simpl; tauto |].
    destruct (String.eqb direction_mode "WEST") eqn:E3;
      [apply String.eqb_eq in E3; subst; exfalso; apply Hother; simpl; tauto |].
    destruct (String.eqb direction_mode "NORTH") eqn:E4;
      [apply String.eqb_eq in E4; subst; exfalso; apply Hother; simpl; tauto |].
    reflexivity.
Qed.

End PlacedRotation.

(** *** A small host to place blocks on

    Its state is the list of the placed blocks, each with the Euler angles
    it was given; an object is referred to by its name; every template has
    the one child [BlockMain_1], of size 1. *)

Definition PlacedBlocks : Type := list (string * Placement.Euler).

Definition placed_find (b : PlacedBlocks) (name : string) : option string :=
  if existsb (fun e => String.eqb (fst e) name) b then Some name else None.

Definition placed_children (b : PlacedBlocks) (o : string) : list string :=
  ["BlockMain_1"].

Definition placed_size (b : PlacedBlocks) (o : string) : option (float * float * float) :=
  Some (1, 1, 1)%float.

Definition placed_dimensions (b : PlacedBlocks) (o : string)
  : float * float * float * float := (1, 1, 1, 1)%float.

Definition place_and_record (b : PlacedBlocks) (template name : string)
           (location : float * float * float) (rotation : Placement.Euler)
           (info : Z * Z * Z * Z * string) : option string * PlacedBlocks :=
  (Some name, (name, rotation) :: b).

Definition placed_create_block :=
  Manager.create_block_from_template PlacedBlocks string placed_find placed_children
    placed_size placed_dimensions (fun _ => true) place_and_record.

Definition one_template_world : Manager.World PlacedBlocks string :=
  Manager.mkWorld PlacedBlocks string
    (Manager.mkManager string {[ 1 := "BlockTemplate_1" ]} ∅ None None) [].

(** A block of position 1 placed at the origin and facing SOUTH gets the
    quarter turn about Y. *)
Lemma block_rotation_is_about_y_witness :
  placed_create_block one_template_world 1 0 0 0 1%float "SOUTH" false
  = Py.Ok (Some "Block_1_0_0_0",
           Manager.mkWorld PlacedBlocks string
             (Manager.manager PlacedBlocks string one_template_world)
             [("Block_1_0_0_0",
               Placement.mkEuler 0 (Placement.pi / 2)%float 0)]).
Proof.
  destruct (block_rotation_is_about_y PlacedBlocks string placed_find placed_children
              placed_size placed_dimensions (fun _ => true) place_and_record
              one_template_world 1 0 0 0 1%float "SOUTH" false
              "BlockTemplate_1" "BlockMain_1" [])
    as (angle & Hrun & _ & _ & Hsouth & _).
  - reflexivity.
  - vm_compute. reflexivity.
  - reflexivity.
  - rewrite (Hsouth eq_refl) in Hrun. exact Hrun.
Defined.

(** The sentence of the specification, read with the vertical axis of the
    placement arithmetic (Z, along which centre alignment lifts a block):
    the angle of the direction is the Euler angle about Z, and the angles
    about X and Y are zero. *)
Definition yaw_about_vertical_claim : Prop :=
  forall direction_mode : string,
    Placement.block_rotation_euler direction_mode
    = Placement.mkEuler 0 0 (Placement.get_rotation_for_direction direction_mode).

(** For SOUTH the block gets [(0, pi/2, 0)]: the quarter turn is about Y,
    and the angle about Z is zero. *)
Lemma yaw_about_vertical_counterexample : ~ yaw_about_vertical_claim.
Proof.
  intros H. specialize (H "SOUTH").
  apply (f_equal (fun e => PrimFloat.ltb 0 (Placement.about_y e))) in H.
  vm_compute in H. discriminate H.
Qed.

(** ** The coordinate parser *)

Section Coordinates.
Import PyStr Py Coord.

(** Rounding a quotient to the nearest integer, a tie to the even one. *)
Lemma round_half_even_nearest (m d : Z) :
  0 < d ->
  let q := m / d in
  let r := m mod d in
  let v := match 2 * r ?= d with
           | Lt => q
           | Gt => q + 1
           | Eq => if Z.even q then q else q + 1
           end in
  2 * Z.abs (m - v * d) <= d /\ (2 * Z.abs (m - v * d) = d -> Z.even v = true).
Proof.
  intros Hd q r v.
  pose proof (Z.div_mod m d ltac:(lia)) as Hdm.
  pose proof (Z.mod_pos_bound m d Hd) as Hr.
  fold q r in Hdm, Hr. subst v.
  destruct (Z.compare_spec (2 * r) d) as [He | Hl | Hg].
  - destruct (Z.even q) eqn:Eq.
    + split; [| intros _; exact Eq].
      replace (m - q * d) with r by lia. rewrite Z.abs_eq by lia. lia.
    + split.
      * replace (m - (q + 1) * d) with (r - d) by lia. rewrite Z.abs_neq by lia. lia.
      * intros _. rewrite Z.add_1_r, Z.even_succ, <- Z.negb_even, Eq. reflexivity.
  - split.
    + replace (m - q * d) with r by lia. rewrite Z.abs_eq by lia. lia.
    + replace (m - q * d) with r by lia. rewrite Z.abs_eq by lia. lia.
  - split.
    + replace (m - (q + 1) * d) with (r - d) by lia. rewrite Z.abs_neq by lia. lia.
    + replace (m - (q + 1) * d) with (r - d) by lia. rewrite Z.abs_neq by lia. lia.
Qed.

(** [v] is an integer nearest to [m * 2^e], and the even one of the two
    when [m * 2^e] lies half way. *)
Definition nearest_integer (m : positive) (e : Z) (v : Z) : Prop :=
  match e with
  | Zneg k =>
      2 * Z.abs (Zpos m - v * 2 ^ Zpos k) <= 2 ^ Zpos k /\
      (2 * Z.abs (Zpos m - v * 2 ^ Zpos k) = 2 ^ Zpos k -> Z.even v = true)
  | _ => v = Zpos m * 2 ^ e
  end.

Lemma py_round_nearest (f : float) (x : Z) :
  py_round f = Ok x ->
  match Prim2SF f with
  | S754_zero _ => x = 0
  | S754_finite s m e => nearest_integer m e (if s then - x else x)
  | _ => False
  end.
Proof.
  unfold py_round. destruct (Prim2SF f) as [s | s | | s m e]; try discriminate.
  - now intros [= <-].
  - intros [= <-].
    assert (Hs : forall v : Z, (if s then - (if s then - v else v) else (if s then - v else v)) = v)
      by (intros v; destruct s; lia).
    rewrite Hs. unfold nearest_integer. destruct e as [| k | k]; try reflexivity.
    rewrite Pos2Z.inj_pow.
    apply (round_half_even_nearest (Z.pos m) (2 ^ Z.pos k)). 
    apply Z.pow_pos_nonneg; lia.
Qed.

Lemma py_round_total (f : float) :
  (exists x, py_round f = Ok x) \/ py_round f = Raise ValueError
  \/ py_round f = Raise OverflowError.
Proof.
  unfold py_round. destruct (Prim2SF f); eauto.
Qed.

(** *** One line *)

Lemma four_fields (a b c d : string) (fx fy fz : float) (n x y z : Z) :
  py_float a = Some fx -> py_float b = Some fy -> py_float c = Some fz ->
  py_int d = Some n ->
  py_round fx = Ok x -> py_round fy = Ok y -> py_round fz = Ok z ->
  coordinate_of_parts [a; b; c; d] = Ok (Some (mkCoordinate n x y z)).
Proof.
  intros Ha Hb Hc Hd Hx Hy Hz. unfold coordinate_of_parts. simpl.
  rewrite Ha, Hb, Hc, Hd. simpl. rewrite Hx, Hy, Hz. reflexivity.
Qed.

Lemma three_fields (a b c : string) (fx fy fz : float) (x y z : Z) :
  py_float a = Some fx -> py_float b = Some fy -> py_float c = Some fz ->
  py_round fx = Ok x -> py_round fy = Ok y -> py_round fz = Ok z ->
  coordinate_of_parts [a; b; c] = Ok (Some (mkCoordinate 0 x y z)).
Proof.
  intros Ha Hb Hc Hx Hy Hz. unfold coordinate_of_parts. simpl.
  rewrite Ha, Hb, Hc. simpl. rewrite Hx, Hy, Hz. reflexivity.
Qed.

Lemma other_field_count (parts : list string) :
  List.length parts <> 4%nat -> List.length parts <> 3%nat ->
  coordinate_of_parts parts = Ok None.
Proof.
  intros H4 H3. unfold coordinate_of_parts.
  apply Nat.eqb_neq in H4. apply Nat.eqb_neq in H3. now rewrite H4, H3.
Qed.

(** A field that is no number makes the body of the [try] raise
    [ValueError]. *)
Lemma bad_number (parts : list string) :
  (List.length parts = 3%nat \/ List.length parts = 4%nat) ->
  (py_float (nth 0 parts "") = None \/
   py_float (nth 1 parts "") = None \/
   py_float (nth 2 parts "") = None \/
   (List.length parts = 4%nat /\ py_int (nth 3 parts "") = None)) ->
  coordinate_of_parts parts = Raise ValueError.
Proof.
  intros Hlen Hbad. unfold coordinate_of_parts.
  assert (Hcase : ((List.length parts =? 4)%nat = true /\ List.length parts = 4%nat) \/
                  ((List.length parts =? 4)%nat = false /\
                   (List.length parts =? 3)%nat = true /\ List.length parts = 3%nat)).
  { destruct Hlen as [H | H]; rewrite H; simpl; auto. }
  destruct Hcase as [[E4 L4] | (E4 & E3 & L3)]; rewrite E4; [| rewrite E3].
  - destruct (py_float (nth 0 parts "")); simpl; [| reflexivity].
    destruct (py_float (nth 1 parts "")); simpl; [| reflexivity].
    destruct (py_float (nth 2 parts "")); simpl; [| reflexivity].
    destruct (py_int (nth 3 parts "")); simpl; [| reflexivity].
    destruct Hbad as [H | [H | [H | [_ H]]]]; discriminate.
  - destruct (py_float (nth 0 parts "")); simpl; [| reflexivity].
    destruct (py_float (nth 1 parts "")); simpl; [| reflexivity].
    destruct (py_float (nth 2 parts "")); simpl; [| reflexivity].
    destruct Hbad as [H | [H | [H | [H _]]]]; try discriminate. lia.
Qed.

Lemma coordinate_of_parts_raises (parts : list string) (e : exn) :
  coordinate_of_parts parts = Raise e -> e = ValueError \/ e = OverflowError.
Proof.
  unfold coordinate_of_parts.
  destruct (List.length parts =? 4)%nat; [| destruct (List.length parts =? 3)%nat].
  - destruct (py_float (nth 0 parts "")); simpl; [| intros [= <-]; auto].
    destruct (py_float (nth 1 parts "")); simpl; [| intros [= <-]; auto].
    destruct (py_float (nth 2 parts "")); simpl; [| intros [= <-]; auto].
    destruct (py_int (nth 3 parts "")); simpl; [| intros [= <-]; auto].
    destruct (py_round_total f) as [[x ->] | [-> | ->]]; simpl; [| intros [= <-]; auto ..].
    destruct (py_round_total f0) as [[y ->] | [-> | ->]]; simpl; [| intros [= <-]; auto ..].
    destruct (py_round_total f1) as [[w ->] | [-> | ->]]; simpl; [| intros [= <-]; auto ..].
    discriminate.
  - destruct (py_float (nth 0 parts "")); simpl; [| intros [= <-]; auto].
    destruct (py_float (nth 1 parts "")); simpl; [| intros [= <-]; auto].
    destruct (py_float (nth 2 parts "")); simpl; [| intros [= <-]; auto].
    destruct (py_round_total f) as [[x ->] | [-> | ->]]; simpl; [| intros [= <-]; auto ..].
    destruct (py_round_total f0) as [[y ->] | [-> | ->]]; simpl; [| intros [= <-]; auto ..].
    destruct (py_round_total f1) as [[w ->] | [-> | ->]]; simpl; [| intros [= <-]; auto ..].
    discriminate.
  - discriminate.
Qed.

(** The fields that the line is cut into, when it is cut at all. *)
Definition fields_of (line : string) : option (list string) :=
  if contains "," line then Some (map strip (split "," line))
  else if contains " " line then Some (re_split_ws (strip line))
  else None.

Lemma try_line_fields (line : string) :
  try_line line = match fields_of line with
                  | Some parts => coordinate_of_parts parts
                  | None => Ok None
                  end.
Proof.
  unfold try_line, fields_of.
  destruct (contains "," line); [reflexivity |].
  destruct (contains " " line); reflexivity.
Qed.

Lemma parse_line_ok (line : string) (parts : list string) (c : Coordinate) :
  strip line <> "" -> startswith "#" (strip line) = false ->
  fields_of (strip line) = Some parts ->
  coordinate_of_parts parts = Ok (Some c) ->
  Coord.parse_line line = Ok (Some c).
Proof.
  intros Hne Hc Hf Hp. unfold Coord.parse_line.
  apply String.eqb_neq in Hne. rewrite Hne, Hc. simpl.
  now rewrite try_line_fields, Hf, Hp.
Qed.

Lemma parse_line_skips (line : string) :
  (strip line = "" \/ startswith "#" (strip line) = true \/
   fields_of (strip line) = None \/
   exists parts, fields_of (strip line) = Some parts /\
                 (coordinate_of_parts parts = Ok None \/
                  coordinate_of_parts parts = Raise ValueError)) ->
  Coord.parse_line line = Ok None.
Proof.
  unfold Coord.parse_line. intros H.
  destruct (String.eqb (strip line) "") eqn:E1; [reflexivity |].
  destruct (startswith "#" (strip line)) eqn:E2; [reflexivity |]. simpl.
  rewrite try_line_fields.
  destruct H as [H | [H | [H | (parts & Hf & [H | H])]]].
  - apply String.eqb_neq in E1. contradiction.
  - discriminate.
  - now rewrite H.
  - now rewrite Hf, H.
  - now rewrite Hf, H.
Qed.

(** Only [OverflowError] leaves the handler of a line. *)
Lemma parse_line_raises (line : string) (e : exn) :
  Coord.parse_line line = Raise e -> e = OverflowError.
Proof.
  unfold Coord.parse_line.
  destruct (String.eqb (strip line) "" || startswith "#" (strip line)); [discriminate |].
  rewrite try_line_fields.
  destruct (fields_of (strip line)) as [parts |]; [| discriminate].
  destruct (coordinate_of_parts parts) as [o | e'] eqn:E; [discriminate |].
  apply coordinate_of_parts_raises in E.
  destruct E as [-> | ->]; [discriminate | now intros [= <-]].
Qed.

(** *** The loop over the lines *)

Lemma parse_lines_total (lines : list string) (acc : list Coordinate) :
  (forall line, In line lines -> exists o, Coord.parse_line line = Ok o) ->
  exists cs, parse_lines lines acc = Ok cs.
Proof.
  revert acc. induction lines as [| line rest IH]; intros acc H; simpl.
  - eauto.
  - destruct (H line (or_introl eq_refl)) as [o ->]. simpl.
    apply IH. intros l Hl. apply H. now right.
Qed.

(** A float that [round] takes, and one that it refuses as too large. *)
Definition finite (f : float) : Prop :=
  match Prim2SF f with
  | S754_zero _ | S754_finite _ _ _ => True
  | _ => False
  end.

Definition infinite (f : float) : Prop :=
  match Prim2SF f with
  | S754_infinity _ => True
  | _ => False
  end.

(** The first of three coordinates that is not finite is an infinity. *)
Definition first_bad_is_infinite (fx fy fz : float) : Prop :=
  infinite fx \/ (finite fx /\ infinite fy) \/ (finite fx /\ finite fy /\ infinite fz).

Lemma py_round_cases (f : float) :
  (finite f /\ exists v, py_round f = Ok v) \/
  (infinite f /\ py_round f = Raise OverflowError) \/
  (~ finite f /\ ~ infinite f /\ py_round f = Raise ValueError).
Proof.
  unfold finite, infinite, py_round.
  destruct (Prim2SF f) as [s | s | | s m e].
  - left. eauto.
  - right. left. auto.
  - right. right. auto.
  - left. eauto.
Qed.

Lemma finite_not_infinite (f : float) : finite f -> infinite f -> False.
Proof. unfold finite, infinite. destruct (Prim2SF f); auto. Qed.

Lemma rounds_overflow (fx fy fz : float) (k : Z -> Z -> Z -> option Coordinate) :
  (let! rx := py_round fx in
   let! ry := py_round fy in
   let! rz := py_round fz in
   Ok (k rx ry rz)) = Raise OverflowError
  <-> first_bad_is_infinite fx fy fz.
Proof.
  unfold first_bad_is_infinite.
  pose proof (finite_not_infinite fx) as Cx.
  pose proof (finite_not_infinite fy) as Cy.
  pose proof (finite_not_infinite fz) as Cz.
  destruct (py_round_cases fx) as [[Fx [vx Ex]] | [[Ix Ex] | (Nx & Mx & Ex)]];
    rewrite Ex; simpl.
  2: { split; auto. }
  2: { split; [discriminate | intros H; exfalso; tauto]. }
  destruct (py_round_cases fy) as [[Fy [vy Ey]] | [[Iy Ey] | (Ny & My & Ey)]];
    rewrite Ey; simpl.
  2: { split; auto. }
  2: { split; [discriminate | intros H; exfalso; tauto]. }
  destruct (py_round_cases fz) as [[Fz [vz Ez]] | [[Iz Ez] | (Nz & Mz & Ez)]];
    rewrite Ez; simpl.
  - split; [discriminate | intros H; exfalso; tauto].
  - split; auto.
  - split; [discriminate | intros H; exfalso; tauto].
Qed.

Lemma coordinate_of_parts_overflow (parts : list string) :
  coordinate_of_parts parts = Raise OverflowError <->
  exists fx fy fz,
    (List.length parts = 3%nat \/
     (List.length parts = 4%nat /\ is_Some (py_int (nth 3 parts "")))) /\
    py_float (nth 0 parts "") = Some fx /\
    py_float (nth 1 parts "") = Some fy /\
    py_float (nth 2 parts "") = Some fz /\
    first_bad_is_infinite fx fy fz.
Proof.
  unfold coordinate_of_parts.
  destruct (List.length parts =? 4)%nat eqn:E4;
    [| destruct (List.length parts =? 3)%nat eqn:E3].
  - apply Nat.eqb_eq in E4.
    destruct (py_float (nth 0 parts "")) as [fx |]; simpl;
      [| split; [discriminate | intros (? & ? & ? & _ & ? & _); discriminate]].
    destruct (py_float (nth 1 parts "")) as [fy |]; simpl;
      [| split; [discriminate | intros (? & ? & ? & _ & _ & ? & _); discriminate]].
    destruct (py_float (nth 2 parts "")) as [fz |]; simpl;
      [| split; [discriminate | intros (? & ? & ? & _ & _ & _ & ? & _); discriminate]].
    destruct (py_int (nth 3 parts "")) as [n |]; simpl.
    + rewrite (rounds_overflow fx fy fz (fun rx ry rz => Some (mkCoordinate n rx ry rz))).
      split.
      * intros H. exists fx, fy, fz. repeat split; eauto.
      * intros (gx & gy & gz & _ & [= <-] & [= <-] & [= <-] & H). exact H.
    + split; [discriminate |].
      intros (gx & gy & gz & [H | [_ [v H]]] & _); [lia | discriminate].
  - apply Nat.eqb_eq in E3.
    destruct (py_float (nth 0 parts "")) as [fx |]; simpl;
      [| split; [discriminate | intros (? & ? & ? & _ & ? & _); discriminate]].
    destruct (py_float (nth 1 parts "")) as [fy |]; simpl;
      [| split; [discriminate | intros (? & ? & ? & _ & _ & ? & _); discriminate]].
    destruct (py_float (nth 2 parts "")) as [fz |]; simpl;
      [| split; [discriminate | intros (? & ? & ? & _ & _ & _ & ? & _); discriminate]].
    rewrite (rounds_overflow fx fy fz (fun rx ry rz => Some (mkCoordinate 0 rx ry rz))).
    split.
    + intros H. exists fx, fy, fz. repeat split; auto.
    + intros (gx & gy & gz & _ & [= <-] & [= <-] & [= <-] & H). exact H.
  - apply Nat.eqb_neq in E4, E3. split; [discriminate |].
    intros (gx & gy & gz & [H | [H _]] & _); lia.
Qed.

(** A float that [round] refuses as no number. *)
Definition not_a_number (f : float) : Prop :=
  match Prim2SF f with
  | S754_nan => True
  | _ => False
  end.

(** The first of three coordinates that is not finite is a NaN. *)
Definition first_bad_is_nan (fx fy fz : float) : Prop :=
  not_a_number fx \/ (finite fx /\ not_a_number fy) \/
  (finite fx /\ finite fy /\ not_a_number fz).

Lemma py_round_finite (f : float) : finite f -> exists v, py_round f = Ok v.
Proof.
  unfold finite, py_round. destruct (Prim2SF f); [eauto | tauto | tauto | eauto].
Qed.

Lemma py_round_nan (f : float) : not_a_number f -> py_round f = Raise ValueError.
Proof.
  unfold not_a_number, py_round. destruct (Prim2SF f); tauto.
Qed.

Lemma rounds_value_error (fx fy fz : float) (k : Z -> Z -> Z -> option Coordinate) :
  first_bad_is_nan fx fy fz ->
  (let! rx := py_round fx in
   let! ry := py_round fy in
   let! rz := py_round fz in
   Ok (k rx ry rz)) = Raise ValueError.
Proof.
  intros [Hx | [[Hx Hy] | (Hx & Hy & Hz)]].
  - now rewrite (py_round_nan fx Hx).
  - destruct (py_round_finite fx Hx) as [x ->]. simpl.
    now rewrite (py_round_nan fy Hy).
  - destruct (py_round_finite fx Hx) as [x ->]. simpl.
    destruct (py_round_finite fy Hy) as [y ->]. simpl.
    now rewrite (py_round_nan fz Hz).
Qed.

(** Fields that read as numbers, the first coordinate that is not finite
    being a NaN: the body of the [try] raises [ValueError]. *)
Lemma nan_coordinate (parts : list string) (fx fy fz : float) :
  (List.length parts = 3%nat \/
   (List.length parts = 4%nat /\ is_Some (py_int (nth 3 parts "")))) ->
  py_float (nth 0 parts "") = Some fx ->
  py_float (nth 1 parts "") = Some fy ->
  py_float (nth 2 parts "") = Some fz ->
  first_bad_is_nan fx fy fz ->
  coordinate_of_parts parts = Raise ValueError.
Proof.
  intros Hlen Hx Hy Hz Hbad. unfold coordinate_of_parts.
  destruct Hlen as [L3 | [L4 [n Hn]]].
  - rewrite L3. simpl. rewrite Hx, Hy, Hz. simpl.
    apply (rounds_value_error fx fy fz (fun rx ry rz => Some (mkCoordinate 0 rx ry rz))).
    exact Hbad.
  - rewrite L4. simpl. rewrite Hx, Hy, Hz, Hn. simpl.
    apply (rounds_value_error fx fy fz (fun rx ry rz => Some (mkCoordinate n rx ry rz))).
    exact Hbad.
Qed.

Lemma parse_line_overflows (line : string) (parts : list string) :
  strip line <> "" -> startswith "#" (strip line) = false ->
  fields_of (strip line) = Some parts ->
  coordinate_of_parts parts = Raise OverflowError ->
  Coord.parse_line line = Raise OverflowError.
Proof.
  intros Hne Hc Hf Hp. unfold Coord.parse_line.
  apply String.eqb_neq in Hne. rewrite Hne, Hc. simpl.
  now rewrite try_line_fields, Hf, Hp.
Qed.

Lemma parse_lines_raise (lines : list string) (acc : list Coordinate) (line : string) :
  In line lines -> Coord.parse_line line = Raise OverflowError ->
  parse_lines lines acc = Raise OverflowError.
Proof.
  revert acc. induction lines as [| l rest IH]; intros acc Hin Hr; [destruct Hin |].
  simpl. destruct (Coord.parse_line l) as [o | e] eqn:E.
  - simpl. destruct Hin as [-> | Hin]; [congruence |]. now apply IH.
  - simpl. f_equal. now apply (parse_line_raises l).
Qed.

(** The text of the scenario: [-4,0,9,1], then [2 3 1], each ended by a
    line feed. *)
Definition scenario_text : string :=
  "-4,0,9,1" ++ String "010" ("2 3 1" ++ String "010" "").

(** C9, as the code has it.  A line that is neither blank nor a comment is
    cut at its commas when it holds one, else at its runs of white space
    when it holds a blank, else not at all ([fields_of]).  Four fields that
    read as three finite floats and an integer give the placement with that
    id and the three floats rounded to a nearest integer (a tie to the even
    one); three fields that read as finite floats give the same with id 0;
    the text of the scenario gives exactly its two placements; a blank
    line, a comment, a line that is not cut, a line of another number of
    fields, a line with a field that is no number and a line whose first
    coordinate that is not finite is a NaN are skipped, the loop going on
    with the next line and the placements found so far; a line whose fields
    read as numbers and whose first coordinate that is not finite is an
    infinity raises [OverflowError] out of its handler, and so does the
    parse of every text with such a line; and the parse returns its list
    whenever no line raises out of its handler. *)
Theorem coordinate_parsing :
  (forall (line a b c d : string) (fx fy fz : float) (n : Z),
      strip line <> "" -> startswith "#" (strip line) = false ->
      fields_of (strip line) = Some [a; b; c; d] ->
      py_float a = Some fx -> py_float b = Some fy -> py_float c = Some fz ->
      py_int d = Some n ->
      finite fx -> finite fy -> finite fz ->
      exists x y z : Z,
        py_round fx = Ok x /\ py_round fy = Ok y /\ py_round fz = Ok z /\
        Coord.parse_line line = Ok (Some (mkCoordinate n x y z))) /\
  (forall (line a b c : string) (fx fy fz : float),
      strip line <> "" -> startswith "#" (strip line) = false ->
      fields_of (strip line) = Some [a; b; c] ->
      py_float a = Some fx -> py_float b = Some fy -> py_float c = Some fz ->
      finite fx -> finite fy -> finite fz ->
      exists x y z : Z,
        py_round fx = Ok x /\ py_round fy = Ok y /\ py_round fz = Ok z /\
        Coord.parse_line line = Ok (Some (mkCoordinate 0 x y z))) /\
  (forall (f : float) (x : Z),
      py_round f = Ok x ->
      match Prim2SF f with
      | S754_zero _ => x = 0
      | S754_finite s m e => nearest_integer m e (if s then - x else x)
      | _ => False
      end) /\
  parse_coordinate_string scenario_text
  = Ok [mkCoordinate 1 (-4) 0 9; mkCoordinate 0 2 3 1] /\
  (forall line : string,
      (strip line = "" \/ startswith "#" (strip line) = true \/
       fields_of (strip line) = None \/
       exists parts,
         fields_of (strip line) = Some parts /\
         ((List.length parts <> 4%nat /\ List.length parts <> 3%nat) \/
          ((List.length parts = 3%nat \/ List.length parts = 4%nat) /\
           (py_float (nth 0 parts "") = None \/
            py_float (nth 1 parts "") = None \/
            py_float (nth 2 parts "") = None \/
            (List.length parts = 4%nat /\ py_int (nth 3 parts "") = None))) \/
          (exists fx fy fz : float,
              (List.length parts = 3%nat \/
               (List.length parts = 4%nat /\ is_Some (py_int (nth 3 parts "")))) /\
              py_float (nth 0 parts "") = Some fx /\
              py_float (nth 1 parts "") = Some fy /\
              py_float (nth 2 parts "") = Some fz /\
              first_bad_is_nan fx fy fz))) ->
      Coord.parse_line line = Ok None) /\
  (forall (line : string) (parts : list string) (fx fy fz : float),
      strip line <> "" -> startswith "#" (strip line) = false ->
      fields_of (strip line) = Some parts ->
      (List.length parts = 3%nat \/
       (List.length parts = 4%nat /\ is_Some (py_int (nth 3 parts "")))) ->
      py_float (nth 0 parts "") = Some fx ->
      py_float (nth 1 parts "") = Some fy ->
      py_float (nth 2 parts "") = Some fz ->
      first_bad_is_infinite fx fy fz ->
      Coord.parse_line line = Raise OverflowError) /\
  (forall (coord_str line : string),
      In line (split "010" (strip coord_str)) ->
      Coord.parse_line line = Raise OverflowError ->
      parse_coordinate_string coord_str = Raise OverflowError) /\
  (forall (line : string) (rest : list string) (acc : list Coordinate),
      (Coord.parse_line line = Ok None ->
       parse_lines (line :: rest) acc = parse_lines rest acc) /\
      (forall c, Coord.parse_line line = Ok (Some c) ->
                 parse_lines (line :: rest) acc = parse_lines rest (acc ++ [c]))) /\
  (forall coord_str : string,
      (forall line, In line (split "010" (strip coord_str)) ->
                    exists o, Coord.parse_line line = Ok o) ->
      exists cs, parse_coordinate_string coord_str = Ok cs).
Proof.
  split; [| split; [| split; [| split; [| split; [| split; [| split; [| split]]]]]]].
  - intros line a b c d fx fy fz n Hne Hc Hf Ha Hb Hcc Hd Fx Fy Fz.
    destruct (py_round_finite fx Fx) as [x Hx].
    destruct (py_round_finite fy Fy) as [y Hy].
    destruct (py_round_finite fz Fz) as [z Hz].
    exists x, y, z. split; [exact Hx |]. split; [exact Hy |]. split; [exact Hz |].
    eapply parse_line_ok; [eassumption .. |]. eapply four_fields; eassumption.
  - intros line a b c fx fy fz Hne Hc Hf Ha Hb Hcc Fx Fy Fz.
    destruct (py_round_finite fx Fx) as [x Hx].
    destruct (py_round_finite fy Fy) as [y Hy].
    destruct (py_round_finite fz Fz) as [z Hz].
    exists x, y, z. split; [exact Hx |]. split; [exact Hy |]. split; [exact Hz |].
    eapply parse_line_ok; [eassumption .. |]. eapply three_fields; eassumption.
  - apply py_round_nearest.
  - vm_compute. reflexivity.
  - intros line H. apply parse_line_skips.
    destruct H as [H | [H | [H | (parts & Hf & H)]]]; auto.
    right. right. right. exists parts. split; [assumption |].
    destruct H as [[H4 H3] | [[Hlen Hbad] | (fx & fy & fz & Hlen & Hx & Hy & Hz & Hbad)]].
    + left. now apply other_field_count.
    + right. now apply bad_number.
    + right. now apply (nan_coordinate parts fx fy fz).
  - intros line parts fx fy fz Hne Hc Hf Hlen Hx Hy Hz Hbad.
    apply (parse_line_overflows line parts Hne Hc Hf).
    apply coordinate_of_parts_overflow. exists fx, fy, fz. auto.
  - intros coord_str line Hin Hr. unfold parse_coordinate_string.
    now apply parse_lines_raise with (line := line).
  - intros line rest acc. split.
    + intros H. simpl. now rewrite H.
    + intros c H. simpl. now rewrite H.
  - intros coord_str H. unfold parse_coordinate_string. now apply parse_lines_total.
Qed.

End Coordinates.

(** The sentence of the specification for fields separated by white
    space: a line whose white-space-separated fields are three floats and
    an integer gives one placement. *)
Definition whitespace_fields_claim : Prop :=
  forall (line a b c d : string) (fx fy fz : float) (n x y z : Z),
    PyStr.strip line <> "" -> PyStr.startswith "#" (PyStr.strip line) = false ->
    PyStr.re_split_ws (PyStr.strip line) = [a; b; c; d] ->
    Coord.py_float a = Some fx -> Coord.py_float b = Some fy ->
    Coord.py_float c = Some fz -> PyStr.py_int d = Some n ->
    Coord.py_round fx = Py.Ok x -> Coord.py_round fy = Py.Ok y ->
    Coord.py_round fz = Py.Ok z ->
    Coord.parse_coordinate_string line = Py.Ok [Coord.mkCoordinate n x y z].

(** Four fields separated by tabulators. *)
Definition tab_line : string :=
  "1" ++ String "009" ("2" ++ String "009" ("3" ++ String "009" "4")).

(** The line holds neither a comma nor a blank, so it is not cut and the
    parse yields nothing. *)
Lemma whitespace_fields_counterexample : ~ whitespace_fields_claim.
Proof.
  intros H.
  assert (E : Coord.parse_coordinate_string tab_line
              = Py.Ok [Coord.mkCoordinate 4 1 2 3]).
  { apply (H tab_line "1" "2" "3" "4" 1%float 2%float 3%float 4 1 2 3);
      try discriminate; vm_compute; reflexivity. }
  vm_compute in E. discriminate E.
Qed.

(** An infinite coordinate: [round] raises [OverflowError], which the
    handler of the line does not catch, and the parse ends there. *)
Example infinite_coordinate_ends_the_parse :
  Coord.parse_coordinate_string ("1e999,0,0" ++ String "010" "1,2,3")
  = Py.Raise Py.OverflowError.
Proof. vm_compute. reflexivity. Qed.

(** A NaN coordinate: [round] raises [ValueError] and the line is skipped. *)
Example nan_coordinate_is_skipped :
  Coord.parse_coordinate_string ("nan,0,0" ++ String "010" "1.5,2.5,-0.5,7")
  = Py.Ok [Coord.mkCoordinate 7 2 2 0].
Proof. vm_compute. reflexivity. Qed.

(** * Further properties of the parsers, the configuration and the caches *)

(** ** The mapping table: which lines count and which one wins *)

Section MappingTable.
Import PyStr Mapping.

(** A line is accepted exactly when, stripped, it is not blank, does not
    start with [=], has at least 46 comma-separated fields and its first
    field reads as an integer. *)
Lemma parse_line_accepts (line : string) :
  is_Some (parse_line line) <->
  strip line <> "" /\ startswith "=" (strip line) = false /\
  (46 <= length (split "," (strip line)))%nat /\
  is_Some (py_int (nth 0 (split "," (strip line)) "")).
Proof.
  unfold parse_line, truthy.
  destruct (String.eqb (strip line) "") eqn:E1; simpl.
  - apply String.eqb_eq in E1. split.
    + intros [x Hx]. discriminate.
    + intros (H & _). contradiction.
  - apply String.eqb_neq in E1.
    destruct (startswith "=" (strip line)) eqn:E2.
    + split; [intros [x Hx]; discriminate | intros (_ & H & _); discriminate].
    + destruct (length (split "," (strip line)) <? 46)%nat eqn:E3.
      * apply Nat.ltb_lt in E3.
        split; [intros [x Hx]; discriminate | intros (_ & _ & H & _); lia].
      * apply Nat.ltb_ge in E3. unfold parse_fields.
        destruct (py_int (nth 0 (split "," (strip line)) "")) as [pid |].
        -- split; [intros _; repeat split; eauto |].
           intros _. destruct (contains "," (field 43 (split "," (strip line)))); eauto.
        -- split; [intros [x Hx]; discriminate | intros (_ & _ & _ & [x Hx]); discriminate].
Qed.

(** The table of a list of lines. *)
Lemma table_snoc (lines : list string) (line : string) (m : gmap Z MappingRecord) :
  fold_left add_line (lines ++ [line]) m = add_line (fold_left add_line lines m) line.
Proof. now rewrite fold_left_app. Qed.

(** A record found in the table comes from a line of the file, and is
    stored under its own position id. *)
Lemma table_entry_origin (lines : list string) (m : gmap Z MappingRecord)
      (i : Z) (r : MappingRecord) :
  fold_left add_line lines m !! i = Some r ->
  m !! i = Some r \/
  exists line, In line lines /\ parse_line line = Some r /\ position_id r = i.
Proof.
  revert m. induction lines as [| line lines IH]; intros m H; simpl in H.
  - now left.
  - apply IH in H. destruct H as [H | (l & Hin & Hp & Hid)].
    + unfold add_line in H.
      destruct (parse_line line) as [q |] eqn:E; [| now left].
      destruct (decide (position_id q = i)) as [Heq | Hne].
      * subst i. rewrite lookup_insert_eq in H. injection H as <-.
        right. exists line. split; [now left | auto].
      * rewrite lookup_insert_ne in H by assumption. now left.
    + right. exists l. split; [now right | auto].
Qed.

(** Lines after which no line of the same position id is accepted keep
    their record. *)
Lemma later_lines_keep (lines : list string) (m : gmap Z MappingRecord)
      (i : Z) (r : MappingRecord) :
  m !! i = Some r ->
  (forall line q, In line lines -> parse_line line = Some q -> position_id q <> i) ->
  fold_left add_line lines m !! i = Some r.
Proof.
  revert m. induction lines as [| line lines IH]; intros m Hm Hno; simpl.
  - exact Hm.
  - apply IH.
    + unfold add_line. destruct (parse_line line) as [q |] eqn:E; [| exact Hm].
      rewrite lookup_insert_ne; [exact Hm |].
      apply (Hno line q); [now left | exact E].
    + intros l q Hin. apply Hno. now right.
Qed.

(** X1: every entry of the mapping table is stored under its own position
    id, keeps all the fields of its line (at least 46), and its three flags
    say whether the corresponding names are non-empty. *)
Theorem table_entries_well_formed (file : option string) (i : Z) (r : MappingRecord) :
  parse_mapping_table file !! i = Some r ->
  position_id r = i /\
  (46 <= length (all_parts r))%nat /\
  py_int (nth 0 (all_parts r) "") = Some i /\
  blocktype r = nth 6 (all_parts r) "" /\
  main_texture_prefix r = nth 43 (all_parts r) "" /\
  submodel_name r = nth 44 (all_parts r) "" /\
  has_main_texture r = truthy (main_texture_prefix r) /\
  has_submodel r = truthy (submodel_name r) /\
  has_z_texture r = truthy (z_texture_prefix r).
Proof.
  destruct file as [text |]; simpl; [| rewrite lookup_empty; discriminate].
  intros H. apply table_entry_origin in H.
  destruct H as [H | (line & _ & Hp & Hid)]; [rewrite lookup_empty in H; discriminate |].
  assert (Hacc : is_Some (parse_line line)) by eauto.
  apply parse_line_accepts in Hacc. destruct Hacc as (_ & _ & Hlen & _).
  pose proof (parse_line_fields _ _ Hp) as Hf.
  pose proof (parse_fields_of_split _ _ Hf) as (Hpid & Hb & Hm & Hs & Hz).
  assert (F : forall k, (k < 46)%nat ->
                        field k (split "," (strip line)) = nth k (split "," (strip line)) "").
  { intros k Hk. unfold field.
    assert (E : (k <? length (split "," (strip line)))%nat = true)
      by (apply Nat.ltb_lt; lia).
    now rewrite E. }
  rewrite F in Hb, Hm, Hs by lia.
  unfold parse_fields in Hf.
  destruct (py_int (nth 0 (split "," (strip line)) "")) as [pid |] eqn:Eint;
    [| discriminate].
  rewrite (field_no_separator "," (strip line) 43) in Hf.
  injection Hf as <-. simpl in *. subst i.
  repeat split; auto.
Qed.

Lemma table_entries_well_formed_witness :
  exists r : MappingRecord,
    parse_mapping_table (Some scenario_line) !! 7 = Some r /\
    position_id r = 7 /\ (46 <= length (all_parts r))%nat.
Proof.
  destruct (parse_mapping_table (Some scenario_line) !! 7) as [r |] eqn:E.
  - exists r. split; [reflexivity |].
    destruct (table_entries_well_formed (Some scenario_line) 7 r E) as (H1 & H2 & _).
    split; assumption.
  - vm_compute in E. discriminate E.
Defined.

(** X2: when two accepted lines carry the same position id the later one
    wins: a line accepted as [r], followed only by lines that are rejected
    or carry another id, leaves [r] in the table under its id, whatever
    came before it. *)
Theorem last_line_of_an_id_wins (text : string) (before after : list string)
        (line : string) (r : MappingRecord) :
  readlines text = (before ++ line :: after)%list ->
  parse_line line = Some r ->
  (forall l q, In l after -> parse_line l = Some q -> position_id q <> position_id r) ->
  parse_mapping_table (Some text) !! position_id r = Some r.
Proof.
  intros Hl Hp Hafter. simpl. rewrite Hl, fold_left_app. simpl.
  apply later_lines_keep; [| exact Hafter].
  unfold add_line. rewrite Hp. apply lookup_insert_eq.
Qed.

(** A second line for position 7, of blocktype [stone]. *)
Definition scenario_line_2 : string :=
  "7,,,,,,stone,,,,,,,,,,,,,,,,,,,,,,,,,,,,,,,,,,,,,rock,,".

Lemma last_line_of_an_id_wins_witness :
  exists r : MappingRecord,
    parse_line scenario_line_2 = Some r /\
    blocktype r = "stone" /\
    parse_mapping_table (Some (scenario_line ++ String "010" scenario_line_2)) !! 7
    = Some r.
Proof.
  destruct (parse_line scenario_line_2) as [r |] eqn:E;
    [| vm_compute in E; discriminate E].
  exists r. split; [reflexivity |].
  assert (Hid : position_id r = 7 /\ blocktype r = "stone").
  { vm_compute in E. injection E as <-. split; reflexivity. }
  destruct Hid as [Hid Hb]. split; [exact Hb |].
  rewrite <- Hid.
  apply (last_line_of_an_id_wins
           (scenario_line ++ String "010" scenario_line_2)
           [scenario_line] [] scenario_line_2 r).
  - vm_compute. reflexivity.
  - exact E.
  - intros l q [].
Defined.

Lemma fold_add_line_keeps_ids (lines : list string) (m : gmap Z MappingRecord) (i : Z) :
  is_Some (m !! i) -> is_Some (fold_left add_line lines m !! i).
Proof.
  revert m. induction lines as [| line lines IH]; intros m H; simpl; [exact H |].
  apply IH. unfold add_line. destruct (parse_line line) as [q |]; [| exact H].
  destruct (decide (position_id q = i)) as [<- | Hne].
  - rewrite lookup_insert_eq. eauto.
  - now rewrite lookup_insert_ne.
Qed.

(** X3: a position id has an entry in the mapping table exactly when some
    line of the file is accepted with that id; a missing file, and a file
    in which every line is rejected, give the empty table. *)
Theorem table_ids_are_accepted_ids :
  parse_mapping_table None = ∅ /\
  (forall (text : string) (i : Z),
      is_Some (parse_mapping_table (Some text) !! i) <->
      exists line r, In line (readlines text) /\ parse_line line = Some r /\
                     position_id r = i) /\
  (forall text : string,
      (forall line, In line (readlines text) -> parse_line line = None) ->
      parse_mapping_table (Some text) = ∅).
Proof.
  split; [reflexivity |]. split.
  - intros text i. simpl. split.
    + intros [r Hr]. apply table_entry_origin in Hr.
      destruct Hr as [Hr | (line & Hin & Hp & Hid)];
        [rewrite lookup_empty in Hr; discriminate | eauto].
    + intros (line & r & Hin & Hp & Hid).
      apply in_split in Hin. destruct Hin as (l1 & l2 & ->).
      rewrite fold_left_app. simpl. apply fold_add_line_keeps_ids.
      unfold add_line. rewrite Hp, Hid. rewrite lookup_insert_eq. eauto.
  - intros text H. simpl. apply map_eq. intros i. rewrite lookup_empty.
    destruct (fold_left add_line (readlines text) ∅ !! i) as [r |] eqn:E; [| reflexivity].
    apply table_entry_origin in E.
    destruct E as [E | (line & Hin & Hp & _)];
      [rewrite lookup_empty in E; discriminate |].
    rewrite (H line Hin) in Hp. discriminate.
Qed.

End MappingTable.

(** ** The resolved configuration: which models and textures it finds *)

Section Configuration.
Import PyStr Mapping Config SubmodelTextures.
Variable path_exists : string -> bool.

Lemma first_existing_exists (paths : list string) (p : string) :
  first_existing path_exists paths = Some p -> In p paths /\ path_exists p = true.
Proof. unfold first_existing. apply find_some. Qed.

Lemma first_existing_found (paths : list string) (p : string) :
  In p paths -> path_exists p = true -> is_Some (first_existing path_exists paths).
Proof.
  intros Hin Hp. unfold first_existing.
  destruct (List.find path_exists paths) as [q |] eqn:E; [eauto |].
  pose proof (find_none _ _ E p Hin) as H. congruence.
Qed.

Lemma first_existing_app (l1 l2 : list string) :
  first_existing path_exists (l1 ++ l2)
  = match first_existing path_exists l1 with
    | Some p => Some p
    | None => first_existing path_exists l2
    end.
Proof.
  unfold first_existing. induction l1 as [| a l1 IH]; simpl; [reflexivity |].
  destruct (path_exists a); [reflexivity | exact IH].
Qed.

Lemma probe_exists (path p : string) :
  probe path_exists path = Some p -> p = path /\ path_exists p = true.
Proof.
  unfold probe. destruct (path_exists path) eqn:E; [| discriminate].
  intros [= <-]. auto.
Qed.

Lemma join2_nonempty (a b : string) : b <> "" -> join2 a b <> "".
Proof.
  intros Hb. unfold join2.
  destruct (startswith "/" b); [exact Hb |].
  destruct (String.eqb a "" || endswith "/" a).
  - destruct a; [exact Hb | discriminate].
  - destruct a; discriminate.
Qed.

Lemma app_nonempty_r (a b : string) : b <> "" -> a ++ b <> "".
Proof. intros Hb. destruct a; [exact Hb | discriminate]. Qed.

(** X4: whether the main model is wanted depends on the blocktype and on
    the main texture prefix only: it is wanted for teamspawn and for a
    non-empty prefix, whatever the submodel name; and it is found when it
    is wanted and its file ([{id}/teamspawn.obj] for teamspawn, the shared
    [models/block.obj] otherwise) exists. *)
Theorem main_model_follows_main_texture (pid : Z) (data : option MappingRecord)
        (tex models : string) :
  let c := new_ModelConfig path_exists pid data tex models in
  let is_teamspawn := String.eqb (from_option blocktype "" data) "teamspawn" in
  let wanted := is_teamspawn || truthy (from_option main_texture_prefix "" data) in
  need_main_model c = wanted /\
  has_main_model path_exists c
  = wanted &&
    path_exists (if is_teamspawn
                 then path_join models [str_of_int pid; "teamspawn.obj"]
                 else path_join models ["models"; "block.obj"]).
Proof.
  intros c is_teamspawn wanted.
  assert (Hneed : need_main_model c = wanted).
  { subst c wanted is_teamspawn. unfold new_ModelConfig. cbn [need_main_model].
    pose proof (choose_never_submodel_only (from_option blocktype "" data)
                  (from_option main_texture_prefix "" data)) as Hsys.
    destruct (String.eqb (from_option blocktype "" data) "teamspawn"); [reflexivity |].
    destruct (choose_material_system (from_option blocktype "" data)
                (from_option main_texture_prefix "" data));
      try congruence; cbn [material_system_eqb orb];
      destruct (truthy (from_option submodel_name "" data));
      destruct (truthy (from_option main_texture_prefix "" data)); reflexivity. }
  split; [exact Hneed |].
  unfold has_main_model. rewrite Hneed.
  replace (main_model_path c)
    with (if is_teamspawn
          then path_join models [str_of_int pid; "teamspawn.obj"]
          else path_join models ["models"; "block.obj"]); [reflexivity |].
  subst c is_teamspawn. unfold new_ModelConfig. cbn [main_model_path].
  destruct (String.eqb (from_option blocktype "" data) "teamspawn"); reflexivity.
Qed.

(** The six places where the file of a submodel is looked for, in the
    order of the lookup: the three names in the folder of the id, then in
    the shared [models] folder. *)
Definition submodel_candidates (pid : Z) (models sub : string) : list string :=
  [path_join (path_join models [str_of_int pid]) [sub ++ ".obj"];
   path_join (path_join models [str_of_int pid]) [sub ++ "_lod1.obj"];
   path_join (path_join models [str_of_int pid]) [sub ++ "_lod0.obj"];
   path_join models ["models"; sub ++ ".obj"];
   path_join models ["models"; sub ++ "_lod1.obj"];
   path_join models ["models"; sub ++ "_lod0.obj"]].

Lemma submodel_candidates_nonempty (pid : Z) (models sub p : string) :
  In p (submodel_candidates pid models sub) -> p <> "".
Proof.
  unfold submodel_candidates, path_join. simpl.
  intros H.
  repeat (destruct H as [<- | H];
          [apply join2_nonempty, app_nonempty_r; discriminate |]).
  destruct H.
Qed.

Lemma submodel_path_of_config (pid : Z) (data : option MappingRecord)
      (tex models : string) :
  let c := new_ModelConfig path_exists pid data tex models in
  submodel_path c
  = if truthy (cfg_submodel_name c)
    then first_existing path_exists
           (submodel_candidates pid models (cfg_submodel_name c))
    else None.
Proof.
  intros c. subst c. unfold new_ModelConfig. cbn [submodel_path cfg_submodel_name].
  destruct (String.eqb (from_option blocktype "" data) "teamspawn"); [reflexivity |].
  cbn [negb]. rewrite andb_true_r.
  destruct (truthy (from_option submodel_name "" data)); [| reflexivity].
  rewrite <- first_existing_app. reflexivity.
Qed.

(** X5: the submodel of a configuration is the first existing file among
    six candidates, the folder of the id before the shared folder and
    [name.obj] before [name_lod1.obj] before [name_lod0.obj]; nothing is
    looked for when the submodel name is empty (as it always is for
    teamspawn); the path that is kept exists; and [has_submodel] says
    exactly whether one was found. *)
Theorem submodel_is_first_existing_candidate (pid : Z) (data : option MappingRecord)
        (tex models : string) :
  let c := new_ModelConfig path_exists pid data tex models in
  submodel_path c
  = (if truthy (cfg_submodel_name c)
     then List.find path_exists (submodel_candidates pid models (cfg_submodel_name c))
     else None) /\
  (from_option blocktype "" data = "teamspawn" -> cfg_submodel_name c = "") /\
  (forall p, submodel_path c = Some p ->
             path_exists p = true /\
             In p (submodel_candidates pid models (cfg_submodel_name c))) /\
  (has_submodel path_exists c = true <-> is_Some (submodel_path c)).
Proof.
  intros c.
  pose proof (submodel_path_of_config pid data tex models) as Hpath.
  cbv zeta in Hpath. fold c in Hpath.
  assert (Hsound : forall p, submodel_path c = Some p ->
                             path_exists p = true /\
                             In p (submodel_candidates pid models (cfg_submodel_name c))).
  { intros p Hp. rewrite Hpath in Hp.
    destruct (truthy (cfg_submodel_name c)); [| discriminate].
    apply first_existing_exists in Hp. tauto. }
  split; [exact Hpath |]. split; [| split; [exact Hsound |]].
  - intros Hb. subst c. unfold new_ModelConfig. cbn [cfg_submodel_name].
    rewrite Hb. reflexivity.
  - unfold has_submodel.
    destruct (String.eqb (cfg_blocktype c) "teamspawn") eqn:Et.
    + assert (Hnone : submodel_path c = None).
      { subst c. unfold new_ModelConfig in *. cbn [submodel_path cfg_blocktype] in *.
        rewrite Et. rewrite andb_false_r. reflexivity. }
      rewrite Hnone. split; [discriminate | intros [x Hx]; discriminate].
    + destruct (submodel_path c) as [p |] eqn:Ep.
      * destruct (Hsound p eq_refl) as [Hex Hin].
        apply submodel_candidates_nonempty in Hin.
        apply String.eqb_neq in Hin. unfold truthy. rewrite Hin, Hex.
        split; eauto.
      * split; [discriminate | intros [x Hx]; discriminate].
Qed.

(** The file names that [get_texture_path] and the four functions behind
    it probe in the folder of the id. *)
Definition texture_file_names (c : ModelConfig) (face_type : string) : list string :=
  let pre := cfg_main_texture_prefix c in
  [pre ++ ".png"; pre ++ "_x.png"; pre ++ "_y.png"; pre ++ "_z.png";
   pre ++ "_" ++ face_type ++ ".png"; cfg_z_texture_prefix c ++ ".png";
   "blocks.grass.png"; "blockd.grass.png"; "teamspawn.png"; "teamspawn0.png"].

(** [p] exists and is the folder of the id joined with one of these names. *)
Definition probed (c : ModelConfig) (face_type p : string) : Prop :=
  path_exists p = true /\
  exists name, In name (texture_file_names c face_type) /\
               p = path_join (id_folder c) [name].

Ltac in_names :=
  unfold texture_file_names; cbv zeta; simpl In;
  repeat first [left; reflexivity | right].

Lemma probe_probed (c : ModelConfig) (face_type name p : string) :
  In name (texture_file_names c face_type) ->
  probe path_exists (path_join (id_folder c) [name]) = Some p ->
  probed c face_type p.
Proof.
  intros Hin H. apply probe_exists in H. destruct H as [-> H].
  split; [exact H | eauto].
Qed.

Lemma first_existing_probed (c : ModelConfig) (face_type : string)
      (names : list string) (p : string) :
  incl names (texture_file_names c face_type) ->
  first_existing path_exists (map (fun n => path_join (id_folder c) [n]) names) = Some p ->
  probed c face_type p.
Proof.
  intros Hincl H. apply first_existing_exists in H. destruct H as [Hin Hex].
  split; [exact Hex |]. apply in_map_iff in Hin. destruct Hin as (n & <- & Hn).
  exists n. split; [now apply Hincl | reflexivity].
Qed.

Ltac names_included :=
  let n := fresh "n" in
  let Hn := fresh "Hn" in
  intros n Hn; simpl in Hn;
  repeat (destruct Hn as [<- | Hn]; [in_names |]); destruct Hn.

Lemma default_texture_probed (c : ModelConfig) (face_type p : string) :
  get_default_texture_path path_exists c face_type = Some p -> probed c face_type p.
Proof.
  unfold get_default_texture_path. apply probe_probed.
  destruct (String.eqb (lower face_type) "x"); [in_names |].
  destruct (String.eqb (lower face_type) "y"); [in_names |].
  destruct (String.eqb (lower face_type) "z"); in_names.
Qed.

Lemma minestone_texture_probed (c : ModelConfig) (face_type p : string) :
  get_minestone_texture_path path_exists c face_type = Some p -> probed c face_type p.
Proof.
  unfold get_minestone_texture_path.
  match goal with
  | |- context [probe path_exists ?q] => destruct (probe path_exists q) as [r |] eqn:E
  end.
  - intros [= <-]. revert E. apply probe_probed.
    destruct (String.eqb (lower face_type) "x"); [in_names |].
    destruct (String.eqb (lower face_type) "y"); [in_names |].
    destruct (String.eqb (lower face_type) "z"); in_names.
  - apply probe_probed. in_names.
Qed.

Lemma soil_texture_probed (c : ModelConfig) (face_type p : string) :
  get_soil_texture_path path_exists c face_type = Some p -> probed c face_type p.
Proof.
  unfold get_soil_texture_path.
  destruct (String.eqb (lower face_type) "z").
  - destruct (truthy (cfg_z_texture_prefix c)).
    + destruct (probe path_exists
                  (path_join (id_folder c) [cfg_z_texture_prefix c ++ ".png"]))
        as [r |] eqn:E.
      * intros [= <-]. revert E. apply probe_probed. in_names.
      * apply first_existing_probed. names_included.
    + apply first_existing_probed. names_included.
  - destruct (probe path_exists
                (path_join (id_folder c) [cfg_main_texture_prefix c ++ ".png"]))
      as [r |] eqn:E.
    + intros [= <-]. revert E. apply probe_probed. in_names.
    + apply first_existing_probed. names_included.
Qed.

Lemma teamspawn_texture_probed (c : ModelConfig) (face_type p : string) :
  get_teamspawn_texture_path path_exists c = Some p -> probed c face_type p.
Proof.
  unfold get_teamspawn_texture_path.
  destruct (probe path_exists
              (path_join (id_folder c) [cfg_main_texture_prefix c ++ ".png"]))
    as [r |] eqn:E.
  - intros [= <-]. revert E. apply probe_probed. in_names.
  - apply first_existing_probed. names_included.
Qed.

(** The folder of the id is not empty and does not end with the separator,
    so that a name which does not begin with the separator is appended to
    it after one. *)
Lemma id_folder_file (c : ModelConfig) (name : string) :
  startswith "/" name = false ->
  path_join (id_folder c) [name] = id_folder c ++ "/" ++ name.
Proof.
  intros Hname. unfold path_join. cbn [fold_left]. unfold join2 at 1. rewrite Hname.
  assert (E : exists a, id_folder c = a ++ str_of_int (cfg_position_id c)).
  { unfold id_folder, path_join. cbn [fold_left]. unfold join2.
    rewrite (startswith_contains _ _ (str_of_int_no_slash _)).
    destruct (String.eqb (texture_base_path c) "" || endswith "/" (texture_base_path c)).
    - eauto.
    - exists (texture_base_path c ++ "/"). now rewrite string_app_assoc. }
  destruct E as [a ->]. set (n := cfg_position_id c).
  pose proof (str_of_int_nonempty n) as Hne.
  assert (E1 : String.eqb (a ++ str_of_int n) "" = false).
  { apply String.eqb_neq. destruct a; [exact Hne | discriminate]. }
  assert (E2 : endswith "/" (a ++ str_of_int n) = false).
  { rewrite endswith_app by exact Hne.
    apply endswith_contains, str_of_int_no_slash. }
  rewrite E1, E2. reflexivity.
Qed.

(** X6: a texture path returned for a face of the main model is a file
    that exists; it is the texture folder of the position id joined with
    one of ten file names, made of the main texture prefix, the Z texture
    prefix and the face type or fixed; when that name does not begin with
    [/], the path is the folder, a [/] and the name, and a name that begins
    with [/] is the whole path; and a path is returned only for a
    configuration with a non-empty main texture prefix. *)
Theorem texture_paths_exist (c : ModelConfig) (face_type p : string) :
  get_texture_path path_exists c face_type = Some p ->
  path_exists p = true /\
  cfg_main_texture_prefix c <> "" /\
  exists name,
    In name (texture_file_names c face_type) /\
    p = path_join (path_join (texture_base_path c)
                             [str_of_int (cfg_position_id c)]) [name] /\
    (startswith "/" name = false ->
     p = path_join (texture_base_path c) [str_of_int (cfg_position_id c)]
         ++ "/" ++ name) /\
    (startswith "/" name = true -> p = name).
Proof.
  unfold get_texture_path. unfold truthy at 1. rewrite negb_involutive.
  destruct (String.eqb (cfg_main_texture_prefix c) "") eqn:E; [discriminate |].
  apply String.eqb_neq in E. intros H.
  assert (H' : probed c face_type p).
  { destruct (material_system c).
    - now apply teamspawn_texture_probed.
    - now apply soil_texture_probed in H.
    - now apply minestone_texture_probed in H.
    - discriminate.
    - now apply default_texture_probed in H. }
  destruct H' as (H1 & name & Hin & ->).
  split; [exact H1 |]. split; [exact E |].
  exists name. split; [exact Hin |]. split; [reflexivity |]. split.
  - apply id_folder_file.
  - intros Hs. fold (id_folder c). unfold path_join. cbn [fold_left].
    unfold join2 at 1. now rewrite Hs.
Qed.

(** A stone block of position 3 with the single texture file
    [/tex/3/rock.png]. *)
Definition stone_files (path : string) : bool := String.eqb path "/tex/3/rock.png".

Definition stone_record : MappingRecord :=
  mkMappingRecord 3 "stone" "rock" "" "" true false false [].

Definition stone_config : ModelConfig :=
  new_ModelConfig stone_files 3 (Some stone_record) "/tex" "/models".

End Configuration.

Lemma texture_paths_exist_witness :
  stone_files "/tex/3/rock.png" = true /\
  Config.cfg_main_texture_prefix stone_config <> "" /\
  exists name,
    In name (texture_file_names stone_config "x") /\
    "/tex/3/rock.png"
    = PyStr.path_join (PyStr.path_join (Config.texture_base_path stone_config)
                         [PyStr.str_of_int (Config.cfg_position_id stone_config)]) [name] /\
    (PyStr.startswith "/" name = false ->
     "/tex/3/rock.png"
     = PyStr.path_join (Config.texture_base_path stone_config)
         [PyStr.str_of_int (Config.cfg_position_id stone_config)] ++ "/" ++ name) /\
    (PyStr.startswith "/" name = true -> "/tex/3/rock.png" = name).
Proof.
  apply (texture_paths_exist stone_files stone_config "x" "/tex/3/rock.png").
  vm_compute. reflexivity.
Defined.

(** A main texture prefix that begins with [/] takes the path out of the
    texture folder: [os.path.join] drops what comes before it. *)
Example absolute_prefix_leaves_the_folder :
  let files := fun path => String.eqb path "/etc/rock.png" in
  Config.get_texture_path files
    (Config.new_ModelConfig files 3
       (Some (Mapping.mkMappingRecord 3 "stone" "/etc/rock" "" "" true false false []))
       "/tex" "/models") "x"
  = Some "/etc/rock.png".
Proof. vm_compute. reflexivity. Qed.

(** ** Fallback textures and the face type *)

Section TextureFallbacks.
Import PyStr Mapping Config SubmodelTextures.
Variable path_exists : string -> bool.

Lemma probe_or_found (path : string) (o : option string) :
  is_Some o ->
  is_Some (match probe path_exists path with Some p => Some p | None => o end).
Proof. intros H. destruct (probe path_exists path); eauto. Qed.

Lemma probe_found (path : string) :
  path_exists path = true -> probe path_exists path = Some path.
Proof. unfold probe. now intros ->. Qed.

(** X7: with a non-empty main texture prefix, one file in the texture
    folder of the id is enough for every face type to resolve: the bare
    [{prefix}.png] in the minestone, the soil and the teamspawn system, and
    also [blocks.grass.png] or [blockd.grass.png] in the soil system and
    [teamspawn.png] or [teamspawn0.png] in the teamspawn system. *)
Theorem one_file_serves_every_face (c : ModelConfig) (name : string) :
  cfg_main_texture_prefix c <> "" ->
  path_exists (path_join (id_folder c) [name]) = true ->
  (material_system c = minestone_system /\ name = cfg_main_texture_prefix c ++ ".png") \/
  (material_system c = soil_system /\
   In name [cfg_main_texture_prefix c ++ ".png"; "blocks.grass.png"; "blockd.grass.png"]) \/
  (material_system c = teamspawn_system /\
   In name [cfg_main_texture_prefix c ++ ".png"; "teamspawn.png"; "teamspawn0.png"]) ->
  forall face_type : string, is_Some (get_texture_path path_exists c face_type).
Proof.
  intros Hpre Hex Hcase face_type.
  unfold get_texture_path, truthy. rewrite negb_involutive.
  apply String.eqb_neq in Hpre. rewrite Hpre.
  destruct Hcase as [[-> ->] | [[-> Hin] | [-> Hin]]].
  - unfold get_minestone_texture_path.
    match goal with
    | |- context [probe path_exists ?q] => destruct (probe path_exists q); [eauto |]
    end.
    rewrite (probe_found _ Hex). eauto.
  - unfold get_soil_texture_path.
    destruct (String.eqb (lower face_type) "z").
    + match goal with
      | |- is_Some (match ?s with Some p => Some p | None => ?o end) =>
          assert (Ho : is_Some o); [| destruct s; eauto]
      end.
      apply (first_existing_found path_exists _ (path_join (id_folder c) [name]));
        [| exact Hex].
      apply (in_map (fun n => path_join (id_folder c) [n])). simpl in Hin |- *. intuition.
    + simpl in Hin. destruct Hin as [<- | Hin].
      * rewrite (probe_found _ Hex). eauto.
      * apply probe_or_found.
        apply (first_existing_found path_exists _ (path_join (id_folder c) [name]));
          [| exact Hex].
        apply (in_map (fun n => path_join (id_folder c) [n])). simpl. intuition.
  - unfold get_teamspawn_texture_path.
    simpl in Hin. destruct Hin as [<- | Hin].
    + rewrite (probe_found _ Hex). eauto.
    + apply probe_or_found.
      apply (first_existing_found path_exists _ (path_join (id_folder c) [name]));
        [| exact Hex].
      apply (in_map (fun n => path_join (id_folder c) [n])). simpl. intuition.
Qed.

(** X8: the face type is read without regard to case where the code
    compares it: two face types that agree up to case get the same texture,
    in the default system provided that they name one of the faces [x], [y],
    [z] (any other face type enters the file name as it is written). *)
Theorem face_type_case_is_ignored (c : ModelConfig) (face_type face_type' : string) :
  lower face_type = lower face_type' ->
  (material_system c = default_system -> In (lower face_type) ["x"; "y"; "z"]) ->
  get_texture_path path_exists c face_type = get_texture_path path_exists c face_type'.
Proof.
  intros Hl Hdef. unfold get_texture_path.
  destruct (negb (truthy (cfg_main_texture_prefix c))); [reflexivity |].
  destruct (material_system c); try reflexivity.
  - unfold get_soil_texture_path. now rewrite Hl.
  - unfold get_minestone_texture_path. now rewrite Hl.
  - unfold get_default_texture_path. rewrite <- Hl.
    specialize (Hdef eq_refl). simpl in Hdef.
    destruct Hdef as [<- | [<- | [<- | []]]]; reflexivity.
Qed.

Lemma submodel_texture_guard (c : ModelConfig) :
  cfg_submodel_name c = "" \/ cfg_blocktype c = "teamspawn" ->
  negb (truthy (cfg_submodel_name c)) || String.eqb (cfg_blocktype c) "teamspawn" = true.
Proof.
  intros [H | H]; rewrite H; [reflexivity |].
  rewrite String.eqb_refl. apply orb_true_r.
Qed.

(** X9: the diffuse and the emission texture of a submodel are files that
    exist; none is returned for an empty submodel name or for teamspawn;
    and a file in the texture folder of the id ([{name}.png], [{name}_emi.png])
    is preferred to every other place. *)
Theorem submodel_textures_exist (c : ModelConfig) :
  (forall p, get_submodel_texture_path path_exists c = Some p -> path_exists p = true) /\
  (forall p, get_submodel_emission_texture_path path_exists c = Some p ->
             path_exists p = true) /\
  (cfg_submodel_name c = "" \/ cfg_blocktype c = "teamspawn" ->
   get_submodel_texture_path path_exists c = None /\
   get_submodel_emission_texture_path path_exists c = None) /\
  (cfg_submodel_name c <> "" -> cfg_blocktype c <> "teamspawn" ->
   (path_exists (path_join (id_folder c) [cfg_submodel_name c ++ ".png"]) = true ->
    get_submodel_texture_path path_exists c
    = Some (path_join (id_folder c) [cfg_submodel_name c ++ ".png"])) /\
   (path_exists (path_join (id_folder c) [cfg_submodel_name c ++ "_emi.png"]) = true ->
    get_submodel_emission_texture_path path_exists c
    = Some (path_join (id_folder c) [cfg_submodel_name c ++ "_emi.png"]))).
Proof.
  repeat split.
  - intros p. unfold get_submodel_texture_path.
    destruct (negb (truthy (cfg_submodel_name c)) || String.eqb (cfg_blocktype c) "teamspawn");
      [discriminate |].
    intros H. now apply first_existing_exists in H.
  - intros p. unfold get_submodel_emission_texture_path.
    destruct (negb (truthy (cfg_submodel_name c)) || String.eqb (cfg_blocktype c) "teamspawn");
      [discriminate |].
    intros H. now apply first_existing_exists in H.
  - unfold get_submodel_texture_path. now rewrite submodel_texture_guard.
  - unfold get_submodel_emission_texture_path. now rewrite submodel_texture_guard.
  - intros Hex. unfold get_submodel_texture_path, truthy.
    apply String.eqb_neq in H, H0. rewrite H, H0. cbn [negb orb].
    unfold first_existing. cbn [List.find]. now rewrite Hex.
  - intros Hex. unfold get_submodel_emission_texture_path, truthy.
    apply String.eqb_neq in H, H0. rewrite H, H0. cbn [negb orb].
    unfold first_existing. cbn [List.find]. now rewrite Hex.
Qed.

End TextureFallbacks.

Lemma one_file_serves_every_face_witness :
  is_Some (Config.get_texture_path stone_files stone_config "top").
Proof.
  refine (one_file_serves_every_face stone_files stone_config "rock.png" _ _ _ "top").
  - discriminate.
  - vm_compute. reflexivity.
  - left. split; reflexivity.
Defined.

Lemma face_type_case_is_ignored_witness :
  Config.get_texture_path stone_files stone_config "Z"
  = Config.get_texture_path stone_files stone_config "z".
Proof.
  apply (face_type_case_is_ignored stone_files stone_config "Z" "z").
  - reflexivity.
  - discriminate.
Defined.

(** ** The lists of faces *)

Section FaceLists.
Import Faces SimpleFaces.
Variable length : Vector -> float.
Variable normalized : Vector -> Vector.

Lemma selected_bounds (b : Bucket) (k : nat) (normals : list Vector) :
  Forall (fun i => (k <= i < k + List.length normals)%nat)
         (selected length normalized b (enumerate_from k normals)).
Proof.
  revert k. induction normals as [| n rest IH]; intros k; [constructor |].
  unfold selected in *. cbn [enumerate_from List.filter snd].
  assert (Hrest : Forall (fun i => (k <= i < k + List.length (n :: rest))%nat)
                    (map fst (List.filter
                       (fun p => takes b (normal_normalized length normalized (snd p)))
                       (enumerate_from (S k) rest)))).
  { eapply List.Forall_impl; [| apply (IH (S k))]. simpl. intros i Hi. lia. }
  destruct (takes b (normal_normalized length normalized n)); [| exact Hrest].
  cbn [map fst]. constructor; [simpl; lia | exact Hrest].
Qed.

Lemma selected_increasing (b : Bucket) (k : nat) (normals : list Vector) :
  Sorted.StronglySorted Nat.lt (selected length normalized b (enumerate_from k normals)).
Proof.
  revert k. induction normals as [| n rest IH]; intros k; [constructor |].
  pose proof (selected_bounds b (S k) rest) as Hb.
  unfold selected in *. cbn [enumerate_from List.filter snd].
  destruct (takes b (normal_normalized length normalized n)); [| apply IH].
  cbn [map fst]. constructor; [apply IH |].
  eapply List.Forall_impl; [| exact Hb]. simpl. intros i Hi. unfold Nat.lt. lia.
Qed.

(** Whether a polygon takes a branch of the chain. *)
Definition classified (p : nat * Vector) : bool :=
  match branch_of (normal_normalized length normalized (snd p)) with
  | Some _ => true
  | None => false
  end.

Lemma filter_length_cons {A : Type} (f : A -> bool) (a : A) (l : list A) :
  List.length (List.filter f (a :: l))
  = ((if f a then 1 else 0) + List.length (List.filter f l))%nat.
Proof. simpl. destruct (f a); reflexivity. Qed.

Lemma takes_one_bucket (n : Vector) :
  ((if takes PosX n then 1 else 0) + (if takes NegX n then 1 else 0)
   + (if takes PosY n then 1 else 0) + (if takes NegY n then 1 else 0)
   + (if takes PosZ n then 1 else 0) + (if takes NegZ n then 1 else 0)
   = match branch_of n with Some _ => 1 | None => 0 end)%nat.
Proof. unfold takes. destruct (branch_of n) as [[] |]; reflexivity. Qed.

Lemma selected_lengths (ps : list (nat * Vector)) :
  (List.length (selected length normalized PosX ps)
   + List.length (selected length normalized NegX ps)
   + List.length (selected length normalized PosY ps)
   + List.length (selected length normalized NegY ps)
   + List.length (selected length normalized PosZ ps)
   + List.length (selected length normalized NegZ ps)
   = List.length (List.filter classified ps))%nat.
Proof.
  unfold selected. rewrite !length_map.
  induction ps as [| p ps IH]; [reflexivity |].
  rewrite !filter_length_cons, <- IH.
  pose proof (takes_one_bucket (normal_normalized length normalized (snd p))) as H.
  unfold classified at 1.
  destruct (branch_of (normal_normalized length normalized (snd p))); lia.
Qed.

(** X10: each of the six lists of [find_all_directional_faces] is strictly
    increasing and holds indices of polygons of the mesh only; together
    they have as many entries as there are polygons that take a branch of
    the chain, hence at most the number of polygons; an object that is no
    mesh gives six empty lists. *)
Theorem face_lists_are_ordered_and_bounded :
  (forall (normals : list Vector) (b : Bucket),
      let F := find_all_directional_faces length normalized (Some normals) in
      Sorted.StronglySorted Nat.lt (faces_in b F) /\
      Forall (fun i => (i < List.length normals)%nat) (faces_in b F)) /\
  (forall normals : list Vector,
      let F := find_all_directional_faces length normalized (Some normals) in
      let total :=
        (List.length (x_faces F) + List.length (neg_x_faces F)
         + List.length (y_faces F) + List.length (neg_y_faces F)
         + List.length (z_faces F) + List.length (neg_z_faces F))%nat in
      total = List.length (List.filter classified (polygons normals)) /\
      (total <= List.length normals)%nat) /\
  (forall b : Bucket,
      faces_in b (find_all_directional_faces length normalized None) = []).
Proof.
  split; [| split].
  - intros normals b F. subst F. rewrite faces_in_find. unfold polygons. split.
    + apply selected_increasing.
    + eapply List.Forall_impl; [| apply selected_bounds]. simpl. intros i Hi. lia.
  - intros normals F total. subst total.
    change (x_faces F) with (faces_in PosX F).
    change (neg_x_faces F) with (faces_in NegX F).
    change (y_faces F) with (faces_in PosY F).
    change (neg_y_faces F) with (faces_in NegY F).
    change (z_faces F) with (faces_in PosZ F).
    change (neg_z_faces F) with (faces_in NegZ F).
    subst F. rewrite !faces_in_find, selected_lengths. split; [reflexivity |].
    etransitivity; [apply List.filter_length_le |].
    unfold polygons.
    rewrite <- (length_map fst), fst_enumerate_from, length_seq. lia.
  - intros []; reflexivity.
Qed.

Lemma fold_visit_x (ps : list (nat * Vector)) (fs : FaceSets) :
  fold_left (visit_x length normalized) ps (x_faces fs, neg_x_faces fs)
  = (x_faces (fold_left (visit length normalized) ps fs),
     neg_x_faces (fold_left (visit length normalized) ps fs)).
Proof.
  revert fs. induction ps as [| [i normal] ps IH]; intros fs; [reflexivity |].
  cbn [fold_left]. rewrite <- IH. f_equal.
  unfold visit_x, visit. cbn [fst snd].
  destruct (is_pos_x _); [reflexivity |].
  destruct (is_neg_x _); [reflexivity |].
  destruct (is_pos_y _); [reflexivity |].
  destruct (is_neg_y _); [reflexivity |].
  destruct (is_pos_z _); [reflexivity |].
  destruct (is_neg_z _); reflexivity.
Qed.

(** X11: [find_x_faces_simple] returns the first two of the six lists of
    [find_all_directional_faces], for a mesh and for an object that is
    none: the four later tests of the longer chain take nothing away from
    the X lists. *)
Theorem simple_x_faces_agree (mesh : option (list Vector)) :
  find_x_faces_simple length normalized mesh
  = (x_faces (find_all_directional_faces length normalized mesh),
     neg_x_faces (find_all_directional_faces length normalized mesh)).
Proof.
  destruct mesh as [normals |]; [| reflexivity].
  unfold find_x_faces_simple, find_all_directional_faces.
  apply (fold_visit_x (polygons normals) no_faces).
Qed.

End FaceLists.

(** ** What the material systems do to a mesh *)

Section MaterialSlots.
Import PyStr Mapping Config Faces Py Materials.
Variable path_exists : string -> bool.
Variable length : Vector -> float.
Variable normalized : Vector -> Vector.

Lemma assign_from_normals (choose : nat -> nat -> result nat) (k : nat)
      (ps ps' : list Polygon) :
  assign_from choose k ps = Ok ps' -> map normal ps' = map normal ps.
Proof.
  revert k ps'. induction ps as [| p ps IH]; intros k ps' H; simpl in H.
  - now injection H as <-.
  - destruct (choose k (material_index p)) as [m |]; [| discriminate]. simpl in H.
    destruct (assign_from choose (S k) ps) as [rest |] eqn:E; [| discriminate].
    simpl in H. injection H as <-. simpl. f_equal. now apply (IH (S k)).
Qed.

Lemma assign_from_slots (choose : nat -> nat -> result nat) (P : nat -> Prop) (k : nat)
      (ps ps' : list Polygon) :
  (forall i old m, choose i old = Ok m -> P m) ->
  assign_from choose k ps = Ok ps' ->
  Forall (fun p => P (material_index p)) ps'.
Proof.
  intros Hc. revert k ps'. induction ps as [| p ps IH]; intros k ps' H; simpl in H.
  - injection H as <-. constructor.
  - destruct (choose k (material_index p)) as [m |] eqn:Em; [| discriminate].
    simpl in H.
    destruct (assign_from choose (S k) ps) as [rest |] eqn:E; [| discriminate].
    simpl in H. injection H as <-. constructor.
    + simpl. eapply Hc, Em.
    + now apply (IH (S k)).
Qed.

Lemma no_polygons (obj : MeshObject) :
  (List.length (polygons obj) =? 0)%nat = true -> polygons obj = [].
Proof. destruct (polygons obj); [reflexivity | discriminate]. Qed.

(** The result of a system keeps the normals of the mesh, and reports
    failure only for a mesh without polygons. *)
Definition keeps_mesh (obj : MeshObject) (r : MeshObject * bool) : Prop :=
  map normal (polygons (fst r)) = map normal (polygons obj) /\
  (snd r = false -> polygons obj = []).

Ltac keep_mesh_by_assign :=
  match goal with
  | |- (let! ps := assign ?ch ?pl in _) = Ok _ -> _ =>
      let Ea := fresh "Ea" in
      destruct (assign ch pl) as [ps |] eqn:Ea; simpl; [| discriminate];
      intros [= <-]; split; [apply (assign_from_normals _ _ _ _ Ea) | discriminate]
  end.

Ltac keep_mesh_or_empty :=
  match goal with
  | |- (if (List.length ?pl =? 0)%nat then _ else _) = Ok _ -> _ =>
      let El := fresh "El" in
      destruct (List.length pl =? 0)%nat eqn:El;
      [ intros [= <-]; split; [reflexivity | intros _; now apply no_polygons]
      | keep_mesh_by_assign ]
  end.

Lemma teamspawn_keeps_mesh (obj : MeshObject) (pid : Z) (c : ModelConfig)
      (r : MeshObject * bool) :
  apply_teamspawn_material_system path_exists obj pid c = Ok r -> keeps_mesh obj r.
Proof. unfold apply_teamspawn_material_system, keeps_mesh. keep_mesh_by_assign. Qed.

Lemma default_keeps_mesh (obj : MeshObject) (pid : Z) (c : ModelConfig)
      (r : MeshObject * bool) :
  apply_default_material_system path_exists length normalized obj pid c = Ok r ->
  keeps_mesh obj r.
Proof.
  unfold apply_default_material_system, keeps_mesh.
  destruct (get_texture_path path_exists c "x");
    destruct (get_texture_path path_exists c "y");
    destruct (get_texture_path path_exists c "z");
    first [keep_mesh_or_empty | keep_mesh_by_assign].
Qed.

Lemma minestone_keeps_mesh (obj : MeshObject) (pid : Z) (c : ModelConfig)
      (r : MeshObject * bool) :
  apply_minestone_material_system path_exists length normalized obj pid c = Ok r ->
  keeps_mesh obj r.
Proof.
  unfold apply_minestone_material_system, keeps_mesh.
  destruct (get_texture_path path_exists c "x");
    destruct (get_texture_path path_exists c "y");
    destruct (get_texture_path path_exists c "z");
    cbn [option_map fst snd]; cbv zeta;
    first [keep_mesh_or_empty | keep_mesh_by_assign].
Qed.

Lemma soil_keeps_mesh (obj : MeshObject) (pid : Z) (c : ModelConfig)
      (r : MeshObject * bool) :
  apply_soil_material_system path_exists length normalized obj pid c = Ok r ->
  keeps_mesh obj r.
Proof.
  unfold apply_soil_material_system, keeps_mesh.
  destruct (get_texture_path path_exists c "x");
    destruct (get_texture_path path_exists c "z");
    cbn [option_map]; cbv zeta; keep_mesh_or_empty.
Qed.

(** X12: whatever the system, when [apply_main_model_materials] returns,
    the polygons of the object are the same in number and keep their
    normals (only material indices and slots change); and it returns
    [False] only without a configuration or for a mesh without polygons. *)
Theorem materials_keep_the_mesh (obj obj' : MeshObject) (pid : Z)
        (model_config : option ModelConfig) (done : bool) :
  apply_main_model_materials path_exists length normalized obj pid model_config
  = Ok (obj', done) ->
  map normal (polygons obj') = map normal (polygons obj) /\
  List.length (polygons obj') = List.length (polygons obj) /\
  (done = false -> model_config = None \/ polygons obj = []).
Proof.
  intros H.
  assert (K : map normal (polygons obj') = map normal (polygons obj) /\
              (done = false -> model_config = None \/ polygons obj = [])).
  { rewrite apply_main_start, apply_main_slotless in H.
    destruct model_config as [c |].
    - assert (K : keeps_mesh (mkMeshObject (start_polygons obj) []) (obj', done)).
      { destruct (material_system c).
        + eapply teamspawn_keeps_mesh, H.
        + eapply soil_keeps_mesh, H.
        + eapply minestone_keeps_mesh, H.
        + injection H as <- <-. split; [reflexivity | discriminate].
        + eapply default_keeps_mesh, H. }
      destruct K as [K1 K2]. cbn [fst snd polygons] in K1, K2.
      rewrite start_normals in K1. split; [exact K1 |].
      intros Hd. right. apply start_empty. exact (K2 Hd).
    - injection H as <- <-. cbn [polygons]. split; [apply start_normals | auto]. }
  destruct K as [K1 K2]. split; [exact K1 |]. split; [| exact K2].
  rewrite <- (length_map normal), K1. apply length_map.
Qed.

(** Every polygon points at a slot that the object has. *)
Definition slots_exist (r : MeshObject * bool) : Prop :=
  Forall (fun p => (material_index p < List.length (materials (fst r)))%nat)
         (polygons (fst r)) /\
  (0 < List.length (materials (fst r)))%nat.

Ltac slots_by_assign :=
  match goal with
  | |- (let! ps := assign ?ch ?pl in Ok (mkMeshObject ps ?mats, _)) = Ok _ -> _ =>
      let Ea := fresh "Ea" in
      destruct (assign ch pl) as [ps |] eqn:Ea; simpl Py.bind; [| discriminate];
      intros [= <-]; cbn [fst polygons materials]; split;
      [ apply (assign_from_slots ch (fun m => (m < List.length mats)%nat) _ _ _) in Ea;
        [exact Ea |];
        intros i old m; cbv beta;
        rewrite ?lookup_insert_eq, ?lookup_insert_ne, ?lookup_insert_eq,
          ?lookup_empty by discriminate;
        repeat match goal with
               | |- context [mem ?a ?b] => destruct (mem a b); cbn [orb]
               end;
        try (intros [= <-]); try discriminate;
        rewrite ?length_app; simpl; lia
      | rewrite ?length_app; simpl; lia ]
  end.

Ltac slots_or_empty :=
  match goal with
  | |- (if (List.length ?pl =? 0)%nat then _ else _) = Ok _ -> _ =>
      let El := fresh "El" in
      destruct (List.length pl =? 0)%nat eqn:El;
      [ intros [= <-]; cbn [fst polygons materials]; split;
        [ match goal with
          | |- Forall _ (polygons ?o) => rewrite (no_polygons o El); constructor
          end
        | rewrite ?length_app; simpl; lia ]
      | slots_by_assign ]
  end.

Lemma teamspawn_slots_exist (obj : MeshObject) (pid : Z) (c : ModelConfig)
      (r : MeshObject * bool) :
  apply_teamspawn_material_system path_exists obj pid c = Ok r -> slots_exist r.
Proof.
  unfold apply_teamspawn_material_system, slots_exist.
  destruct (get_teamspawn_texture_path path_exists c); cbn [option_map]; cbv zeta;
    slots_by_assign.
Qed.

Lemma default_slots_exist (obj : MeshObject) (pid : Z) (c : ModelConfig)
      (r : MeshObject * bool) :
  apply_default_material_system path_exists length normalized obj pid c = Ok r ->
  slots_exist r.
Proof.
  unfold apply_default_material_system, slots_exist.
  destruct (get_texture_path path_exists c "x");
    destruct (get_texture_path path_exists c "y");
    destruct (get_texture_path path_exists c "z");
    cbv zeta; first [slots_or_empty | slots_by_assign].
Qed.

Lemma soil_slots_exist (obj : MeshObject) (pid : Z) (c : ModelConfig)
      (r : MeshObject * bool) :
  apply_soil_material_system path_exists length normalized obj pid c = Ok r ->
  slots_exist r.
Proof.
  unfold apply_soil_material_system, slots_exist.
  destruct (get_texture_path path_exists c "x");
    destruct (get_texture_path path_exists c "z");
    cbn [option_map]; cbv zeta; slots_or_empty.
Qed.

Lemma minestone_untextured_slots_exist (obj : MeshObject) (pid : Z) (c : ModelConfig)
      (r : MeshObject * bool) :
  get_texture_path path_exists c "x" = None ->
  get_texture_path path_exists c "y" = None ->
  get_texture_path path_exists c "z" = None ->
  apply_minestone_material_system path_exists length normalized obj pid c = Ok r ->
  slots_exist r.
Proof.
  intros Hx Hy Hz.
  unfold apply_minestone_material_system, slots_exist. rewrite Hx, Hy, Hz.
  slots_by_assign.
Qed.

(** X13: in the default, the teamspawn and the soil system, and in the
    minestone system when no face texture resolves, every polygon ends
    with a material index that names a slot of the object, and the object
    has at least one slot. *)
Theorem assigned_slots_exist (obj obj' : MeshObject) (pid : Z) (c : ModelConfig)
        (done : bool) :
  apply_main_model_materials path_exists length normalized obj pid (Some c)
  = Ok (obj', done) ->
  material_system c = default_system \/ material_system c = teamspawn_system \/
  material_system c = soil_system \/
  (material_system c = minestone_system /\
   get_texture_path path_exists c "x" = None /\
   get_texture_path path_exists c "y" = None /\
   get_texture_path path_exists c "z" = None) ->
  Forall (fun p => (material_index p < List.length (materials obj'))%nat) (polygons obj') /\
  (0 < List.length (materials obj'))%nat.
Proof.
  intros H Hsys. rewrite apply_main_start, apply_main_slotless in H.
  change (slots_exist (obj', done)).
  destruct Hsys as [E | [E | [E | (E & Hx & Hy & Hz)]]]; rewrite E in H.
  - eapply default_slots_exist, H.
  - eapply teamspawn_slots_exist, H.
  - eapply soil_slots_exist, H.
  - eapply minestone_untextured_slots_exist; eassumption.
Qed.

Lemma mem_true (i : nat) (l : list nat) : mem i l = true <-> In i l.
Proof.
  unfold mem. rewrite existsb_exists. split.
  - intros (x & Hx & Heq). apply Nat.eqb_eq in Heq. now subst.
  - intros H. exists i. split; [assumption | apply Nat.eqb_refl].
Qed.

(** The face materials of the textures that resolve, in the order X, Y, Z. *)
Definition face_materials (pid : Z) (tx ty tz : option string) : list Material :=
  (match tx with Some t => [create_or_get_face_material pid (Some t) "x"] | None => [] end
   ++ match ty with Some t => [create_or_get_face_material pid (Some t) "y"] | None => [] end
   ++ match tz with Some t => [create_or_get_face_material pid (Some t) "z"] | None => [] end)%list.

(** X14: in the minestone system, as soon as one face texture resolves, the
    object gets the face materials of the resolved textures and no default
    material, and a polygon that is in none of the six directional lists is
    left as [clear()] left it: with the material index 0 when the object
    had material slots before the call, and with the index it had when the
    object had none. *)
Theorem minestone_leaves_unclassified_polygons (obj : MeshObject) (pid : Z)
        (c : ModelConfig) (i : nat) (p : Polygon) :
  material_system c = minestone_system ->
  is_Some (get_texture_path path_exists c "x") \/
  is_Some (get_texture_path path_exists c "y") \/
  is_Some (get_texture_path path_exists c "z") ->
  nth_error (polygons obj) i = Some p ->
  unclassified length normalized obj i ->
  exists obj',
    apply_main_model_materials path_exists length normalized obj pid (Some c)
    = Ok (obj', true) /\
    materials obj'
    = face_materials pid (get_texture_path path_exists c "x")
                     (get_texture_path path_exists c "y")
                     (get_texture_path path_exists c "z") /\
    nth_error (polygons obj') i
    = Some (mkPolygon (normal p)
              (if (0 <? List.length (materials obj))%nat then 0%nat
               else material_index p)).
Proof.
  intros Hsys Hsome Hn Hu.
  apply (start_nth obj) in Hn. apply (start_unclassified length normalized) in Hu.
  destruct (unclassified_mem length normalized _ i Hu) as (M1 & M2 & M3 & M4 & M5 & M6).
  pose proof (nonempty_polygons (mkMeshObject (start_polygons obj) []) i _ Hn) as Hlen.
  cbn [polygons] in Hlen.
  rewrite apply_main_start, apply_main_slotless, Hsys.
  unfold apply_minestone_material_system. cbn [polygons materials].
  destruct (get_texture_path path_exists c "x") as [tx |];
    destruct (get_texture_path path_exists c "y") as [ty |];
    destruct (get_texture_path path_exists c "z") as [tz |].
  8: { destruct Hsome as [[t H] | [[t H] | [t H]]]; discriminate. }
  all: cbn [option_map fst snd]; cbv zeta; rewrite Hlen;
    match goal with
    | |- context [assign ?ch ?pl] =>
        destruct (assign_slot ch pl i (material_index (start_polygon obj p))
                    (start_polygon obj p)) as (ps & Hps & Hnth);
        [ intros j old; cbv beta;
          destruct (mem j _ || mem j _); [eauto |];
          destruct (mem j _ || mem j _); [eauto |];
          destruct (mem j _ || mem j _); eauto
        | assumption
        | cbv beta; rewrite M1, M2, M3, M4, M5, M6; cbn [orb];
          rewrite ?lookup_insert_ne by discriminate; rewrite lookup_empty; reflexivity
        | ]
    end;
    rewrite Hps; simpl Py.bind; eexists; (split; [reflexivity |]);
    cbn [polygons materials]; (split; [reflexivity |]);
    rewrite Hnth; reflexivity.
Qed.

Lemma assign_from_raises (choose : nat -> nat -> result nat) (e : exn) (k : nat)
      (ps : list Polygon) :
  assign_from choose k ps = Raise e <->
  exists i p, nth_error ps i = Some p /\
              choose (k + i)%nat (material_index p) = Raise e /\
              forall j q, (j < i)%nat -> nth_error ps j = Some q ->
                          exists m, choose (k + j)%nat (material_index q) = Ok m.
Proof.
  revert k. induction ps as [| p ps IH]; intros k; simpl.
  - split; [discriminate |]. intros ([| i] & q & H & _); discriminate.
  - destruct (choose k (material_index p)) as [m | e'] eqn:Ec; simpl.
    + destruct (assign_from choose (S k) ps) as [rest | e'] eqn:Er; simpl.
      * split; [discriminate |].
        intros (i & q & Hn & Hc & Hbefore). exfalso.
        destruct i as [| i]; simpl in Hn.
        -- injection Hn as <-. rewrite Nat.add_0_r in Hc. congruence.
        -- assert (Hr : assign_from choose (S k) ps = Raise e).
           { apply IH. exists i, q. split; [exact Hn |]. split.
             - now replace (S k + i)%nat with (k + S i)%nat by lia.
             - intros j r Hj Hr.
               replace (S k + j)%nat with (k + S j)%nat by lia.
               apply (Hbefore (S j) r); [lia | exact Hr]. }
           congruence.
      * split.
        -- intros [= ->]. apply IH in Er. destruct Er as (i & q & Hn & Hc & Hbefore).
           exists (S i), q. split; [exact Hn |]. split.
           ++ now replace (k + S i)%nat with (S k + i)%nat by lia.
           ++ intros [| j] r Hj Hr; simpl in Hr.
              ** injection Hr as <-. rewrite Nat.add_0_r. eauto.
              ** replace (k + S j)%nat with (S k + j)%nat by lia.
                 apply (Hbefore j r); [lia | exact Hr].
        -- intros (i & q & Hn & Hc & Hbefore). f_equal.
           destruct i as [| i]; simpl in Hn.
           ++ injection Hn as <-. rewrite Nat.add_0_r in Hc. congruence.
           ++ assert (Hr : assign_from choose (S k) ps = Raise e).
              { apply IH. exists i, q. split; [exact Hn |]. split.
                - now replace (S k + i)%nat with (k + S i)%nat by lia.
                - intros j r Hj Hr.
                  replace (S k + j)%nat with (k + S j)%nat by lia.
                  apply (Hbefore (S j) r); [lia | exact Hr]. }
              congruence.
    + split.
      * intros [= ->]. exists 0%nat, p. split; [reflexivity |]. split.
        -- now rewrite Nat.add_0_r.
        -- intros j q Hj. lia.
      * intros (i & q & Hn & Hc & Hbefore). f_equal.
        destruct i as [| i]; simpl in Hn.
        -- injection Hn as <-. rewrite Nat.add_0_r in Hc. congruence.
        -- destruct (Hbefore 0%nat p) as [m Hm]; [lia | reflexivity |].
           rewrite Nat.add_0_r in Hm. congruence.
Qed.

(** X15: in the soil system, when the main texture does not resolve but a
    Z texture does, the call raises [KeyError] exactly when the mesh has a
    polygon outside the +Z list: such a polygon asks for the slot of the
    main material and then for the slot of a default material, and neither
    was recorded. *)
Theorem soil_without_main_texture_raises (obj : MeshObject) (pid : Z) (c : ModelConfig)
        (t : string) :
  material_system c = soil_system ->
  get_texture_path path_exists c "x" = None ->
  get_texture_path path_exists c "z" = Some t ->
  (apply_main_model_materials path_exists length normalized obj pid (Some c)
   = Raise KeyError
   <-> exists i p, nth_error (polygons obj) i = Some p /\
                   ~ In i (z_faces (faces_of length normalized obj))).
Proof.
  intros Hsys Hx Hz.
  rewrite apply_main_start, apply_main_slotless, Hsys.
  unfold apply_soil_material_system. cbn [polygons materials].
  rewrite Hx, Hz. cbn [option_map]. cbv zeta.
  rewrite start_faces, start_length.
  destruct (List.length (polygons obj) =? 0)%nat eqn:El.
  - apply no_polygons in El. rewrite El.
    split; [discriminate |]. intros ([| i] & p & H & _); discriminate.
  - match goal with
    | |- (let! ps := assign ?ch ?pl in _) = _ <-> _ =>
        assert (Hch : forall j old,
                   ch j old = if mem j (z_faces (faces_of length normalized obj))
                              then Ok 0%nat else Raise KeyError);
        [| destruct (assign ch pl) as [ps | e] eqn:Ea ]
    end.
    + intros j old. cbv beta.
      rewrite ?lookup_insert_eq, ?lookup_insert_ne, ?lookup_empty by discriminate.
      destruct (mem j (z_faces _)); [reflexivity |].
      destruct (mem j (neg_z_faces _)); reflexivity.
    + simpl. split; [discriminate |].
      intros (i & p & Hn & Hnot). exfalso.
      unfold assign in Ea. apply (start_nth obj) in Hn.
      destruct (assign_from_nth _ _ _ _ _ _ Ea Hn) as (m & Hm & _).
      rewrite (Hch (0 + i)%nat (material_index (start_polygon obj p))) in Hm.
      change (0 + i)%nat with i in Hm.
      apply mem_false in Hnot. rewrite Hnot in Hm. discriminate.
    + simpl. unfold assign in Ea.
      assert (He : e = KeyError).
      { pose proof Ea as Ea'. apply assign_from_raises in Ea'.
        destruct Ea' as (i & p & _ & Hc & _).
        rewrite (Hch (0 + i)%nat (material_index p)) in Hc.
        destruct (mem (0 + i) _); congruence. }
      subst e. split; [intros _ | reflexivity].
      apply assign_from_raises in Ea. destruct Ea as (i & q & Hn & Hc & _).
      destruct (start_nth_inv obj i q Hn) as [p Hp].
      exists i, p. split; [exact Hp |].
      rewrite (Hch (0 + i)%nat (material_index q)) in Hc.
      change (0 + i)%nat with i in Hc.
      intros Hin. apply mem_true in Hin. rewrite Hin in Hc. discriminate.
Qed.

End MaterialSlots.

(** A mesh of two polygons, the first facing +X and the second slanted,
    with the material indices 5 and 9 (normals of length zero are taken
    as they are), and what the stone block of position 3 makes of it. *)
Definition two_polygon_mesh : Materials.MeshObject :=
  Materials.mkMeshObject
    [Materials.mkPolygon (Faces.mkVector 1 0 0) 5;
     Materials.mkPolygon (Faces.mkVector 0.5 0.5 0.5) 9] [].

Definition two_polygon_stone : Materials.MeshObject :=
  Materials.mkMeshObject
    [Materials.mkPolygon (Faces.mkVector 1 0 0) 0;
     Materials.mkPolygon (Faces.mkVector 0.5 0.5 0.5) 9]
    [Materials.mkMaterial "BlockMat_X_3"; Materials.mkMaterial "BlockMat_Y_3";
     Materials.mkMaterial "BlockMat_Z_3"].

Lemma materials_keep_the_mesh_witness :
  map Materials.normal (Materials.polygons two_polygon_stone)
  = map Materials.normal (Materials.polygons two_polygon_mesh) /\
  List.length (Materials.polygons two_polygon_stone)
  = List.length (Materials.polygons two_polygon_mesh) /\
  (true = false ->
   Some stone_config = None \/ Materials.polygons two_polygon_mesh = []).
Proof.
  apply (materials_keep_the_mesh stone_files (fun _ => 0%float) (fun v => v)
           two_polygon_mesh two_polygon_stone 3 (Some stone_config) true).
  vm_compute. reflexivity.
Defined.

(** A position without a mapping record and without files: the default
    system with the default material alone. *)
Definition unmapped_config : Config.ModelConfig :=
  Config.new_ModelConfig (fun _ => false) 5 None "/tex" "/models".

Definition two_polygon_default : Materials.MeshObject :=
  Materials.mkMeshObject
    [Materials.mkPolygon (Faces.mkVector 1 0 0) 0;
     Materials.mkPolygon (Faces.mkVector 0.5 0.5 0.5) 0]
    [Materials.mkMaterial "BlockMat_Default_5"].

Lemma assigned_slots_exist_witness :
  Forall (fun p => (Materials.material_index p
                    < List.length (Materials.materials two_polygon_default))%nat)
         (Materials.polygons two_polygon_default) /\
  (0 < List.length (Materials.materials two_polygon_default))%nat.
Proof.
  apply (assigned_slots_exist (fun _ => false) (fun _ => 0%float) (fun v => v)
           two_polygon_mesh two_polygon_default 5 unmapped_config true).
  - vm_compute. reflexivity.
  - left. reflexivity.
Defined.

Lemma two_polygon_mesh_slanted :
  unclassified (fun _ => 0%float) (fun v => v) two_polygon_mesh 1.
Proof. intros b. destruct b; vm_compute; intuition discriminate. Qed.

(** The same two polygons on an object that comes with a material slot. *)
Definition painted_mesh : Materials.MeshObject :=
  Materials.mkMeshObject
    [Materials.mkPolygon (Faces.mkVector 1 0 0) 5;
     Materials.mkPolygon (Faces.mkVector 0.5 0.5 0.5) 9]
    [Materials.mkMaterial "Paint"].

Lemma painted_mesh_slanted :
  unclassified (fun _ => 0%float) (fun v => v) painted_mesh 1.
Proof. intros b. destruct b; vm_compute; intuition discriminate. Qed.

Lemma minestone_leaves_unclassified_polygons_witness :
  exists obj',
    Materials.apply_main_model_materials stone_files (fun _ => 0%float) (fun v => v)
      painted_mesh 3 (Some stone_config) = Py.Ok (obj', true) /\
    Materials.materials obj'
    = face_materials 3 (Config.get_texture_path stone_files stone_config "x")
                     (Config.get_texture_path stone_files stone_config "y")
                     (Config.get_texture_path stone_files stone_config "z") /\
    nth_error (Materials.polygons obj') 1
    = Some (Materials.mkPolygon (Faces.mkVector 0.5 0.5 0.5) 0).
Proof.
  apply (minestone_leaves_unclassified_polygons stone_files (fun _ => 0%float)
           (fun v => v) painted_mesh 3 stone_config 1
           (Materials.mkPolygon (Faces.mkVector 0.5 0.5 0.5) 9)).
  - reflexivity.
  - left. exists "/tex/3/rock.png". vm_compute. reflexivity.
  - reflexivity.
  - exact painted_mesh_slanted.
Defined.

(** The stone block on an object with and without a slot: with a slot, the
    slanted polygon falls back to index 0; without one, it keeps its 9. *)
Example minestone_on_a_painted_mesh :
  Materials.apply_main_model_materials stone_files (fun _ => 0%float) (fun v => v)
    painted_mesh 3 (Some stone_config)
  = Py.Ok (Materials.mkMeshObject
             [Materials.mkPolygon (Faces.mkVector 1 0 0) 0;
              Materials.mkPolygon (Faces.mkVector 0.5 0.5 0.5) 0]
             [Materials.mkMaterial "BlockMat_X_3"; Materials.mkMaterial "BlockMat_Y_3";
              Materials.mkMaterial "BlockMat_Z_3"], true) /\
  Materials.apply_main_model_materials stone_files (fun _ => 0%float) (fun v => v)
    two_polygon_mesh 3 (Some stone_config)
  = Py.Ok (two_polygon_stone, true).
Proof. split; vm_compute; reflexivity. Qed.

(** A soil block of position 7 whose only texture is [dirt_z.png]. *)
Definition top_only_files (path : string) : bool := String.eqb path "/tex/7/dirt_z.png".

Definition top_only_config : Config.ModelConfig :=
  Config.new_ModelConfig top_only_files 7
    (Some (Mapping.mkMappingRecord 7 "soil" "dirt" "" "" true false false []))
    "/tex" "/models".

Lemma soil_without_main_texture_raises_witness :
  Materials.apply_main_model_materials top_only_files (fun _ => 0%float) (fun v => v)
    two_polygon_mesh 7 (Some top_only_config) = Py.Raise Py.KeyError.
Proof.
  apply (soil_without_main_texture_raises top_only_files (fun _ => 0%float)
           (fun v => v) two_polygon_mesh 7 top_only_config "/tex/7/dirt_z.png").
  - reflexivity.
  - vm_compute. reflexivity.
  - vm_compute. reflexivity.
  - exists 0%nat, (Materials.mkPolygon (Faces.mkVector 1 0 0) 5).
    split; [reflexivity |]. vm_compute. tauto.
Defined.

(** ** Names: materials, blocks and templates *)

Section Names.
Import PyStr Mapping Config Materials SubmodelMaterials Manager Operators.

Lemma pretty_N_char_digit (x : N) : is_digit (pretty_N_char x) = true.
Proof. unfold pretty_N_char. repeat case_match; reflexivity. Qed.

Lemma pretty_N_go_chars (c : ascii) (x : N) (s : string) :
  contains c (pretty_N_go x s) = true -> is_digit c = true \/ contains c s = true.
Proof.
  revert s. induction (N.lt_wf_0 x) as [x _ IH]. intros s.
  assert (x = 0 \/ 0 < x)%N as [-> | Hx] by lia.
  - rewrite pretty_N_go_0. auto.
  - rewrite pretty_N_go_step by assumption. intros H.
    apply IH in H; [| now apply N.div_lt].
    destruct H as [H | H]; [now left |].
    simpl in H. apply orb_true_iff in H. destruct H as [H | H]; [| now right].
    left. apply Ascii.eqb_eq in H. subst c. apply pretty_N_char_digit.
Qed.

(** [str(n)] is made of decimal digits and a minus sign. *)
Lemma str_of_int_chars (c : ascii) (n : Z) :
  contains c (str_of_int n) = true -> is_digit c = true \/ c = "-"%char.
Proof.
  assert (P : forall p : positive,
             contains c (pretty p) = true -> is_digit c = true).
  { intros p. unfold pretty, pretty_positive, pretty, pretty_N.
    case_decide; [discriminate |]. intros Hc.
    apply pretty_N_go_chars in Hc. destruct Hc as [Hc | Hc]; [exact Hc | discriminate]. }
  destruct n as [| p | p].
  - change (Ascii.eqb "0" c || false = true -> is_digit c = true \/ c = "-"%char).
    rewrite orb_false_r. intros H. apply Ascii.eqb_eq in H. subst c. now left.
  - change (contains c (pretty p) = true -> is_digit c = true \/ c = "-"%char).
    intros H. left. exact (P p H).
  - change (Ascii.eqb "-" c || contains c (pretty p) = true
            -> is_digit c = true \/ c = "-"%char).
    intros H. apply orb_true_iff in H. destruct H as [H | H].
    + right. apply Ascii.eqb_eq in H. now subst.
    + left. exact (P p H).
Qed.

Lemma str_of_int_no_underscore (n : Z) : contains "_" (str_of_int n) = false.
Proof.
  destruct (contains "_" (str_of_int n)) eqn:E; [| reflexivity].
  apply str_of_int_chars in E. destruct E as [E | E]; discriminate.
Qed.

Lemma str_of_int_inj (n m : Z) : str_of_int n = str_of_int m -> n = m.
Proof. apply pretty_Z_inj. Qed.

Lemma app_inv_prefix (p a b : string) : p ++ a = p ++ b -> a = b.
Proof.
  induction p as [| c p IH]; [auto |].
  change (String c (p ++ a) = String c (p ++ b) -> a = b).
  intros [= H]. auto.
Qed.

(** A text is cut uniquely at its first underscore. *)
Lemma first_underscore (a b x y : string) :
  contains "_" a = false -> contains "_" b = false ->
  a ++ "_" ++ x = b ++ "_" ++ y -> a = b /\ x = y.
Proof.
  revert b. induction a as [| c a IH]; intros [| d b] Ha Hb.
  - change (String "_" x = String "_" y -> "" = "" /\ x = y). intros [= ->]. auto.
  - change (String "_" x = String d (b ++ "_" ++ y) -> "" = String d b /\ x = y).
    intros [= <- _]. simpl in Hb. discriminate.
  - change (String c (a ++ "_" ++ x) = String "_" y -> String c a = "" /\ x = y).
    intros [= -> _]. simpl in Ha. discriminate.
  - change (String c (a ++ "_" ++ x) = String d (b ++ "_" ++ y)
            -> String c a = String d b /\ x = y).
    intros [= -> H]. simpl in Ha, Hb.
    apply orb_false_iff in Ha, Hb.
    destruct (IH b (proj2 Ha) (proj2 Hb) H) as [-> ->]. auto.
Qed.

(** A text is cut uniquely at its last underscore. *)
Lemma last_underscore (a b x y : string) :
  contains "_" x = false -> contains "_" y = false ->
  a ++ "_" ++ x = b ++ "_" ++ y -> a = b /\ x = y.
Proof.
  intros Hx Hy. revert b. induction a as [| c a IH]; intros [| d b].
  - change (String "_" x = String "_" y -> "" = "" /\ x = y). intros [= ->]. auto.
  - change (String "_" x = String d (b ++ "_" ++ y) -> "" = String d b /\ x = y).
    intros [= _ ->]. rewrite contains_app in Hx. simpl in Hx.
    rewrite orb_true_r in Hx. discriminate.
  - change (String c (a ++ "_" ++ x) = String "_" y -> String c a = "" /\ x = y).
    intros [= _ <-]. rewrite contains_app in Hy. simpl in Hy.
    rewrite orb_true_r in Hy. discriminate.
  - change (String c (a ++ "_" ++ x) = String d (b ++ "_" ++ y)
            -> String c a = String d b /\ x = y).
    intros [= -> H]. destruct (IH b H) as [-> ->]. auto.
Qed.

(** [s.upper()] holds no lower-case letter. *)
Lemma upper_char_not_lower (c d : ascii) :
  (97 <=? nat_of_ascii d)%nat && (nat_of_ascii d <=? 122)%nat = true ->
  upper_char c <> d.
Proof.
  intros H E. subst d.
  destruct c as [[] [] [] [] [] [] [] []]; vm_compute in H; discriminate H.
Qed.

Lemma upper_second_char (s : string) (c1 c2 : ascii) (rest : string) :
  (97 <=? nat_of_ascii c2)%nat && (nat_of_ascii c2 <=? 122)%nat = true ->
  upper s <> String c1 (String c2 rest).
Proof.
  intros H. destruct s as [| a [| b s]]; simpl; try discriminate.
  intros [= _ E _]. exact (upper_char_not_lower b c2 H E).
Qed.

(** X16: the names of materials tell the materials apart: the name of a
    face material determines the position id and the face type up to case,
    the names of the default, the teamspawn and the unified material
    determine the position id, and names of different kinds never coincide;
    these are the names under which [create_or_get_face_material],
    [create_or_get_default_material] and [create_or_get_teamspawn_material]
    cache their materials. *)
Theorem material_names_tell_materials_apart :
  (forall (pid pid' : Z) (face_type face_type' : string),
      get_material_name_for_face pid face_type
      = get_material_name_for_face pid' face_type'
      <-> pid = pid' /\ upper face_type = upper face_type') /\
  (forall pid pid' : Z,
      (get_default_material_name pid = get_default_material_name pid' -> pid = pid') /\
      (get_teamspawn_material_name pid = get_teamspawn_material_name pid' -> pid = pid') /\
      (get_unified_material_name pid = get_unified_material_name pid' -> pid = pid')) /\
  (forall (pid pid' : Z) (face_type : string),
      get_material_name_for_face pid face_type <> get_default_material_name pid' /\
      get_material_name_for_face pid face_type <> get_teamspawn_material_name pid' /\
      get_material_name_for_face pid face_type <> get_unified_material_name pid' /\
      get_default_material_name pid <> get_teamspawn_material_name pid' /\
      get_default_material_name pid <> get_unified_material_name pid' /\
      get_teamspawn_material_name pid <> get_unified_material_name pid') /\
  (forall (pid : Z) (texture : option string) (path face_type : string),
      mat_name (create_or_get_face_material pid texture face_type)
      = get_material_name_for_face pid face_type /\
      mat_name (create_or_get_default_material pid) = get_default_material_name pid /\
      mat_name (create_or_get_teamspawn_material pid path)
      = get_teamspawn_material_name pid).
Proof.
  split; [| split; [| split]].
  - intros pid pid' ft ft'. unfold get_material_name_for_face. split.
    + intros H. apply app_inv_prefix in H.
      apply last_underscore in H; try apply str_of_int_no_underscore.
      destruct H as [H1 H2]. apply str_of_int_inj in H2. auto.
    + intros [-> ->]. reflexivity.
  - intros pid pid'.
    unfold get_default_material_name, get_teamspawn_material_name,
      get_unified_material_name.
    repeat split; intros H; apply app_inv_prefix in H; now apply str_of_int_inj.
  - intros pid pid' ft.
    unfold get_material_name_for_face, get_default_material_name,
      get_teamspawn_material_name, get_unified_material_name.
    repeat split; intros H.
    + change ("BlockMat_Default_" ++ str_of_int pid')
        with ("BlockMat_" ++ "Default" ++ "_" ++ str_of_int pid') in H.
      apply app_inv_prefix in H.
      apply last_underscore in H; try apply str_of_int_no_underscore.
      destruct H as [H _]. revert H. now apply upper_second_char.
    + change ("BlockMat_Teamspawn_" ++ str_of_int pid')
        with ("BlockMat_" ++ "Teamspawn" ++ "_" ++ str_of_int pid') in H.
      apply app_inv_prefix in H.
      apply last_underscore in H; try apply str_of_int_no_underscore.
      destruct H as [H _]. revert H. now apply upper_second_char.
    + change ("BlockMat_Unified_" ++ str_of_int pid')
        with ("BlockMat_" ++ "Unified" ++ "_" ++ str_of_int pid') in H.
      apply app_inv_prefix in H.
      apply last_underscore in H; try apply str_of_int_no_underscore.
      destruct H as [H _]. revert H. now apply upper_second_char.
    + discriminate H.
    + discriminate H.
    + discriminate H.
  - intros pid texture path ft. repeat split.
Qed.

Lemma prefix_app (p s : string) : String.prefix p (p ++ s) = true.
Proof.
  induction p as [| c p IH]; [destruct s; reflexivity |].
  change (String.prefix (String c p) (String c (p ++ s)) = true).
  simpl. destruct (ascii_dec c c); [exact IH | congruence].
Qed.

Lemma prefix_split (p s : string) :
  String.prefix p s = true -> exists rest, s = p ++ rest.
Proof.
  revert s. induction p as [| c p IH]; intros s H.
  - exists s. reflexivity.
  - destruct s as [| d s]; [discriminate |]. simpl in H.
    destruct (ascii_dec c d) as [<- |]; [| discriminate].
    destruct (IH s H) as [rest ->]. exists rest. reflexivity.
Qed.

(** X17: the name of a placed block determines its position id and its
    three grid coordinates; [clear_all_blocks] selects every object with
    such a name and no object named like a template, a main model or a
    submodel of a template; the template sweep selects those and no placed
    block; no object is selected by both; and the second half of the test
    of [clear_all_blocks] never decides, a name that starts with [Block_]
    not starting with [BlockTemplate_]. *)
Theorem block_and_template_names :
  (forall pid x y z pid' x' y' z' : Z,
      block_name pid x y z = block_name pid' x' y' z' ->
      pid = pid' /\ x = x' /\ y = y' /\ z = z') /\
  (forall pid x y z : Z,
      is_block (block_name pid x y z) = true /\
      is_template_object (block_name pid x y z) = false) /\
  (forall (pid : Z) (name : string),
      In name ["BlockTemplate_" ++ str_of_int pid; "BlockMain_" ++ str_of_int pid;
               "BlockSub_" ++ str_of_int pid] ->
      is_template_object name = true /\ is_block name = false) /\
  (forall name : string, is_block name = String.prefix "Block_" name) /\
  (forall name : string, is_block name && is_template_object name = false) /\
  (forall (objects : list string) (name : string),
      In name (blocks_to_remove objects) -> ~ In name (templates_to_remove objects)).
Proof.
  assert (Hred : forall name, is_block name = String.prefix "Block_" name).
  { intros name. unfold is_block.
    destruct (String.prefix "Block_" name) eqn:E; [| reflexivity].
    apply prefix_split in E. destruct E as [rest ->]. reflexivity. }
  assert (Hdisj : forall name, is_block name && is_template_object name = false).
  { intros name. rewrite Hred. unfold is_template_object.
    destruct (String.prefix "Block_" name) eqn:E; [| reflexivity].
    apply prefix_split in E. destruct E as [rest ->]. reflexivity. }
  split; [| split; [| split; [| split; [| split]]]].
  - intros pid x y z pid' x' y' z'. unfold block_name. intros H.
    apply app_inv_prefix in H.
    apply first_underscore in H; try apply str_of_int_no_underscore.
    destruct H as [H1 H].
    apply first_underscore in H; try apply str_of_int_no_underscore.
    destruct H as [H2 H].
    apply first_underscore in H; try apply str_of_int_no_underscore.
    destruct H as [H3 H4].
    apply str_of_int_inj in H1, H2, H3, H4. auto.
  - intros pid x y z.
    assert (Hb : is_block (block_name pid x y z) = true).
    { rewrite Hred. unfold block_name. apply prefix_app. }
    split; [exact Hb |].
    pose proof (Hdisj (block_name pid x y z)) as Hd. rewrite Hb in Hd. exact Hd.
  - intros pid name H. simpl in H.
    destruct H as [<- | [<- | [<- | []]]];
      (split; [unfold is_template_object; rewrite prefix_app; reflexivity
              | rewrite Hred; reflexivity]).
  - exact Hred.
  - exact Hdisj.
  - intros objects name H Ht. unfold blocks_to_remove, templates_to_remove in *.
    apply filter_In in H, Ht. destruct H as [_ H]. destruct Ht as [_ Ht].
    pose proof (Hdisj name) as Hd. rewrite H, Ht in Hd. discriminate.
Qed.

End Names.

(** ** The material of the submodel *)

Section SubmodelMaterial.
Import PyStr Mapping Config SubmodelTextures Materials SubmodelMaterials.
Variable path_exists : string -> bool.

Lemma emission_texture_found (c : ModelConfig) (e : string) :
  get_submodel_emission_texture_path path_exists c = Some e ->
  truthy e = true /\ path_exists e = true.
Proof.
  unfold get_submodel_emission_texture_path.
  destruct (negb (truthy (cfg_submodel_name c)) || String.eqb (cfg_blocktype c) "teamspawn");
    [discriminate |].
  intros H. apply first_existing_exists in H. destruct H as [Hin Hex].
  split; [| exact Hex].
  unfold truthy. apply negb_true_iff, String.eqb_neq.
  unfold path_join in Hin. simpl in Hin.
  repeat (destruct Hin as [<- | Hin];
          [apply join2_nonempty, app_nonempty_r; discriminate |]).
  destruct Hin.
Qed.

(** X18: [apply_submodel_materials] leaves the object with exactly one
    material slot, which every polygon uses, and keeps the normals; the
    material is the default material of the id when the mapping record
    names no submodel or is of blocktype teamspawn, and otherwise the
    submodel material that the manager caches under the name
    [BlockMat_Sub_{id}_{name}], with the ending [_emi] exactly when the
    cached configuration finds an emission texture. *)
Theorem submodel_gets_one_material (manager_mapping : option MappingRecord)
        (model_config : option ModelConfig) (obj : MeshObject) (pid : Z)
        (mapping_data : option MappingRecord) :
  let r := apply_submodel_materials path_exists manager_mapping model_config obj pid
             mapping_data in
  let name := from_option Mapping.submodel_name "" mapping_data in
  let found :=
    match model_config with
    | Some c =>
        match get_submodel_emission_texture_path path_exists c with
        | Some _ => true
        | None => false
        end
    | None => false
    end in
  snd r = true /\
  map normal (polygons (fst r)) = map normal (polygons obj) /\
  Forall (fun p => material_index p = 0%nat) (polygons (fst r)) /\
  materials (fst r)
  = [if truthy name && negb (String.eqb (from_option blocktype "" mapping_data) "teamspawn")
     then mkMaterial (get_material_name_for_submodel pid name found)
     else create_or_get_default_material pid].
Proof.
  intros r name found. subst r name found. unfold apply_submodel_materials.
  assert (Hn : map normal (map (fun p => mkPolygon (normal p) 0) (polygons obj))
               = map normal (polygons obj)).
  { rewrite map_map. reflexivity. }
  assert (Hz : Forall (fun p => material_index p = 0%nat)
                      (map (fun p => mkPolygon (normal p) 0) (polygons obj))).
  { apply List.Forall_forall. intros p Hp. apply in_map_iff in Hp.
    destruct Hp as (q & <- & _). reflexivity. }
  destruct (truthy (from_option Mapping.submodel_name "" mapping_data)) eqn:Et;
    [| cbn [andb fst snd polygons materials]; auto].
  destruct (negb (String.eqb (from_option blocktype "" mapping_data) "teamspawn"));
    cbn [andb fst snd polygons materials]; [| auto].
  repeat split; try assumption.
  unfold create_or_get_submodel_material. rewrite Et. cbn [negb].
  destruct model_config as [c |]; [| reflexivity].
  destruct (get_submodel_emission_texture_path path_exists c) as [e |] eqn:Ee;
    [| reflexivity].
  apply emission_texture_found in Ee. destruct Ee as [-> ->]. reflexivity.
Qed.

End SubmodelMaterial.

(** ** What a build and a placement touch *)

Section BuildsAndPlacements.
Import PyStr Mapping Config Py Placement Manager.

Variable path_exists : string -> bool.
Variable Blender : Type.
Variable Obj : Type.
Variable load_and_setup_model :
  Blender -> string -> string -> Z -> option ModelConfig -> bool -> option Obj * Blender.
Variable hide : Blender -> Obj -> Blender.
Variable new_template_container :
  Blender -> string -> option Obj -> option Obj -> Obj * Blender.
Variable find_object : Blender -> string -> option Obj.
Variable children : Blender -> Obj -> list Obj.
Variable block_size : Blender -> Obj -> option (float * float * float).
Variable calculate_model_dimensions : Blender -> Obj -> float * float * float * float.
Variable adjacent_mode : Blender -> bool.
Variable duplicate_and_place :
  Blender -> Obj -> string -> float * float * float -> Euler ->
  Z * Z * Z * Z * string -> option Obj * Blender.

Local Abbreviation build :=
  (create_template_for_position_id path_exists Blender Obj
     load_and_setup_model hide new_template_container).
Local Abbreviation place :=
  (create_block_from_template Blender Obj find_object children block_size
     calculate_model_dimensions adjacent_mode duplicate_and_place).

(** What a build may change in the manager: the template and the
    configuration of its own id. *)
Definition local_to (pid : Z) (m m' : BlockModelManager Obj) : Prop :=
  mapping_table Obj m' = mapping_table Obj m /\
  mapping_file_path Obj m' = mapping_file_path Obj m /\
  (forall other, other <> pid ->
                 templates Obj m' !! other = templates Obj m !! other /\
                 model_configs Obj m' !! other = model_configs Obj m !! other).

Lemma local_to_refl (pid : Z) (m : BlockModelManager Obj) : local_to pid m m.
Proof. repeat split. Qed.

Lemma local_to_config (pid : Z) (m : BlockModelManager Obj) (c : ModelConfig) :
  local_to pid m (set_model_config Obj m pid c).
Proof.
  repeat split. simpl. now rewrite lookup_insert_ne by congruence.
Qed.

Lemma local_to_template (pid : Z) (m : BlockModelManager Obj) (c : ModelConfig) (t : Obj) :
  local_to pid m (set_template Obj (set_model_config Obj m pid c) pid t).
Proof.
  repeat split; simpl; now rewrite lookup_insert_ne by congruence.
Qed.

(** X19: a call of [create_template_for_position_id] touches the caches of
    its own position id only: the mapping table and its path, and the
    templates and configurations of every other id, are as before; the
    template it returns is exactly what the template cache holds for the id
    afterwards ([None] for none); and a template that was cached stays
    cached. *)
Theorem template_build_is_local (w : World Blender Obj) (pid : Z) (tex models : string) :
  let r := build w pid tex models in
  let m := manager Blender Obj w in
  let m' := manager Blender Obj (snd r) in
  mapping_table Obj m' = mapping_table Obj m /\
  mapping_file_path Obj m' = mapping_file_path Obj m /\
  (forall other, other <> pid ->
                 templates Obj m' !! other = templates Obj m !! other /\
                 model_configs Obj m' !! other = model_configs Obj m !! other) /\
  fst r = templates Obj m' !! pid /\
  (forall t, templates Obj m !! pid = Some t -> templates Obj m' !! pid = Some t).
Proof.
  intros r m m'.
  assert (K : local_to pid m m' /\ fst r = templates Obj m' !! pid /\
              (forall t, templates Obj m !! pid = Some t ->
                         templates Obj m' !! pid = Some t)).
  { subst r m m'. unfold create_template_for_position_id.
    destruct (has_template_for_id Obj (manager Blender Obj w) pid) eqn:Eh.
    - cbn [fst snd]. split; [apply local_to_refl |]. split; [reflexivity | auto].
    - assert (Hnone : templates Obj (manager Blender Obj w) !! pid = None).
      { unfold has_template_for_id in Eh. apply bool_decide_eq_false in Eh.
        destruct (templates Obj (manager Blender Obj w) !! pid); [| reflexivity].
        exfalso. apply Eh. eauto. }
      repeat match goal with
             | |- context [let '(_, _) := ?e in _] => destruct e
             | |- context [if ?b then _ else _] => destruct b
             end;
        repeat match goal with
               | |- context [match ?o with Some _ => _ | None => _ end] => destruct o
               end;
        cbn [fst snd manager];
        (split; [first [apply local_to_template | apply local_to_config] |]);
        (split; [simpl; rewrite ?lookup_insert_eq; congruence
                | intros t Ht; congruence]). }
  destruct K as ((K1 & K2 & K3) & K4 & K5). auto.
Qed.

(** X20: a position id that has no template and no mapping record (no
    table, an empty table, or no entry) gets no template, whatever files
    exist: no model is loaded, the host's data are untouched, and the only
    change is the default configuration cached under the id. *)
Theorem unmapped_id_builds_nothing (w : World Blender Obj) (pid : Z) (tex models : string) :
  templates Obj (manager Blender Obj w) !! pid = None ->
  get_mapping_for_id Obj (manager Blender Obj w) pid = None ->
  let c := new_ModelConfig path_exists pid None tex models in
  build w pid tex models
  = (None, mkWorld Blender Obj (set_model_config Obj (manager Blender Obj w) pid c)
                   (blender Blender Obj w)) /\
  material_system c = default_system /\
  need_main_model c = false /\
  submodel_path c = None.
Proof.
  intros Ht Hm c. split; [| repeat split].
  unfold create_template_for_position_id.
  assert (Eh : has_template_for_id Obj (manager Blender Obj w) pid = false).
  { unfold has_template_for_id. apply bool_decide_eq_false. rewrite Ht.
    intros [x Hx]. discriminate. }
  rewrite Eh, Hm. reflexivity.
Qed.

(** X21: no template is made without a model: when the id had no template,
    a call that returns one found the main model or the submodel wanted and
    on disk; and when the main model is wanted and on disk and its import
    succeeds, the call returns a template, which is then cached under the
    id together with the configuration that was resolved. *)
Theorem template_needs_a_model (w : World Blender Obj) (pid : Z) (tex models : string) :
  templates Obj (manager Blender Obj w) !! pid = None ->
  let c := new_ModelConfig path_exists pid
             (get_mapping_for_id Obj (manager Blender Obj w) pid) tex models in
  (forall t w', build w pid tex models = (Some t, w') ->
                has_main_model path_exists c = true \/ has_submodel path_exists c = true) /\
  (has_main_model path_exists c = true ->
   forall main,
     fst (load_and_setup_model (blender Blender Obj w) (main_model_path c)
            ("BlockMain_" ++ str_of_int pid) pid (Some c) true) = Some main ->
     exists t w',
       build w pid tex models = (Some t, w') /\
       templates Obj (manager Blender Obj w') !! pid = Some t /\
       model_configs Obj (manager Blender Obj w') !! pid = Some c).
Proof.
  intros Ht c.
  assert (Eh : has_template_for_id Obj (manager Blender Obj w) pid = false).
  { unfold has_template_for_id. apply bool_decide_eq_false. rewrite Ht.
    intros [x Hx]. discriminate. }
  assert (Hcfg : get_model_config Obj (set_model_config Obj (manager Blender Obj w) pid c) pid
                 = Some c).
  { unfold get_model_config. simpl. apply lookup_insert_eq. }
  split.
  - intros t w'. unfold create_template_for_position_id. rewrite Eh. fold c.
    destruct (has_main_model path_exists c); [auto |].
    destruct (has_submodel path_exists c); [auto |].
    discriminate.
  - intros Hmain main Hload. unfold create_template_for_position_id.
    rewrite Eh. fold c. rewrite Hmain, Hcfg.
    destruct (load_and_setup_model (blender Blender Obj w) (main_model_path c)
                ("BlockMain_" ++ str_of_int pid) pid (Some c) true) as [o b] eqn:El.
    simpl in Hload. subst o. cbn [from_option].
    repeat match goal with
           | |- context [let '(_, _) := ?e in _] => destruct e
           | |- context [if ?b then _ else _] => destruct b
           end;
      repeat match goal with
             | |- context [match ?o with Some _ => _ | None => _ end] => destruct o
             end;
      eexists; eexists; (split; [reflexivity |]); simpl;
      rewrite ?lookup_insert_eq; auto.
Qed.

(** X22: [create_block_from_template] never changes the manager; without
    an object of the block's name it returns nothing and leaves the world
    as it is when the id has no template or the template has no children;
    and the only exception that leaves it is the [OverflowError] of a grid
    coordinate too large for a float. *)
Theorem block_placement_outcomes (w : World Blender Obj) (pid x y z : Z)
        (base_block_size : float) (direction_mode : string) (use_model_center : bool) :
  let r := place w pid x y z base_block_size direction_mode use_model_center in
  (forall o w', r = Ok (o, w') -> manager Blender Obj w' = manager Blender Obj w) /\
  (find_object (blender Blender Obj w) (block_name pid x y z) = None ->
   (templates Obj (manager Blender Obj w) !! pid = None \/
    exists t, templates Obj (manager Blender Obj w) !! pid = Some t /\
              children (blender Blender Obj w) t = []) ->
   r = Ok (None, w)) /\
  (forall e, r = Raise e ->
             e = OverflowError /\
             (float_of_int x = Raise OverflowError \/
              float_of_int y = Raise OverflowError \/
              float_of_int z = Raise OverflowError)).
Proof.
  intros r. subst r. unfold create_block_from_template.
  split; [| split].
  - intros o w'.
    destruct (find_object _ _); [now intros [= <- <-] |].
    unfold get_template.
    destruct (templates Obj (manager Blender Obj w) !! pid) as [t |];
      [| now intros [= <- <-]].
    destruct (children _ t) as [| child rest]; [now intros [= <- <-] |].
    destruct (match block_size _ child with Some s => s | None => _ end)
      as [[sx sy] sz].
    destruct (get_world_coordinate_for_model _ _ _ _ _ _ _ _) as [world |];
      [| discriminate].
    simpl. destruct (duplicate_and_place _ _ _ _ _ _). now intros [= <- <-].
  - intros Hf Hcase. rewrite Hf. unfold get_template.
    destruct Hcase as [-> | (t & -> & ->)]; reflexivity.
  - intros e.
    destruct (find_object _ _); [discriminate |].
    unfold get_template.
    destruct (templates Obj (manager Blender Obj w) !! pid) as [t |]; [| discriminate].
    destruct (children _ t) as [| child rest]; [discriminate |].
    destruct (match block_size _ child with Some s => s | None => _ end)
      as [[sx sy] sz].
    unfold get_world_coordinate_for_model.
    assert (F : forall n e', float_of_int n = Raise e' -> e' = OverflowError).
    { intros n e'. unfold float_of_int.
      destruct (binary_normalize prec emax n 0 false); congruence. }
    destruct (float_of_int x) as [fx | ex] eqn:Ex;
      [| simpl; intros [= <-]; rewrite (F _ _ Ex); auto].
    destruct (float_of_int y) as [fy | ey] eqn:Ey;
      [| simpl; intros [= <-]; rewrite (F _ _ Ey); auto].
    destruct (float_of_int z) as [fz | ez] eqn:Ez;
      [| simpl; intros [= <-]; rewrite (F _ _ Ez); auto].
    simpl. destruct (adjacent_mode _); simpl;
      destruct (duplicate_and_place _ _ _ _ _ _); discriminate.
Qed.

End BuildsAndPlacements.

(** A host that only records the files it imports: its state is the list
    of the imported paths, an object is the name it was given, and every
    import succeeds. *)
Definition recording_load (b : list string) (model_path model_name : string) (pid : Z)
           (cfg : option Config.ModelConfig) (is_main_model : bool)
  : option string * list string :=
  (Some model_name, model_path :: b).

Definition recording_build (path_exists : string -> bool) :=
  Manager.create_template_for_position_id path_exists (list string) string
    recording_load (fun b _ => b) (fun b name _ _ => (name, b)).

Definition fresh_world (table : option (gmap Z Mapping.MappingRecord))
  : Manager.World (list string) string :=
  Manager.mkWorld (list string) string (Manager.mkManager string ∅ ∅ table None) [].

Definition stone_table : gmap Z Mapping.MappingRecord := {[ 3 := stone_record ]}.

Lemma unmapped_id_builds_nothing_witness :
  recording_build (fun _ => true) (fresh_world (Some stone_table)) 4 "/tex" "/models"
  = (None,
     Manager.mkWorld (list string) string
       (Manager.set_model_config string
          (Manager.manager (list string) string (fresh_world (Some stone_table))) 4
          (Config.new_ModelConfig (fun _ => true) 4 None "/tex" "/models"))
       []).
Proof.
  refine (proj1 (unmapped_id_builds_nothing (fun _ => true) (list string) string
                   recording_load (fun b _ => b) (fun b name _ _ => (name, b))
                   (fresh_world (Some stone_table)) 4 "/tex" "/models" _ _)).
  - reflexivity.
  - vm_compute. reflexivity.
Defined.

Lemma template_needs_a_model_witness :
  exists t w',
    recording_build (fun _ => true) (fresh_world (Some stone_table)) 3 "/tex" "/models"
    = (Some t, w') /\
    Manager.templates string (Manager.manager (list string) string w') !! 3 = Some t /\
    Manager.model_configs string (Manager.manager (list string) string w') !! 3
    = Some (Config.new_ModelConfig (fun _ => true) 3
              (Manager.get_mapping_for_id string
                 (Manager.manager (list string) string (fresh_world (Some stone_table))) 3)
              "/tex" "/models").
Proof.
  refine (proj2 (template_needs_a_model (fun _ => true) (list string) string
                   recording_load (fun b _ => b) (fun b name _ _ => (name, b))
                   (fresh_world (Some stone_table)) 3 "/tex" "/models" _)
                _ "BlockMain_3" _).
  - reflexivity.
  - vm_compute. reflexivity.
  - reflexivity.
Defined.

(** ** The mapping table in the manager *)

Section MappingLookups.
Import PyStr Mapping Config Py Placement Manager MappingCache.

Variable path_exists : string -> bool.
Variable read_file : string -> option string.
Variable Blender : Type.
Variable Obj : Type.
Variable load_and_setup_model :
  Blender -> string -> string -> Z -> option ModelConfig -> bool -> option Obj * Blender.
Variable hide : Blender -> Obj -> Blender.
Variable new_template_container :
  Blender -> string -> option Obj -> option Obj -> Obj * Blender.

Local Abbreviation build :=
  (create_template_for_position_id path_exists Blender Obj
     load_and_setup_model hide new_template_container).

Lemma lookup_through_guard (m : BlockModelManager Obj) (pid : Z) :
  get_mapping_for_id Obj m pid
  = match mapping_table Obj m with
    | Some table => table !! pid
    | None => None
    end.
Proof.
  unfold get_mapping_for_id. destruct (mapping_table Obj m) as [table |]; [| reflexivity].
  case_bool_decide as E; [| reflexivity]. subst table. now rewrite lookup_empty.
Qed.

(** X23: the truth tests on the table in [get_mapping_for_id] and
    [get_mapping_count] hide nothing: a lookup is the lookup in the table
    and the count is its size; after [set_mapping_table] a lookup gives the
    record that the parser made for the id from the file at the path;
    loading a table leaves the cached templates and configurations, so
    that an id with a cached template still gets that template and not one
    of the new table; and [reload_mapping_table] does nothing and returns
    [False] for an empty path or a path that does not exist. *)
Theorem mapping_lookups_follow_the_table :
  (forall (m : BlockModelManager Obj) (pid : Z),
      get_mapping_for_id Obj m pid
      = match mapping_table Obj m with Some table => table !! pid | None => None end) /\
  (forall m : BlockModelManager Obj,
      get_mapping_count Obj m
      = match mapping_table Obj m with Some table => size table | None => 0%nat end) /\
  (forall (m : BlockModelManager Obj) (path : string) (pid : Z),
      get_mapping_for_id Obj (set_mapping_table Obj read_file m path) pid
      = parse_mapping_table (read_file path) !! pid) /\
  (forall (w : World Blender Obj) (path : string) (pid : Z) (tex models : string) (t : Obj),
      templates Obj (manager Blender Obj w) !! pid = Some t ->
      let w' := mkWorld Blender Obj (set_mapping_table Obj read_file (manager Blender Obj w) path)
                        (blender Blender Obj w) in
      build w' pid tex models = (Some t, w')) /\
  (forall (m : BlockModelManager Obj) (path : string),
      path = "" \/ path_exists path = false ->
      reload_mapping_table Obj path_exists read_file m path = (m, false)) /\
  (forall (m : BlockModelManager Obj) (path : string),
      path <> "" -> path_exists path = true ->
      reload_mapping_table Obj path_exists read_file m path
      = (set_mapping_table Obj read_file m path, true)).
Proof.
  split; [exact lookup_through_guard |]. split; [| split; [| split; [| split]]].
  - intros m. unfold get_mapping_count.
    destruct (mapping_table Obj m) as [table |]; [| reflexivity].
    case_bool_decide as E; [| reflexivity]. subst table. symmetry. apply map_size_empty.
  - intros m path pid. now rewrite lookup_through_guard.
  - intros w path pid tex models t Ht w'. subst w'.
    unfold create_template_for_position_id. cbn [manager].
    assert (Eh : has_template_for_id Obj
                   (set_mapping_table Obj read_file (manager Blender Obj w) path) pid = true).
    { unfold has_template_for_id. apply bool_decide_eq_true. cbn [templates set_mapping_table].
      rewrite Ht. eauto. }
    rewrite Eh. unfold get_template. cbn [templates set_mapping_table]. now rewrite Ht.
  - intros m path [-> | H]; unfold reload_mapping_table; [reflexivity |].
    rewrite H. now rewrite andb_false_r.
  - intros m path Hne Hex. unfold reload_mapping_table, truthy.
    apply String.eqb_neq in Hne. now rewrite Hne, Hex.
Qed.

End MappingLookups.

(** ** The coordinate parser: the whole text *)

Section CoordinateText.
Import PyStr Py Coord.

(** The placements of the lines that give one, in the order of the lines. *)
Definition placements (lines : list string) : list Coordinate :=
  flat_map (fun line => match Coord.parse_line line with
                        | Ok (Some c) => [c]
                        | _ => []
                        end) lines.

Lemma parse_lines_placements (lines : list string) (acc : list Coordinate) :
  (forall line, In line lines -> Coord.parse_line line <> Raise OverflowError) ->
  parse_lines lines acc = Ok (acc ++ placements lines)%list.
Proof.
  revert acc. induction lines as [| line rest IH]; intros acc H; simpl.
  - now rewrite app_nil_r.
  - destruct (Coord.parse_line line) as [o | e] eqn:E.
    + simpl. rewrite IH by (intros l Hl; apply H; now right).
      destruct o as [c |]; [now rewrite <- app_assoc | reflexivity].
    + exfalso. apply (H line (or_introl eq_refl)).
      rewrite E. f_equal. now apply (parse_line_raises line).
Qed.

Lemma placements_length (lines : list string) :
  (List.length (placements lines) <= List.length lines)%nat.
Proof.
  induction lines as [| line rest IH]; simpl; [lia |].
  rewrite length_app.
  destruct (Coord.parse_line line) as [[c |] | e]; simpl; lia.
Qed.

(** X24: [parse_coordinate_string] returns the placements of its lines, in
    the order of the lines and at most one for a line, when no line raises
    out of its handler; as soon as one line does, the whole call raises and
    the placements of the other lines are lost; the exception can only be
    [OverflowError]. *)
Theorem placements_follow_the_lines (coord_str : string) :
  let lines := split "010" (strip coord_str) in
  ((forall line, In line lines -> Coord.parse_line line <> Raise OverflowError) ->
   parse_coordinate_string coord_str = Ok (placements lines)) /\
  ((exists line, In line lines /\ Coord.parse_line line = Raise OverflowError) ->
   parse_coordinate_string coord_str = Raise OverflowError) /\
  (forall e, parse_coordinate_string coord_str = Raise e -> e = OverflowError) /\
  (forall cs, parse_coordinate_string coord_str = Ok cs ->
              cs = placements lines /\ (List.length cs <= List.length lines)%nat).
Proof.
  intros lines. unfold parse_coordinate_string. fold lines.
  assert (D : (forall line, In line lines -> Coord.parse_line line <> Raise OverflowError) \/
              exists line, In line lines /\ Coord.parse_line line = Raise OverflowError).
  { clear. induction lines as [| l rest IH]; [left; intros line [] |].
    destruct (Coord.parse_line l) as [o | e] eqn:E.
    - destruct IH as [IH | (line & Hin & Hr)].
      + left. intros line [<- | Hin]; [congruence | now apply IH].
      + right. exists line. split; [now right | exact Hr].
    - right. exists l. split; [now left |]. rewrite E. f_equal.
      now apply (parse_line_raises l). }
  split; [| split; [| split]].
  - intros H. now rewrite parse_lines_placements.
  - intros (line & Hin & Hr). now apply parse_lines_raise with (line := line).
  - intros e. destruct D as [H | (line & Hin & Hr)].
    + rewrite parse_lines_placements by assumption. discriminate.
    + rewrite (parse_lines_raise lines [] line Hin Hr). now intros [= <-].
  - intros cs. destruct D as [H | (line & Hin & Hr)].
    + rewrite parse_lines_placements by assumption. intros [= <-].
      split; [reflexivity | apply placements_length].
    + rewrite (parse_lines_raise lines [] line Hin Hr). discriminate.
Qed.

(** X25: a line raises out of its handler exactly when it is neither blank
    nor a comment, is cut into three fields, or into four of which the last
    reads as an integer, its first three fields read as floats, and the
    first of these that is not finite is an infinity (a NaN before it makes
    [round] raise [ValueError], and the line is skipped). *)
Theorem infinite_coordinate_raises (line : string) :
  Coord.parse_line line = Raise OverflowError <->
  strip line <> "" /\ startswith "#" (strip line) = false /\
  exists parts fx fy fz,
    fields_of (strip line) = Some parts /\
    (List.length parts = 3%nat \/
     (List.length parts = 4%nat /\ is_Some (py_int (nth 3 parts "")))) /\
    py_float (nth 0 parts "") = Some fx /\
    py_float (nth 1 parts "") = Some fy /\
    py_float (nth 2 parts "") = Some fz /\
    first_bad_is_infinite fx fy fz.
Proof.
  unfold Coord.parse_line.
  destruct (String.eqb (strip line) "") eqn:E1.
  - apply String.eqb_eq in E1. simpl. split; [discriminate | intros [H _]; contradiction].
  - apply String.eqb_neq in E1.
    destruct (startswith "#" (strip line)) eqn:E2; simpl.
    + split; [discriminate | intros (_ & H & _); discriminate].
    + rewrite try_line_fields.
      destruct (fields_of (strip line)) as [parts |].
      * pose proof (coordinate_of_parts_overflow parts) as H.
        destruct (coordinate_of_parts parts) as [o | []] eqn:Ec.
        -- split; [discriminate |].
           intros (_ & _ & ps & fx & fy & fz & [= <-] & Hrest).
           assert (Hr : Ok o = Raise OverflowError) by (apply H; eauto 10).
           discriminate.
        -- split; [discriminate |].
           intros (_ & _ & ps & fx & fy & fz & [= <-] & Hrest).
           assert (Hr : @Raise (option Coordinate) ValueError = Raise OverflowError)
             by (apply H; eauto 10).
           discriminate.
        -- split; [discriminate |].
           intros (_ & _ & ps & fx & fy & fz & [= <-] & Hrest).
           assert (Hr : @Raise (option Coordinate) IndexError = Raise OverflowError)
             by (apply H; eauto 10).
           discriminate.
        -- split; [discriminate |].
           intros (_ & _ & ps & fx & fy & fz & [= <-] & Hrest).
           assert (Hr : @Raise (option Coordinate) KeyError = Raise OverflowError)
             by (apply H; eauto 10).
           discriminate.
        -- split.
           ++ intros _. destruct (proj1 H eq_refl) as (fx & fy & fz & Hrest).
              split; [exact E1 |]. split; [reflexivity |]. exists parts, fx, fy, fz. auto.
           ++ reflexivity.
      * split; [discriminate |].
        intros (_ & _ & ps & fx & fy & fz & H & _). discriminate.
Qed.

End CoordinateText.

(** ** Unused material names *)

Section UnusedNames.
Import PyStr Config UniqueNames.

Lemma pretty_N_char_nonzero (x : N) : (0 < x < 10)%N -> pretty_N_char x <> "0"%char.
Proof.
  intros H.
  assert (x = 1 \/ x = 2 \/ x = 3 \/ x = 4 \/ x = 5 \/ x = 6 \/ x = 7 \/ x = 8 \/ x = 9)%N
    as E by lia.
  repeat (destruct E as [-> | E]; [discriminate |]). subst x. discriminate.
Qed.

(** The decimal text of a positive number starts with a digit other
    than zero. *)
Lemma pretty_N_go_head (x : N) (s : string) :
  (0 < x)%N ->
  exists c r, pretty_N_go x s = String c r /\ c <> "0"%char /\ is_digit c = true.
Proof.
  revert s. induction (N.lt_wf_0 x) as [x _ IH]. intros s Hx.
  rewrite pretty_N_go_step by assumption.
  destruct (N.eq_0_gt_0_cases (x / 10)) as [E | E].
  - rewrite E, pretty_N_go_0.
    assert (Hlt : (x < 10)%N) by (apply N.div_small_iff in E; [exact E | discriminate]).
    rewrite N.mod_small by assumption.
    exists (pretty_N_char x), s. split; [reflexivity |].
    split; [apply pretty_N_char_nonzero; lia | apply pretty_N_char_digit].
  - apply IH; [now apply N.div_lt | exact E].
Qed.

Lemma str_of_int_head (n : Z) :
  0 < n ->
  exists c r, str_of_int n = String c r /\ c <> "0"%char /\ is_digit c = true.
Proof.
  destruct n as [| p | p]; try lia. intros _.
  change (str_of_int (Zpos p)) with (pretty (Npos p)).
  unfold pretty, pretty_N. case_decide as E; [discriminate |].
  apply pretty_N_go_head. lia.
Qed.

(** Leading zeros taken off. *)
Fixpoint drop_zeros (s : string) : string :=
  match s with
  | String c r => if Ascii.eqb c "0" then drop_zeros r else s
  | EmptyString => EmptyString
  end.

Lemma drop_zeros_pad (k : nat) (s : string) : drop_zeros (zeros k ++ s) = drop_zeros s.
Proof. induction k as [| k IH]; [reflexivity | exact IH]. Qed.

Lemma zfill_digits (width : nat) (c : ascii) (r : string) :
  c <> "0"%char -> is_digit c = true ->
  drop_zeros (zfill width (String c r)) = String c r.
Proof.
  intros Hc Hd.
  assert (Hdrop : drop_zeros (String c r) = String c r).
  { simpl. apply Ascii.eqb_neq in Hc. now rewrite Hc. }
  assert (Hs : Ascii.eqb c "+" || Ascii.eqb c "-" = false).
  { apply orb_false_iff. split; apply Ascii.eqb_neq; intros ->; discriminate. }
  unfold zfill. destruct (width <=? String.length (String c r))%nat; [exact Hdrop |].
  rewrite Hs, drop_zeros_pad. exact Hdrop.
Qed.

Lemma zfill_positive (width : nat) (n : Z) :
  0 < n -> drop_zeros (zfill width (str_of_int n)) = str_of_int n.
Proof.
  intros Hn. destruct (str_of_int_head n Hn) as (c & r & E & Hc & Hd).
  rewrite E. now apply zfill_digits.
Qed.

Lemma numbered_inj (base_name : string) (a b : Z) :
  0 < a -> 0 < b -> numbered base_name a = numbered base_name b -> a = b.
Proof.
  intros Ha Hb H. unfold numbered in H.
  apply app_inv_prefix in H.
  change (String "." (zfill 3 (str_of_int a)) = String "." (zfill 3 (str_of_int b))) in H.
  injection H as H. apply (f_equal drop_zeros) in H.
  rewrite !zfill_positive in H by assumption. now apply str_of_int_inj.
Qed.

Lemma first_unused_none (materials : list string) (base_name : string) (fuel : nat)
      (counter : Z) :
  first_unused materials base_name fuel counter = None ->
  forall j, (j < fuel)%nat -> In (numbered base_name (counter + Z.of_nat j)) materials.
Proof.
  revert counter. induction fuel as [| fuel IH]; intros counter H j Hj; [lia |].
  simpl in H.
  destruct (str_in (numbered base_name counter) materials) eqn:E; [| discriminate].
  destruct j as [| j].
  - rewrite Z.add_0_r. now apply str_in_spec.
  - replace (counter + Z.of_nat (S j)) with (counter + 1 + Z.of_nat j) by lia.
    apply IH; [exact H | lia].
Qed.

Lemma first_unused_some (materials : list string) (base_name : string) (fuel : nat)
      (counter : Z) (name : string) :
  first_unused materials base_name fuel counter = Some name ->
  exists j, (j < fuel)%nat /\
            name = numbered base_name (counter + Z.of_nat j) /\
            ~ In name materials /\
            forall i, (i < j)%nat -> In (numbered base_name (counter + Z.of_nat i)) materials.
Proof.
  revert counter. induction fuel as [| fuel IH]; intros counter H; [discriminate |].
  simpl in H.
  destruct (str_in (numbered base_name counter) materials) eqn:E.
  - destruct (IH _ H) as (j & Hj & Hn & Hfree & Hbelow).
    exists (S j). split; [lia |]. split; [| split].
    + rewrite Hn. f_equal. lia.
    + exact Hfree.
    + intros [| i] Hi.
      * rewrite Z.add_0_r. now apply str_in_spec.
      * replace (counter + Z.of_nat (S i)) with (counter + 1 + Z.of_nat i) by lia.
        apply Hbelow. lia.
  - injection H as <-. exists 0%nat. split; [lia |]. rewrite Z.add_0_r.
    split; [reflexivity |]. split; [now apply str_in_false | intros i Hi; lia].
Qed.

(** More numbered names than there are materials cannot all be taken. *)
Lemma numbered_names_run_out (materials : list string) (base_name : string) (fuel : nat) :
  (List.length materials < fuel)%nat ->
  first_unused materials base_name fuel 1 <> None.
Proof.
  intros Hlen H.
  pose proof (first_unused_none _ _ _ _ H) as Hall.
  set (names := map (fun j => numbered base_name (1 + Z.of_nat j)) (seq 0 fuel)).
  assert (Hnodup : List.NoDup names).
  { subst names. apply Finite.Injective_map_NoDup; [| apply List.seq_NoDup].
    intros i j Hij. apply numbered_inj in Hij; lia. }
  assert (Hincl : incl names materials).
  { intros x Hx. subst names. apply in_map_iff in Hx. destruct Hx as (j & <- & Hj).
    apply in_seq in Hj. apply Hall. lia. }
  pose proof (List.NoDup_incl_length Hnodup Hincl) as Hle.
  subst names. rewrite length_map, length_seq in Hle. lia.
Qed.

(** X26: with more turns than there are materials, [get_unique_material_name]
    returns a name, the same for every such number of turns, and this name
    is not the name of a material: the base name itself when it is unused,
    and otherwise [{base_name}.{counter:03}] for the least counter from 1
    on whose name is unused. *)
Theorem unique_material_name_is_unused (fuel : nat) (materials : list string)
        (base_name : string) :
  (List.length materials < fuel)%nat ->
  exists name,
    get_unique_material_name fuel materials base_name = Some name /\
    ~ In name materials /\
    (~ In base_name materials -> name = base_name) /\
    (In base_name materials ->
     exists counter,
       1 <= counter <= Z.of_nat (List.length materials) + 1 /\
       name = numbered base_name counter /\
       forall k, 1 <= k < counter -> In (numbered base_name k) materials) /\
    (forall fuel', (List.length materials < fuel')%nat ->
                   get_unique_material_name fuel' materials base_name = Some name).
Proof.
  intros Hlen. unfold get_unique_material_name.
  destruct (str_in base_name materials) eqn:E; cbn [negb].
  - apply str_in_spec in E.
    destruct (first_unused materials base_name fuel 1) as [name |] eqn:Es;
      [| exfalso; exact (numbered_names_run_out _ _ _ Hlen Es)].
    destruct (first_unused_some _ _ _ _ _ Es) as (j & Hj & Hn & Hfree & Hbelow).
    assert (Hjlen : (j <= List.length materials)%nat).
    { destruct (Nat.le_gt_cases j (List.length materials)) as [Hle | Hgt]; [exact Hle |].
      exfalso.
      set (names := map (fun i => numbered base_name (1 + Z.of_nat i)) (seq 0 j)).
      assert (Hnodup : List.NoDup names).
      { subst names. apply Finite.Injective_map_NoDup; [| apply List.seq_NoDup].
        intros a b Hab. apply numbered_inj in Hab; lia. }
      assert (Hincl : incl names materials).
      { intros x Hx. subst names. apply in_map_iff in Hx. destruct Hx as (i & <- & Hi).
        apply in_seq in Hi. apply Hbelow. lia. }
      pose proof (List.NoDup_incl_length Hnodup Hincl) as Hle.
      subst names. rewrite length_map, length_seq in Hle. lia. }
    exists name. split; [reflexivity |]. split; [exact Hfree |].
    split; [intros Hno; contradiction |]. split.
    + intros _. exists (1 + Z.of_nat j). split; [lia |]. split; [exact Hn |].
      intros k Hk. replace k with (1 + Z.of_nat (Z.to_nat (k - 1))) by lia.
      apply Hbelow. lia.
    + intros fuel' Hlen'.
      destruct (first_unused materials base_name fuel' 1) as [name' |] eqn:Es';
        [| exfalso; exact (numbered_names_run_out _ _ _ Hlen' Es')].
      destruct (first_unused_some _ _ _ _ _ Es') as (j' & Hj' & Hn' & Hfree' & Hbelow').
      f_equal. subst name name'.
      destruct (Nat.lt_trichotomy j j') as [Hlt | [-> | Hgt]]; [| reflexivity |].
      * exfalso. apply Hfree. now apply Hbelow'.
      * exfalso. apply Hfree'. now apply Hbelow.
  - apply str_in_false in E. exists base_name.
    split; [reflexivity |]. split; [exact E |]. split; [reflexivity |].
    split; [intros Hin; contradiction | reflexivity].
Qed.

End UnusedNames.

Lemma unique_material_name_is_unused_witness :
  exists name,
    UniqueNames.get_unique_material_name 3 ["BlockMat_X_7"; "BlockMat_X_7.001"] "BlockMat_X_7"
    = Some name /\
    ~ In name ["BlockMat_X_7"; "BlockMat_X_7.001"].
Proof.
  destruct (unique_material_name_is_unused 3 ["BlockMat_X_7"; "BlockMat_X_7.001"]
              "BlockMat_X_7") as (name & H1 & H2 & _).
  - simpl. lia.
  - exists name. split; assumption.
Defined.

(** ** The sweep of duplicate materials *)

Section DuplicateSweep.
Import PyStr Materials UniqueNames Duplicates.

(** The materials that the first loop looks at, and their base names. *)
Definition is_block_material (mat : Material) : bool :=
  String.prefix "BlockMat_" (mat_name mat).

Definition base_name_of (mat : Material) : string := strip_counter (mat_name mat).

(** The materials recorded under a base name. *)
Definition group_of (base_name : string) (groups : list (string * list Material))
  : list Material :=
  match List.find (fun group => String.eqb (fst group) base_name) groups with
  | Some group => snd group
  | None => []
  end.

Lemma group_of_add (b b' : string) (mat : Material) (groups : list (string * list Material)) :
  group_of b (add_to_group b' mat groups)
  = if String.eqb b' b then (group_of b groups ++ [mat])%list else group_of b groups.
Proof.
  induction groups as [| [x ms] rest IH]; unfold group_of in *; simpl.
  - destruct (String.eqb b' b); reflexivity.
  - destruct (String.eqb x b') eqn:Exb'; simpl.
    + apply String.eqb_eq in Exb'. subst x.
      destruct (String.eqb b' b); reflexivity.
    + destruct (String.eqb x b) eqn:Exb; simpl; [| exact IH].
      apply String.eqb_eq in Exb. subst x. rewrite String.eqb_sym in Exb'.
      now rewrite Exb'.
Qed.

Lemma group_of_fold (b : string) (data : list Material)
      (groups : list (string * list Material)) :
  group_of b (fold_left group_step data groups)
  = (group_of b groups
     ++ List.filter (fun m => is_block_material m && String.eqb (base_name_of m) b) data)%list.
Proof.
  revert groups. induction data as [| m data IH]; intros groups; simpl.
  - now rewrite app_nil_r.
  - rewrite IH. unfold group_step, is_block_material at 2, base_name_of at 2.
    destruct (String.prefix "BlockMat_" (mat_name m)); simpl; [| reflexivity].
    rewrite group_of_add.
    destruct (String.eqb (strip_counter (mat_name m)) b); [| reflexivity].
    now rewrite <- app_assoc.
Qed.

Lemma keys_add (b : string) (mat : Material) (groups : list (string * list Material)) :
  map fst (add_to_group b mat groups)
  = if existsb (String.eqb b) (map fst groups) then map fst groups
    else (map fst groups ++ [b])%list.
Proof.
  induction groups as [| [x ms] rest IH]; simpl; [reflexivity |].
  rewrite (String.eqb_sym b x).
  destruct (String.eqb x b) eqn:E; simpl; [reflexivity |].
  rewrite IH. destruct (existsb (String.eqb b) (map fst rest)); reflexivity.
Qed.

Lemma keys_distinct (data : list Material) (groups : list (string * list Material)) :
  List.NoDup (map fst groups) -> List.NoDup (map fst (fold_left group_step data groups)).
Proof.
  revert groups. induction data as [| m data IH]; intros groups H; simpl; [exact H |].
  apply IH. unfold group_step.
  destruct (String.prefix "BlockMat_" (mat_name m)); [| exact H].
  rewrite keys_add.
  destruct (existsb (String.eqb (strip_counter (mat_name m))) (map fst groups)) eqn:E;
    [exact H |].
  apply List.NoDup_app; [exact H | repeat constructor; intros [] |].
  intros k Hk [<- | []].
  assert (Et : existsb (String.eqb (strip_counter (mat_name m))) (map fst groups) = true).
  { apply existsb_exists. exists (strip_counter (mat_name m)).
    split; [exact Hk | apply String.eqb_refl]. }
  congruence.
Qed.

Lemma group_of_member (groups : list (string * list Material)) (g : string * list Material) :
  List.NoDup (map fst groups) -> In g groups -> group_of (fst g) groups = snd g.
Proof.
  unfold group_of. induction groups as [| h rest IH]; intros Hnd Hin; [destruct Hin |].
  simpl. inversion Hnd as [| ? ? Hnot Hrest]; subst.
  destruct Hin as [-> | Hin].
  - now rewrite String.eqb_refl.
  - destruct (String.eqb (fst h) (fst g)) eqn:E; [| now apply IH].
    apply String.eqb_eq in E. exfalso. apply Hnot. rewrite E. now apply in_map.
Qed.

Lemma tail_guard {A : Type} (l : list A) :
  (if (1 <? List.length l)%nat then tl l else []) = tl l.
Proof. destruct l as [| a [| b l]]; reflexivity. Qed.

Lemma in_duplicates_of (groups : list (string * list Material)) (mat : Material) :
  List.NoDup (map fst groups) ->
  (In mat (duplicates_of groups) <-> exists b, In mat (tl (group_of b groups))).
Proof.
  intros Hnd. unfold duplicates_of. rewrite in_flat_map. split.
  - intros (g & Hg & Hin). rewrite tail_guard in Hin.
    exists (fst g). now rewrite group_of_member.
  - intros (b & Hin). unfold group_of in Hin.
    destruct (List.find (fun group => String.eqb (fst group) b) groups) as [g |] eqn:E;
      [| destruct Hin].
    apply find_some in E. exists g. split; [tauto |]. now rewrite tail_guard.
Qed.

(** In the tail of a selection: selected, and after another selected one. *)
Lemma in_tail_of_filter {A : Type} (p : A -> bool) (l : list A) (a : A) :
  In a (tl (List.filter p l)) <->
  exists l1 l2 a', l = (l1 ++ a :: l2)%list /\ p a = true /\ In a' l1 /\ p a' = true.
Proof.
  induction l as [| x l IH]; simpl.
  - split; [intros [] |]. intros (l1 & l2 & a' & H & _). destruct l1; discriminate.
  - destruct (p x) eqn:Ex; simpl.
    + split.
      * intros Hin. apply filter_In in Hin. destruct Hin as [Hin Hp].
        apply in_split in Hin. destruct Hin as (l1 & l2 & ->).
        exists (x :: l1), l2, x. simpl. auto.
      * intros (l1 & l2 & a' & H & Hp & Hin' & Hp').
        destruct l1 as [| y l1]; [destruct Hin' |].
        injection H as <- ->. apply filter_In. split; [| exact Hp].
        apply in_or_app. right. now left.
    + rewrite IH. split.
      * intros (l1 & l2 & a' & -> & Hp & Hin' & Hp').
        exists (x :: l1), l2, a'. simpl. auto.
      * intros (l1 & l2 & a' & H & Hp & Hin' & Hp').
        destruct l1 as [| y l1]; [destruct Hin' |].
        injection H as <- ->. destruct Hin' as [<- | Hin']; [congruence |].
        exists l1, l2, a'. auto.
Qed.

Lemma forget_all (duplicates : list Material) (cache : gmap string Material)
      (key : string) (mat : Material) :
  fold_left forget duplicates cache !! key = Some mat
  <-> cache !! key = Some mat /\ ~ In mat duplicates.
Proof.
  revert cache. induction duplicates as [| d rest IH]; intros cache; simpl.
  - tauto.
  - rewrite IH. unfold forget. rewrite map_lookup_filter_Some. simpl.
    split.
    + intros [[H1 H2] H3]. split; [exact H1 |]. intros [-> | H]; auto.
    + intros [H1 H2]. split; [split; [exact H1 |] |]; intros H; apply H2; auto.
Qed.

Lemma in_duplicates (data : list Material) (mat : Material) :
  In mat (duplicates_of (block_materials data)) <->
  exists before after first,
    data = (before ++ mat :: after)%list /\
    is_block_material mat = true /\
    In first before /\ is_block_material first = true /\
    base_name_of first = base_name_of mat.
Proof.
  unfold block_materials.
  rewrite in_duplicates_of by (apply keys_distinct; constructor).
  split.
  - intros (b & Hin). rewrite group_of_fold in Hin. simpl in Hin.
    apply in_tail_of_filter in Hin.
    destruct Hin as (l1 & l2 & first & -> & Hp & Hf & Hpf).
    apply andb_true_iff in Hp, Hpf.
    destruct Hp as [Hp Hb]. destruct Hpf as [Hpf Hbf].
    apply String.eqb_eq in Hb, Hbf.
    exists l1, l2, first. repeat split; auto. congruence.
  - intros (l1 & l2 & first & -> & Hp & Hf & Hpf & Hb).
    exists (base_name_of mat). rewrite group_of_fold. simpl.
    apply in_tail_of_filter. exists l1, l2, first.
    rewrite Hp, Hpf, Hb, String.eqb_refl. auto.
Qed.

(** X27: [clear_duplicate_materials] returns exactly the materials named
    [BlockMat_...] that come, in [bpy.data.materials], after another such
    material of the same base name (the name without a final [.ddd]): so
    the first material of a base name is never returned, nor is one whose
    name does not start with [BlockMat_]; and the cache of the manager
    keeps exactly the entries whose material is not returned. *)
Theorem duplicates_are_later_materials (data : list Material)
        (cache : gmap string Material) :
  let result := clear_duplicate_materials data cache in
  (forall mat,
      In mat (snd result) <->
      exists before after first,
        data = (before ++ mat :: after)%list /\
        is_block_material mat = true /\
        In first before /\ is_block_material first = true /\
        base_name_of first = base_name_of mat) /\
  (forall mat, In mat (snd result) -> In mat data /\ is_block_material mat = true) /\
  (forall (key : string) (mat : Material),
      fst result !! key = Some mat <-> cache !! key = Some mat /\ ~ In mat (snd result)).
Proof.
  intros result. subst result. unfold clear_duplicate_materials. cbn [fst snd].
  split; [apply in_duplicates |]. split.
  - intros mat Hin. apply in_duplicates in Hin.
    destruct Hin as (l1 & l2 & first & -> & Hp & _).
    split; [apply in_or_app; right; now left | exact Hp].
  - intros key mat. apply forget_all.
Qed.

Lemma three_digits (k : Z) :
  1 <= k <= 999 ->
  exists a b c, zfill 3 (str_of_int k) = String a (String b (String c ""))
                /\ is_digit a = true /\ is_digit b = true /\ is_digit c = true.
Proof.
  intros Hk.
  set (check := fun n : nat =>
         match zfill 3 (str_of_int (Z.of_nat n)) with
         | String a (String b (String c EmptyString)) =>
             is_digit a && is_digit b && is_digit c
         | _ => false
         end).
  assert (Hall : forallb check (seq 1 999) = true) by (vm_compute; reflexivity).
  rewrite forallb_forall in Hall.
  specialize (Hall (Z.to_nat k)).
  assert (Hin : In (Z.to_nat k) (seq 1 999)) by (apply in_seq; lia).
  specialize (Hall Hin). subst check. cbv beta in Hall.
  rewrite Z2Nat.id in Hall by lia.
  destruct (zfill 3 (str_of_int k)) as [| a [| b [| c [| d r]]]]; try discriminate.
  apply andb_true_iff in Hall. destruct Hall as [Hab Hc].
  apply andb_true_iff in Hab. destruct Hab as [Ha Hb].
  exists a, b, c. auto.
Qed.

Lemma string_length_app (s t : string) :
  String.length (s ++ t) = (String.length s + String.length t)%nat.
Proof.
  induction s as [| c s IH]; [reflexivity |].
  change (S (String.length (s ++ t)) = S (String.length s + String.length t)).
  now rewrite IH.
Qed.

Lemma counter_at_end_short (s tail : string) :
  counter_at_end s = Some tail ->
  (String.length s <= 4)%nat /\ exists a r, s = String a r /\ is_digit a = true.
Proof.
  unfold counter_at_end.
  destruct s as [| a [| b [| c t]]]; try discriminate.
  destruct (is_digit a) eqn:Ea; [| discriminate].
  destruct (is_digit b); [| discriminate].
  destruct (is_digit c); [| discriminate]. simpl.
  destruct (String.eqb t "") eqn:E1; simpl.
  - apply String.eqb_eq in E1. subst t. intros _. split; [simpl; lia | eauto].
  - destruct (String.eqb t (String "010" "")) eqn:E2; [| discriminate].
    apply String.eqb_eq in E2. subst t. intros _. split; [simpl; lia | eauto].
Qed.

Lemma strip_counter_numbered (base_name : string) (a b c : ascii) :
  is_digit a = true -> is_digit b = true -> is_digit c = true ->
  strip_counter (base_name ++ "." ++ String a (String b (String c ""))) = base_name.
Proof.
  intros Ha Hb Hc. induction base_name as [| x base IH].
  - change (strip_counter (String "." (String a (String b (String c "")))) = "").
    simpl. rewrite Ha, Hb, Hc. reflexivity.
  - change (strip_counter (String x (base ++ "." ++ String a (String b (String c ""))))
            = String x base).
    cbn [strip_counter]. rewrite IH.
    destruct (if Ascii.eqb x "." then
                counter_at_end (base ++ "." ++ String a (String b (String c "")))
              else None) as [tail |] eqn:E; [| reflexivity].
    exfalso. destruct (Ascii.eqb x "."); [| discriminate].
    apply counter_at_end_short in E. destruct E as [Hlen (d & r & Hs & Hd)].
    rewrite string_length_app in Hlen.
    destruct base as [| y base'].
    + change (String "." (String a (String b (String c ""))) = String d r) in Hs.
      injection Hs as <- _. discriminate.
    + simpl in Hlen. lia.
Qed.

Lemma prefix_app_l (p s t : string) :
  String.prefix p s = true -> String.prefix p (s ++ t) = true.
Proof.
  intros H. apply prefix_split in H. destruct H as [rest ->].
  rewrite string_app_assoc. apply prefix_app.
Qed.

(** X28: a numbered name [{base_name}.{counter:03}] with a counter from 1
    to 999, as [get_unique_material_name] makes them, has the base name
    [base_name] again; so, for a base name that starts with [BlockMat_]
    and that [re.sub] leaves alone, the material of such a name is
    returned by [clear_duplicate_materials] whenever the material of the
    base name comes before it. *)
Theorem numbered_names_are_duplicates (base_name : string) (counter : Z)
        (before after : list Material) (cache : gmap string Material) :
  1 <= counter <= 999 ->
  strip_counter (numbered base_name counter) = base_name /\
  (String.prefix "BlockMat_" base_name = true ->
   strip_counter base_name = base_name ->
   In (mkMaterial base_name) before ->
   In (mkMaterial (numbered base_name counter))
      (snd (clear_duplicate_materials
              (before ++ mkMaterial (numbered base_name counter) :: after) cache))).
Proof.
  intros Hk.
  assert (Hs : strip_counter (numbered base_name counter) = base_name).
  { destruct (three_digits counter Hk) as (a & b & c & E & Ha & Hb & Hc).
    unfold numbered. rewrite E. now apply strip_counter_numbered. }
  split; [exact Hs |].
  intros Hp Hb Hin.
  unfold clear_duplicate_materials. cbn [snd]. apply in_duplicates.
  exists before, after, (mkMaterial base_name).
  split; [reflexivity |].
  unfold is_block_material, base_name_of. cbn [mat_name].
  rewrite Hs, Hb, Hp. repeat split; auto.
  unfold numbered. now apply prefix_app_l.
Qed.

End DuplicateSweep.

Lemma numbered_names_are_duplicates_witness :
  Duplicates.strip_counter (UniqueNames.numbered "BlockMat_X_7" 1) = "BlockMat_X_7" /\
  In (Materials.mkMaterial (UniqueNames.numbered "BlockMat_X_7" 1))
     (snd (Duplicates.clear_duplicate_materials
             ([Materials.mkMaterial "BlockMat_X_7"]
              ++ Materials.mkMaterial (UniqueNames.numbered "BlockMat_X_7" 1) :: []) ∅)).
Proof.
  destruct (numbered_names_are_duplicates "BlockMat_X_7" 1
              [Materials.mkMaterial "BlockMat_X_7"] [] ∅) as [H1 H2]; [lia |].
  split; [exact H1 |]. apply H2.
  - reflexivity.
  - vm_compute. reflexivity.
  - now left.
Defined.

(** ** The materials that a main model ends with *)

Section OwnedMaterials.
Import PyStr Mapping Config Faces Py Materials.
Variable path_exists : string -> bool.
Variable length : Vector -> float.
Variable normalized : Vector -> Vector.

(** A material of the position id: its name is [BlockMat_{kind}_{id}]. *)
Definition owned_by (pid : Z) (mat : Material) : Prop :=
  exists kind, mat_name mat = "BlockMat_" ++ kind ++ "_" ++ str_of_int pid.

Lemma face_material_owned (pid : Z) (texture : option string) (face_type : string) :
  owned_by pid (create_or_get_face_material pid texture face_type).
Proof. exists (upper face_type). reflexivity. Qed.

Lemma default_material_owned (pid : Z) : owned_by pid (create_or_get_default_material pid).
Proof. exists "Default". reflexivity. Qed.

Lemma teamspawn_material_owned (pid : Z) (path : string) :
  owned_by pid (create_or_get_teamspawn_material pid path).
Proof. exists "Teamspawn". reflexivity. Qed.

(** Between one and four slots, each holding a material of the id. *)
Definition slots_owned (pid : Z) (r : MeshObject * bool) : Prop :=
  Forall (owned_by pid) (materials (fst r)) /\
  (1 <= List.length (materials (fst r)) <= 4)%nat.

Ltac owned_slots :=
  cbn [fst materials app]; split;
  [ repeat constructor;
    first [apply face_material_owned | apply default_material_owned
           | apply teamspawn_material_owned]
  | simpl; lia ].

Ltac owned_by_assign :=
  match goal with
  | |- (let! ps := assign ?ch ?pl in _) = Ok _ -> _ =>
      let assigned := fresh "assigned" in
      destruct (assign ch pl) as [assigned |]; simpl Py.bind; [| discriminate];
      intros [= <-]; owned_slots
  end.

Ltac owned_or_empty :=
  match goal with
  | |- (if (List.length ?pl =? 0)%nat then _ else _) = Ok _ -> _ =>
      destruct (List.length pl =? 0)%nat;
      [intros [= <-]; owned_slots | owned_by_assign]
  end.

Lemma teamspawn_slots_owned (ps : list Polygon) (pid : Z) (c : ModelConfig)
      (r : MeshObject * bool) :
  apply_teamspawn_material_system path_exists (mkMeshObject ps []) pid c = Ok r ->
  slots_owned pid r.
Proof.
  unfold apply_teamspawn_material_system, slots_owned. cbn [polygons materials].
  destruct (get_teamspawn_texture_path path_exists c); cbn [option_map]; cbv zeta;
    owned_by_assign.
Qed.

Lemma default_slots_owned (ps : list Polygon) (pid : Z) (c : ModelConfig)
      (r : MeshObject * bool) :
  apply_default_material_system path_exists length normalized (mkMeshObject ps []) pid c
  = Ok r ->
  slots_owned pid r.
Proof.
  unfold apply_default_material_system, slots_owned. cbn [polygons materials].
  destruct (get_texture_path path_exists c "x");
    destruct (get_texture_path path_exists c "y");
    destruct (get_texture_path path_exists c "z");
    cbv zeta; first [owned_or_empty | owned_by_assign].
Qed.

Lemma soil_slots_owned (ps : list Polygon) (pid : Z) (c : ModelConfig)
      (r : MeshObject * bool) :
  apply_soil_material_system path_exists length normalized (mkMeshObject ps []) pid c
  = Ok r ->
  slots_owned pid r.
Proof.
  unfold apply_soil_material_system, slots_owned. cbn [polygons materials].
  destruct (get_texture_path path_exists c "x");
    destruct (get_texture_path path_exists c "z");
    cbn [option_map]; cbv zeta; owned_or_empty.
Qed.

Lemma minestone_slots_owned (ps : list Polygon) (pid : Z) (c : ModelConfig)
      (r : MeshObject * bool) :
  apply_minestone_material_system path_exists length normalized (mkMeshObject ps []) pid c
  = Ok r ->
  slots_owned pid r.
Proof.
  unfold apply_minestone_material_system, slots_owned. cbn [polygons materials].
  destruct (get_texture_path path_exists c "x");
    destruct (get_texture_path path_exists c "y");
    destruct (get_texture_path path_exists c "z");
    cbn [option_map fst snd]; cbv zeta; first [owned_or_empty | owned_by_assign].
Qed.

(** X29: for the configuration that [ModelConfig.__init__] builds, whatever
    the mapping record and the files, a main model for which
    [apply_main_model_materials] returns ends with between one and four
    material slots, and every slot holds a material of its own position id,
    one that the manager caches under a name [BlockMat_{kind}_{id}]: the
    slots that the object had before are gone, and the branch that would
    leave it without material is never taken. *)
Theorem main_model_gets_its_own_materials (pid : Z) (data : option MappingRecord)
        (tex models : string) (obj obj' : MeshObject) (done : bool) :
  apply_main_model_materials path_exists length normalized obj pid
    (Some (new_ModelConfig path_exists pid data tex models)) = Ok (obj', done) ->
  (1 <= List.length (materials obj') <= 4)%nat /\
  (forall mat, In mat (materials obj') ->
               exists kind, mat_name mat = "BlockMat_" ++ kind ++ "_" ++ str_of_int pid).
Proof.
  intros H. rewrite apply_main_start, apply_main_slotless in H.
  assert (K : slots_owned pid (obj', done)).
  { pose proof (choose_never_submodel_only (from_option blocktype "" data)
                  (from_option main_texture_prefix "" data)) as Hsys.
    rewrite <- material_system_of_config
      with (path_exists := path_exists) (pid := pid) (tex := tex) (models := models)
      in Hsys.
    destruct (material_system (new_ModelConfig path_exists pid data tex models)).
    - eapply teamspawn_slots_owned, H.
    - eapply soil_slots_owned, H.
    - eapply minestone_slots_owned, H.
    - congruence.
    - eapply default_slots_owned, H. }
  destruct K as [K1 K2]. split; [exact K2 |].
  intros mat Hin. rewrite List.Forall_forall in K1. exact (K1 mat Hin).
Qed.

End OwnedMaterials.

Lemma main_model_gets_its_own_materials_witness :
  (1 <= List.length (Materials.materials two_polygon_stone) <= 4)%nat /\
  (forall mat, In mat (Materials.materials two_polygon_stone) ->
               exists kind,
                 Materials.mat_name mat = "BlockMat_" ++ kind ++ "_" ++ PyStr.str_of_int 3).
Proof.
  apply (main_model_gets_its_own_materials stone_files (fun _ => 0%float) (fun v => v)
           3 (Some stone_record) "/tex" "/models" two_polygon_mesh two_polygon_stone true).
  vm_compute. reflexivity.
Defined.

(** ** Placement arithmetic: what the results do not depend on *)

Section PlacementArithmetic.
Import Py Placement Scaling.

Lemma world_coordinate_shape (x y z : Z) (base sx sy sz : float) (dir : string)
      (centre adjacent : bool) :
  get_world_coordinate_for_model (x, y, z) base sx sy sz dir centre adjacent
  = (let! fx := float_of_int x in
     let! fy := float_of_int y in
     let! fz := float_of_int z in
     let step_x := if adjacent then sx else base in
     let step_y := if adjacent then sy else base in
     let step_z := if adjacent then sz else base in
     Ok ((fx * step_x)%float, (fy * step_y)%float,
         if centre then (fz * step_z + sz / 2)%float else (fz * step_z)%float)).
Proof.
  unfold get_world_coordinate_for_model.
  destruct (float_of_int x); [| reflexivity].
  destruct (float_of_int y); [| reflexivity].
  destruct (float_of_int z); [| reflexivity].
  destruct adjacent, centre; reflexivity.
Qed.

(** X30: the world coordinates of a block do not depend on the direction
    mode; in adjacent mode they do not depend on the base block size, and
    otherwise not on the X and Y sizes of the model (nor on its Z size when
    the bottom is aligned); aligning the centre changes nothing but adds
    half the Z size to the Z coordinate.  The scale of a loaded model is
    left alone ([None]) in every mode other than [ONE_METER] and [CUSTOM],
    in [ONE_METER] mode when the largest dimension is not above 0.001 (a
    NaN included), and in [CUSTOM] mode for the factor 1. *)
Theorem placement_arithmetic_frames :
  (forall (grid : Z * Z * Z) (base sx sy sz : float) (dir dir' : string)
          (centre adjacent : bool),
      get_world_coordinate_for_model grid base sx sy sz dir centre adjacent
      = get_world_coordinate_for_model grid base sx sy sz dir' centre adjacent) /\
  (forall (grid : Z * Z * Z) (base base' sx sy sz : float) (dir : string) (centre : bool),
      get_world_coordinate_for_model grid base sx sy sz dir centre true
      = get_world_coordinate_for_model grid base' sx sy sz dir centre true) /\
  (forall (grid : Z * Z * Z) (base sx sy sx' sy' sz sz' : float) (dir : string),
      get_world_coordinate_for_model grid base sx sy sz dir true false
      = get_world_coordinate_for_model grid base sx' sy' sz dir true false /\
      get_world_coordinate_for_model grid base sx sy sz dir false false
      = get_world_coordinate_for_model grid base sx' sy' sz' dir false false) /\
  (forall (grid : Z * Z * Z) (base sx sy sz : float) (dir : string) (adjacent : bool)
          (wx wy wz : float),
      get_world_coordinate_for_model grid base sx sy sz dir false adjacent
      = Ok (wx, wy, wz) ->
      get_world_coordinate_for_model grid base sx sy sz dir true adjacent
      = Ok (wx, wy, (wz + sz / 2)%float)) /\
  (forall (max_size custom base : float) (mode : string),
      mode <> "ONE_METER" -> mode <> "CUSTOM" ->
      scale_to_apply max_size mode custom base = None) /\
  (forall max_size custom base : float,
      PrimFloat.ltb 0x1.0624dd2f1a9fcp-10 max_size = false ->
      scale_to_apply max_size "ONE_METER" custom base = None) /\
  (forall max_size base : float, scale_to_apply max_size "CUSTOM" 1 base = None).
Proof.
  split; [| split; [| split; [| split; [| split; [| split]]]]].
  - intros [[x y] z] base sx sy sz dir dir' centre adjacent.
    now rewrite !world_coordinate_shape.
  - intros [[x y] z] base base' sx sy sz dir centre.
    now rewrite !world_coordinate_shape.
  - intros [[x y] z] base sx sy sx' sy' sz sz' dir.
    now rewrite !world_coordinate_shape.
  - intros [[x y] z] base sx sy sz dir adjacent wx wy wz.
    rewrite !world_coordinate_shape.
    destruct (float_of_int x); [| discriminate].
    destruct (float_of_int y); [| discriminate].
    destruct (float_of_int z); [| discriminate].
    simpl. now intros [= <- <- <-].
  - intros max_size custom base mode H1 H2.
    unfold scale_to_apply, calculate_scaling_factor.
    apply String.eqb_neq in H1, H2. rewrite H1, H2. reflexivity.
  - intros max_size custom base H.
    unfold scale_to_apply, calculate_scaling_factor. cbn [String.eqb].
    change (String.eqb "ONE_METER" "ONE_METER") with true. cbv iota.
    rewrite H. reflexivity.
  - intros max_size base. reflexivity.
Qed.

End PlacementArithmetic.
